(** * AI Career Roadmap Guide: the resilient ingestion pipeline

    A shallow embedding of the roadmap service's JSON recovery cascade
    ([app/utils/json_sanitizer.py]), its activity normaliser and
    post-validation ([app/utils/validation.py]), the month/week/quest
    walker and the search-query builder
    ([app/services/weekly_roadmap_generator.py]), the transport wrapper
    ([app/utils/gemini_client.py]), the search client
    ([app/utils/tavily_client.py]) and the multi-month assembler
    ([app/api/endpoints/roadmap.py]).

    Python [str] values are modelled as [string]; one [ascii] stands for
    one code point below 256, on which [str.isspace], the regex classes
    [\s] and [\d] are the finite sets written out below. *)

From Stdlib Require Import String Ascii List ZArith Lia Bool DecimalString.
From stdpp Require Import gmap strings list.
Import ListNotations.
Local Open Scope string_scope.
Set Warnings "-register-all".

(** ** Python string primitives *)

Module PyStr.

Definition nl : ascii := "010"%char.
Definition cr : ascii := "013"%char.
Definition NL : string := String nl EmptyString.
Definition CR : string := String cr EmptyString.

Definition code (c : ascii) : nat := nat_of_ascii c.

(** [\d] on code points below 256. *)
Definition is_digit (c : ascii) : bool :=
  (48 <=? code c)%nat && (code c <=? 57)%nat.

(** [str.isspace] and the regex class [\s] on code points below 256. *)
Definition is_space (c : ascii) : bool :=
  let n := code c in
  ((9 <=? n)%nat && (n <=? 13)%nat) || ((28 <=? n)%nat && (n <=? 32)%nat)
  || (n =? 133)%nat || (n =? 160)%nat.

(** The class [[\x00-\x09\x0B\x0C\x0E-\x1F\x7F]]. *)
Definition is_ctrl (c : ascii) : bool :=
  let n := code c in
  (n <=? 9)%nat || (n =? 11)%nat || (n =? 12)%nat
  || ((14 <=? n)%nat && (n <=? 31)%nat) || (n =? 127)%nat.

(** Truthiness of a [str]. *)
Definition nonempty (s : string) : bool :=
  match s with EmptyString => false | String _ _ => true end.

Fixpoint lstrip (s : string) : string :=
  match s with
  | EmptyString => EmptyString
  | String c s' => if is_space c then lstrip s' else s
  end.

Fixpoint rstrip (s : string) : string :=
  match s with
  | EmptyString => EmptyString
  | String c s' =>
      match rstrip s' with
      | EmptyString => if is_space c then EmptyString else String c EmptyString
      | r => String c r
      end
  end.

(** [s.strip()] *)
Definition strip (s : string) : string := rstrip (lstrip s).

(** [s.lstrip] of newline characters. *)
Fixpoint lstrip_nl (s : string) : string :=
  match s with
  | EmptyString => EmptyString
  | String c s' => if Ascii.eqb c nl then lstrip_nl s' else s
  end.

(** [s.split(d)] for a one-character separator. *)
Fixpoint split_on (d : ascii) (s : string) : list string :=
  match s with
  | EmptyString => [EmptyString]
  | String c s' =>
      if Ascii.eqb c d then EmptyString :: split_on d s'
      else match split_on d s' with
           | l :: ls => String c l :: ls
           | [] => [String c EmptyString]
           end
  end.

Definition lines (s : string) : list string := split_on nl s.

(** [sep.join(l)] *)
Definition join (sep : string) (l : list string) : string := String.concat sep l.

Fixpoint drop (n : nat) (s : string) : string :=
  match n, s with
  | O, _ => s
  | S k, String _ s' => drop k s'
  | S _, EmptyString => EmptyString
  end.

(** [s[:n]] *)
Fixpoint take (n : nat) (s : string) : string :=
  match n, s with
  | S k, String c s' => String c (take k s')
  | _, _ => EmptyString
  end.

(** [s[:-1]] *)
Fixpoint drop_last (s : string) : string :=
  match s with
  | EmptyString => EmptyString
  | String c EmptyString => EmptyString
  | String c s' => String c (drop_last s')
  end.

Definition startswith (p s : string) : bool := String.prefix p s.

Fixpoint endswith_aux (p : string) (k : nat) (s : string) : bool :=
  match k with
  | O => String.eqb p s
  | S k' => match s with
            | EmptyString => false
            | String _ s' => endswith_aux p k' s'
            end
  end.

(** [s.endswith(p)] *)
Definition endswith (p s : string) : bool :=
  (String.length p <=? String.length s)%nat
  && endswith_aux p (String.length s - String.length p) s.

(** [p in s] for strings. *)
Fixpoint contains (p s : string) : bool :=
  String.prefix p s ||
  match s with
  | EmptyString => false
  | String _ s' => contains p s'
  end.

(** [s.count(c)] for a one-character argument. *)
Fixpoint count_char (d : ascii) (s : string) : nat :=
  match s with
  | EmptyString => 0
  | String c s' => (if Ascii.eqb c d then 1 else 0) + count_char d s'
  end.

(** One left-to-right pass of [str.replace], [skip] counting the
    characters of a match still to be passed over. *)
Fixpoint replace_from (old new : string) (skip : nat) (s : string) : string :=
  match s with
  | EmptyString => EmptyString
  | String c s' =>
      match skip with
      | S k => replace_from old new k s'
      | O =>
          if String.prefix old s
          then new ++ replace_from old new (String.length old - 1) s'
          else String c (replace_from old new 0 s')
      end
  end.

Fixpoint interleave (new s : string) : string :=
  match s with
  | EmptyString => new
  | String c s' => new ++ String c (interleave new s')
  end.

(** [s.replace(old, new)]: every non-overlapping occurrence, leftmost
    first; an empty [old] matches between all characters. *)
Definition replace (old new s : string) : string :=
  match old with
  | EmptyString => interleave new s
  | String _ _ => replace_from old new 0 s
  end.

(** [s.split(sep)[0]] and [s.split(sep, 1)[0]] for a non-empty [sep]:
    the text before its first occurrence. *)
Fixpoint before (sep s : string) : string :=
  match s with
  | EmptyString => EmptyString
  | String c s' => if String.prefix sep s then EmptyString else String c (before sep s')
  end.

(** [s.split(sep, 1)[1]], defined when [sep] occurs in [s]. *)
Fixpoint after (sep s : string) : string :=
  match s with
  | EmptyString => EmptyString
  | String c s' =>
      if String.prefix sep s then drop (String.length sep) s else after sep s'
  end.

Fixpoint filter_chars (keep : ascii -> bool) (s : string) : string :=
  match s with
  | EmptyString => EmptyString
  | String c s' =>
      if keep c then String c (filter_chars keep s') else filter_chars keep s'
  end.

(** [re.sub(r'[\x00-\x09\x0B\x0C\x0E-\x1F\x7F]', '', s)] *)
Definition remove_ctrl (s : string) : string :=
  filter_chars (fun c => negb (is_ctrl c)) s.

(** [s.replace('\r\n', '\n').replace('\r', '\n')] *)
Definition normalize_newlines (s : string) : string :=
  replace CR NL (replace (CR ++ NL) NL s).

Fixpoint drop_digits (s : string) : string :=
  match s with
  | EmptyString => EmptyString
  | String c s' => if is_digit c then drop_digits s' else s
  end.

(** What follows a match of [^\d+\.], if there is one. *)
Definition after_number (s : string) : option string :=
  match s with
  | EmptyString => None
  | String c s' =>
      if is_digit c then
        match drop_digits s' with
        | String d r => if Ascii.eqb d "."%char then Some r else None
        | EmptyString => None
        end
      else None
  end.

(** [re.match(r'^\d+\.', s) is not None] *)
Definition starts_numbered (s : string) : bool :=
  match after_number s with Some _ => true | None => false end.

(** [re.match(r'^\d+\.$', s)]: [$] also matches before a final newline. *)
Definition bare_number (s : string) : bool :=
  match after_number s with
  | Some r => String.eqb r EmptyString || String.eqb r NL
  | None => false
  end.

(** [str(n)] for a natural number. *)
Definition dec (n : nat) : string := NilZero.string_of_uint (Nat.to_uint n).

(** [c.lower()] on code points below 256: the letters A to Z and the
    capital letters of the Latin-1 supplement move up by 32. *)
Definition lower_char (c : ascii) : ascii :=
  let n := code c in
  if ((65 <=? n)%nat && (n <=? 90)%nat)
     || ((192 <=? n)%nat && (n <=? 222)%nat && negb (n =? 215)%nat)
  then ascii_of_nat (n + 32) else c.

(** [s.lower()] *)
Fixpoint lower (s : string) : string :=
  match s with
  | EmptyString => EmptyString
  | String c s' => String (lower_char c) (lower s')
  end.

End PyStr.

Import PyStr.

(** ** Activity normaliser ([app/utils/validation.py]) *)

Definition stripped_lines (activity : string) : list string :=
  List.filter nonempty (List.map strip (lines activity)).

Definition validate_activity_format (activity : string) : bool :=
  nonempty activity &&
  match stripped_lines activity with
  | [] => false
  | ls => forallb starts_numbered ls
  end.

(** The [enumerate] loop of the already-formatted branch. *)
Fixpoint process_lines (i : nat) (ls : list string) (processed : string) : string :=
  match ls with
  | [] => processed
  | line :: rest =>
      let stripped := strip line in
      let processed1 :=
        if nonempty stripped then
          let p :=
            if starts_numbered stripped && (0 <? i)%nat
            then processed ++ NL ++ stripped
            else processed ++ stripped in
          if bare_number stripped then p ++ " " else p
        else processed in
      process_lines (S i) rest processed1
  end.

(** [range(10, 0, -1)] *)
Definition marker_range : list nat := List.rev (List.seq 1 10).

Definition marker (i : nat) : string := dec i ++ ". ".

Definition split_markers (processed : string) : string :=
  List.fold_left (fun p i => replace (marker i) (NL ++ marker i) p)
                 marker_range processed.

Definition format_valid (activity : string) : string :=
  let processed := process_lines 0 (lines activity) EmptyString in
  lstrip_nl (replace (NL ++ NL) NL (split_markers processed)).

(** The merging loop: state is [(merged_lines, current_line)]. *)
Definition merge_step (st : list string * string) (line : string)
  : list string * string :=
  let '(merged, current) := st in
  if starts_numbered line then
    (if nonempty current then (merged ++ [current])%list else merged, line)
  else
    (merged, if nonempty current then current ++ " " ++ line else line).

Definition merge_lines (ls : list string) : list string :=
  let '(merged, current) := List.fold_left merge_step ls ([], EmptyString) in
  if nonempty current then (merged ++ [current])%list else merged.

(** The numbering loop: state is [(numbered_lines, counter)]. *)
Definition number_step (st : list string * nat) (line : string)
  : list string * nat :=
  let '(numbered, counter) := st in
  if starts_numbered line then ((numbered ++ [line])%list, counter)
  else ((numbered ++ [(dec counter ++ ". " ++ line)%string])%list, S counter).

Definition number_lines (merged : list string) : list string :=
  fst (List.fold_left number_step merged ([], 1%nat)).

Definition format_invalid (activity : string) : string :=
  join NL (number_lines (merge_lines (stripped_lines activity))).

(** The cleanup of the coerced text: line endings, then control
    characters. *)
Definition clean_activity (activity : string) : string :=
  remove_ctrl (normalize_newlines activity).

(** [format_activity] after the coercion of its argument to [str]. *)
Definition format_text (activity : string) : string :=
  let activity := clean_activity activity in
  if validate_activity_format activity then format_valid activity
  else format_invalid activity.

(** ** Python values and exceptions *)

(** The generic document [json.loads] produces. A [dict] is kept as its
    items in insertion order (keys are unique); a [float] is kept as a
    mantissa and a binary exponent and only its truth value is used. *)
Inductive json : Type :=
| JNull
| JBool (b : bool)
| JInt (n : Z)
| JFloat (m e : Z)
| JStr (s : string)
| JArr (l : list json)
| JObj (items : list (string * json)).

(** Exceptions. [Chained p e] is [Exception(p + str(e))] and
    [ValueError p e] is [ValueError(p + str(e))]: the message of the
    cause is kept as the cause itself. *)
Inductive exn : Type :=
| TypeError
| KeyError
| IndexError
| AttributeError
| OverflowError
| ValidationError
| JSONDecodeError (msg : string)
| ValueError (prefix : string) (cause : exn)
| Exception_ (msg : string)
| Chained (prefix : string) (cause : exn)
| HTTPException (status : Z).

Inductive result (A : Type) : Type :=
| Ok (a : A)
| Err (e : exn).
Arguments Ok {A} a.
Arguments Err {A} e.

Definition bind {A B} (r : result A) (k : A -> result B) : result B :=
  match r with
  | Ok a => k a
  | Err e => Err e
  end.

Notation "'let!' x ':=' r 'in' k" := (bind r (fun x => k))
  (at level 10, x name, r at level 100, k at level 200).

Definition is_ok {A} (r : result A) : bool :=
  match r with Ok _ => true | Err _ => false end.

(** [try: ... except Exception: continue] inside a loop body. *)
Definition absorbed {A} (r : result A) : option A :=
  match r with Ok a => Some a | Err _ => None end.

Fixpoint mapM {A B} (f : A -> result B) (l : list A) : result (list B) :=
  match l with
  | [] => Ok []
  | a :: l' => let! b := f a in let! bs := mapM f l' in Ok (b :: bs)
  end.

(** Truth value of a Python object. *)
Definition truthy (v : json) : bool :=
  match v with
  | JNull => false
  | JBool b => b
  | JInt n => negb (n =? 0)%Z
  | JFloat m _ => negb (m =? 0)%Z
  | JStr s => nonempty s
  | JArr l => match l with [] => false | _ => true end
  | JObj items => match items with [] => false | _ => true end
  end.

Fixpoint assoc (key : string) (items : list (string * json)) : option json :=
  match items with
  | [] => None
  | (k, v) :: rest => if String.eqb k key then Some v else assoc key rest
  end.

Definition is_str (s : string) (v : json) : bool :=
  match v with JStr t => String.eqb t s | _ => false end.

(** [key in container] for a [str] key. *)
Definition py_in (key : string) (container : json) : result bool :=
  match container with
  | JObj items => Ok (match assoc key items with Some _ => true | None => false end)
  | JArr l => Ok (existsb (is_str key) l)
  | JStr s => Ok (contains key s)
  | _ => Err TypeError
  end.

(** [container[key]] for a [str] key. *)
Definition py_getitem (container : json) (key : string) : result json :=
  match container with
  | JObj items =>
      match assoc key items with
      | Some v => Ok v
      | None => Err KeyError
      end
  | _ => Err TypeError
  end.

Fixpoint chars (s : string) : list json :=
  match s with
  | EmptyString => []
  | String c s' => JStr (String c EmptyString) :: chars s'
  end.

(** The items a [for] loop over the value visits. *)
Definition py_iter (v : json) : result (list json) :=
  match v with
  | JArr l => Ok l
  | JObj items => Ok (List.map (fun kv => JStr (fst kv)) items)
  | JStr s => Ok (chars s)
  | _ => Err TypeError
  end.

(** ** Text sanitiser and resilient parser ([app/utils/json_sanitizer.py]) *)

Definition dq : ascii := "034"%char.
Definition DQ : string := String dq EmptyString.
Definition BS : string := String "092"%char EmptyString.
Definition activity_key : string := DQ ++ "activity" ++ DQ ++ ":".

(** The lookahead of the activity pattern: a quote then a comma, or a
    quote, any whitespace and a closing brace. *)
Definition lookahead_end (s : string) : bool :=
  String.prefix (DQ ++ ",") s ||
  match s with
  | String c r =>
      Ascii.eqb c dq &&
      match lstrip r with
      | String d _ => Ascii.eqb d "}"%char
      | EmptyString => false
      end
  | EmptyString => false
  end.

(** The lazy group [(.*?)] under [re.DOTALL]: the shortest text after
    which the lookahead holds, with what remains. *)
Fixpoint lazy_group (s : string) : option (string * string) :=
  if lookahead_end s then Some (EmptyString, s)
  else match s with
       | EmptyString => None
       | String c s' =>
           match lazy_group s' with
           | Some (g, r) => Some (String c g, r)
           | None => None
           end
       end.

(** A match of the activity pattern at the head of [s]: the quoted key
    and colon, any whitespace, an opening quote, the lazy group and the
    lookahead. The result is the group and the text from the lookahead on. *)
Definition match_activity (s : string) : option (string * string) :=
  if String.prefix activity_key s then
    match lstrip (drop (String.length activity_key) s) with
    | String c body => if Ascii.eqb c dq then lazy_group body else None
    | EmptyString => None
    end
  else None.

Definition fix_activity (activity : string) : string :=
  let activity := replace DQ (BS ++ DQ) (replace NL (BS ++ "n") (replace BS (BS ++ BS) activity)) in
  DQ ++ "activity" ++ DQ ++ ": " ++ DQ ++ activity.

(** [re.sub(pattern, fix_activity, s, flags=re.DOTALL)] *)
Fixpoint sub_activity (skip : nat) (s : string) : string :=
  match s with
  | EmptyString => EmptyString
  | String c s' =>
      match skip with
      | S k => sub_activity k s'
      | O =>
          match match_activity s with
          | Some (g, rest) =>
              fix_activity g ++ sub_activity (String.length s - String.length rest - 1) s'
          | None => String c (sub_activity 0 s')
          end
      end
  end.

Definition sanitize_json_string (json_str : string) : string :=
  let json_str := normalize_newlines json_str in
  let json_str := remove_ctrl json_str in
  sub_activity 0 json_str.

(** State of the line loop: [(result, activity_content, activity_buffer)]. *)
Definition line_step (st : list string * bool * string) (line : string)
  : list string * bool * string :=
  let '(res, activity_content, activity_buffer) := st in
  let stripped := strip line in
  if contains activity_key stripped then
    let prefix := before activity_key stripped ++ DQ ++ "activity" ++ DQ ++ ": " ++ DQ in
    if endswith DQ stripped && (3 <? count_char dq stripped)%nat then
      let content := strip (after activity_key stripped) in
      if startswith DQ content && endswith DQ content then
        let content := drop_last (drop 1 content) in
        let content := replace DQ (BS ++ DQ) content in
        ((res ++ [(prefix ++ content ++ DQ)%string])%list, false, activity_buffer)
      else (res, true, content)
    else
      let content := strip (after activity_key stripped) in
      let content := if startswith DQ content then drop 1 content else content in
      (res, true, content)
  else if activity_content then
    if endswith DQ stripped && negb (endswith (BS ++ DQ) stripped) then
      let activity_buffer := activity_buffer ++ " " ++ drop_last stripped in
      let activity_buffer :=
        replace NL (BS ++ "n") (replace DQ (BS ++ DQ) activity_buffer) in
      ((res ++ [(activity_buffer ++ DQ)%string])%list, false, EmptyString)
    else (res, true, activity_buffer ++ " " ++ stripped)
  else ((res ++ [stripped])%list, activity_content, activity_buffer).

Definition sanitize_line_by_line (json_str : string) : string :=
  let '(res, _, _) :=
    List.fold_left line_step (lines json_str) ([], false, EmptyString) in
  join NL res.

Section Parser.

(** [json.loads], the structural decoder of the Python library: it
    returns a document or raises, [JSONDecodeError] on malformed text. *)
Variable json_loads : string -> result json.

Definition is_decode_error (e : exn) : bool :=
  match e with JSONDecodeError _ => true | _ => false end.

(** [try: return json.loads(s) except json.JSONDecodeError: handler] *)
Definition loads_or (s : string) (handler : exn -> result json) : result json :=
  match json_loads s with
  | Ok doc => Ok doc
  | Err e => if is_decode_error e then handler e else Err e
  end.

Definition safe_parse_json (json_str : string) : result json :=
  loads_or json_str (fun _ =>
    loads_or (sanitize_json_string json_str) (fun _ =>
      loads_or (sanitize_line_by_line json_str) (fun e =>
        Err (ValueError "Failed to parse JSON after multiple attempts: " e)))).

(** ** Transport wrapper ([app/utils/gemini_client.py]) *)

Fixpoint find (p s : string) : option nat :=
  if String.prefix p s then Some 0%nat
  else match s with
       | EmptyString => None
       | String _ s' => option_map S (find p s')
       end.

Fixpoint rfind (p s : string) : option nat :=
  match s with
  | EmptyString => if String.prefix p s then Some 0%nat else None
  | String _ s' =>
      match rfind p s' with
      | Some k => Some (S k)
      | None => if String.prefix p s then Some 0%nat else None
      end
  end.

(** [s[a:b]] for indices that are not negative. *)
Definition slice (a b : nat) (s : string) : string := take (b - a) (drop a s).

Definition fence : string := "```".

Definition strip_fences (response_text : string) : string :=
  if contains (fence ++ "json") response_text then
    match find (fence ++ "json") response_text, rfind fence response_text with
    | Some json_start, Some json_end =>
        strip (slice (json_start + 7) json_end response_text)
    | _, _ => response_text
    end
  else if contains fence response_text then
    match find fence response_text, rfind fence response_text with
    | Some json_start, Some json_end =>
        strip (slice (json_start + 3) json_end response_text)
    | _, _ => response_text
    end
  else response_text.

(** [GeminiClient.generate_content], given what the model call returned
    (its text, or the exception it raised). *)
Definition generate_content (response : result string) : result json :=
  match response with
  | Err e => Err (Chained "Failed to generate content: " e)
  | Ok response_text =>
      let response_text := strip_fences response_text in
      match safe_parse_json response_text with
      | Ok doc => Ok doc
      | Err json_err =>
          match json_loads (sanitize_json_string response_text) with
          | Ok doc => Ok doc
          | Err _ =>
              Err (Chained "Failed to generate content: "
                     (Chained "Failed to parse JSON response: " json_err))
          end
      end
  end.

End Parser.

(** ** Typed models ([app/models/weekly_roadmap.py]) *)

Record WeeklyTask := {
  task_name : string;
  resources : list string;
  time_slot : string;
  time_commitment : string;
  practice : string
}.

Record WeekPlan := {
  week_number : Z;
  tasks : list WeeklyTask
}.

(** Dates are proleptic Gregorian ordinals, as [date.toordinal] gives. *)
Record MonthlyRoadmap := {
  user_id : option string;
  persona_type : string;
  duration_months : Z;
  requested_month : Z;
  start_date : Z;
  end_date : Z;
  weeks : list WeekPlan;
  overall_goals : list string
}.

(** A [BaseModel] object seen through its attributes: the values the
    constructor kept, by field name. *)
Inductive value : Type :=
| VNone
| VStr (s : string)
| VInt (n : Z)
| VDate (d : Z)
| VStrs (l : list string)
| VMonths (l : list MonthlyRoadmap).

Definition model := list (string * value).

(** The fields [MultiMonthRoadmap] declares; the declaration of
    [combined_goals] is commented out in the class body. *)
Definition MultiMonthRoadmap_fields : list string :=
  ["user_id"; "persona_type"; "total_months"; "monthly_roadmaps";
   "start_date"; "end_date"].

(** [BaseModel.__init__] under the default configuration: a keyword
    that names no declared field is ignored. *)
Definition model_init (declared : list string) (kwargs : list (string * value))
  : model :=
  List.filter (fun kw => existsb (String.eqb (fst kw)) declared) kwargs.

Fixpoint getattr (obj : model) (name : string) : option value :=
  match obj with
  | [] => None
  | (k, v) :: rest => if String.eqb k name then Some v else getattr rest name
  end.

(** Field validation of the pydantic library, which the models inherit:
    how a value offered for a [str] or an [int] field is accepted,
    coerced or refused depends on the library's version; a [str] is
    always accepted for a [str] field and an [int] for an [int] field. *)
Class Pydantic := {
  as_str : json -> option string;
  as_int : json -> option Z;
  as_str_str : forall s, as_str (JStr s) = Some s;
  as_int_int : forall n, as_int (JInt n) = Some n
}.

(** The validation that accepts exactly the declared type. *)
Definition strict_str (v : json) : option string :=
  match v with JStr s => Some s | _ => None end.

Definition strict_int (v : json) : option Z :=
  match v with JInt n => Some n | _ => None end.

Definition strict_pydantic : Pydantic :=
  {| as_str := strict_str;
     as_int := strict_int;
     as_str_str := fun s => eq_refl;
     as_int_int := fun n => eq_refl |}.

(** ** Post-validation ([validate_monthly_roadmap], [app/utils/validation.py]) *)

(** The body of the inner loop: [practice] is rewritten when it is set.
    A [practice] is a [str], on which [format_activity] does not raise,
    so the handler of the inner [try] is never entered. *)
Definition format_task (task : WeeklyTask) : WeeklyTask :=
  if nonempty (practice task) then
    {| task_name := task_name task;
       resources := resources task;
       time_slot := time_slot task;
       time_commitment := time_commitment task;
       practice := format_text (practice task) |}
  else task.

Definition format_week (week : WeekPlan) : WeekPlan :=
  {| week_number := week_number week;
     tasks := List.map format_task (tasks week) |}.

Definition with_weeks (roadmap : MonthlyRoadmap) (ws : list WeekPlan) : MonthlyRoadmap :=
  {| user_id := user_id roadmap;
     persona_type := persona_type roadmap;
     duration_months := duration_months roadmap;
     requested_month := requested_month roadmap;
     start_date := start_date roadmap;
     end_date := end_date roadmap;
     weeks := ws;
     overall_goals := overall_goals roadmap |}.

(** What the roadmap object holds once [validate_monthly_roadmap] has
    run on it. *)
Definition validated (roadmap : MonthlyRoadmap) : MonthlyRoadmap :=
  match weeks roadmap with
  | [] => roadmap
  | ws => with_weeks roadmap (List.map format_week ws)
  end.

(** Objects live in a store; a reference is [None] or a location. A
    roadmap owns its weeks and tasks, which no other object shares. The
    function mutates the object it is given and returns its argument. *)
Definition validate_monthly_roadmap
  (store : gmap nat MonthlyRoadmap) (roadmap : option nat)
  : gmap nat MonthlyRoadmap * option nat :=
  match roadmap with
  | None => (store, roadmap)
  | Some l => (alter validated l store, roadmap)
  end.

(** ** Roadmap generator ([app/services/weekly_roadmap_generator.py]) *)

Definition date_min : Z := 1.
Definition date_max : Z := 3652059.

(** [d + timedelta(days=n)] *)
Definition date_plus (d n : Z) : result Z :=
  if (Z.abs n <=? 999999999)%Z && (date_min <=? d + n)%Z && (d + n <=? date_max)%Z
  then Ok (d + n)%Z else Err OverflowError.

Section Generator.

Context {pyd : Pydantic}.

(** [str(v)] of a value that is not a [str], as Python renders it. *)
Variable py_str : json -> string.

(** The search provider behind [TavilySearchClient.search] and
    [extract_resource_info]: the [url] values found for a query, a depth
    and a result limit; it returns an empty list where the client fails. *)
Variable web_search : string -> string -> Z -> list json.

Definition to_text (v : json) : string :=
  match v with JStr s => s | _ => py_str v end.

Definition is_string (v : json) : bool :=
  match v with JStr _ => true | _ => false end.

(** The first lines of [format_activity]: a list becomes its stripped
    non-blank items joined by newlines, anything else that is not a [str]
    is rendered by [str]. *)
Definition coerce_activity (activity : json) : string :=
  match activity with
  | JArr l =>
      if forallb is_string l
      then join NL (List.filter nonempty (List.map (fun item => strip (to_text item)) l))
      else join NL (List.filter nonempty (List.map (fun item => strip (to_text item)) l))
  | JStr s => s
  | v => py_str v
  end.

Definition format_activity (activity : json) : string :=
  format_text (coerce_activity activity).

Definition difficulty_level (current_month : Z) : string :=
  if (1 <? current_month)%Z then
    if (current_month <=? 2)%Z then "intermediate"
    else if (current_month <=? 4)%Z then "advanced"
    else "expert"
  else EmptyString.

(** [task_name[:80]] for a task name that is set and the empty string
    otherwise, as the text an f-string shows. *)
Definition truncated_task (task_name : json) : result string :=
  if truthy task_name then
    match task_name with
    | JStr s => Ok (take 80 s)
    | JArr l => Ok (py_str (JArr (firstn 80 l)))
    | _ => Err TypeError
    end
  else Ok EmptyString.

Definition truncated_practice (practice : json) : string :=
  match practice with
  | JStr p =>
      if nonempty p && contains "1." p then
        let first_step := if contains "2." p then before "2." p else p in
        let first_step :=
          if startswith "1." first_step then strip (drop 2 first_step)
          else first_step in
        take 100 first_step
      else if nonempty p then take 100 p
      else EmptyString
  | v => if truthy v then take 100 (py_str v) else EmptyString
  end.

(** The query [enrich_resources_with_web_search] hands to the provider. *)
Definition search_query (task_name practice : json) (current_month : Z)
  : result string :=
  let difficulty := difficulty_level current_month in
  let practice :=
    match practice with
    | JArr (first :: _) => first
    | JArr [] => JStr EmptyString
    | v => v
    end in
  let! task := truncated_task task_name in
  let tp := truncated_practice practice in
  let query := strip (task ++ " " ++ difficulty) in
  let query :=
    if (String.length query <? 300)%nat
    then strip (task ++ ": " ++ tp ++ " " ++ difficulty)
    else query in
  let query := if (390 <? String.length query)%nat then take 390 query else query in
  Ok query.

Definition search_depth (current_month : Z) : string :=
  if (current_month <=? 2)%Z then "basic" else "advanced".

Definition max_results (current_month : Z) : Z := (3 + Z.min current_month 4)%Z.

Definition enrich_resources_with_web_search
  (task_name practice : json) (current_month : Z) : list json :=
  match search_query task_name practice current_month with
  | Ok query => web_search query (search_depth current_month) (max_results current_month)
  | Err _ => []
  end.

(** The loop [for field in required: if field not in obj: raise]. *)
Fixpoint require_fields (fields : list string) (obj : json) (what : string)
  : result unit :=
  match fields with
  | [] => Ok tt
  | field :: rest =>
      let! present := py_in field obj in
      if present then require_fields rest obj what
      else Err (Exception_ ("Missing required field '" ++ field ++ "' in " ++ what))
  end.

Definition required_task_fields : list string :=
  ["task_type"; "task_name"; "time_slot"; "time_commitment"; "activity"].

Definition required_week_fields : list string :=
  ["week_number"; "theme"; "quests"].

Fixpoint all_some {A} (l : list (option A)) : option (list A) :=
  match l with
  | [] => Some []
  | Some a :: l' => match all_some l' with Some r => Some (a :: r) | None => None end
  | None :: _ => None
  end.

(** [WeeklyTask(...)]: the constructor validates every field. *)
Definition make_task (task_name : json) (resources : list json)
  (time_slot time_commitment : json) (practice : string) : result WeeklyTask :=
  match as_str task_name, all_some (List.map as_str resources),
        as_str time_slot, as_str time_commitment with
  | Some n, Some r, Some s, Some c =>
      Ok {| task_name := n; resources := r; time_slot := s;
            time_commitment := c; practice := practice |}
  | _, _, _, _ => Err ValidationError
  end.

(** The body of the [try] in the quest loop. *)
Definition process_quest (quest : json) (current_month : Z) : result WeeklyTask :=
  let! _ := require_fields required_task_fields quest "quest" in
  let! name := py_getitem quest "task_name" in
  let! activity := py_getitem quest "activity" in
  let web_resources := enrich_resources_with_web_search name activity current_month in
  let formatted_activity := format_activity activity in
  let! slot := py_getitem quest "time_slot" in
  let! commitment := py_getitem quest "time_commitment" in
  make_task name web_resources slot commitment formatted_activity.

(** The body of the [try] in the week loop. *)
Definition process_week (week_data : json) (current_month : Z) : result WeekPlan :=
  let! _ := require_fields required_week_fields week_data "week data" in
  let! quests := py_getitem week_data "quests" in
  let! quests := py_iter quests in
  let processed_tasks :=
    omap (fun quest => absorbed (process_quest quest current_month)) quests in
  let! number := py_getitem week_data "week_number" in
  match processed_tasks with
  | [] => Err (Exception_ ("No valid quests for week " ++ to_text number))
  | _ =>
      match as_int number with
      | Some n => Ok {| week_number := n; tasks := processed_tasks |}
      | None => Err ValidationError
      end
  end.

Definition goals_of_category (item : string * json) : list json :=
  match snd item with
  | JArr goals => goals
  | JStr goals => [JStr (fst item ++ ": " ++ goals)]
  | _ => []
  end.

(** The normalisation of [overall_goals] (lines 178 to 196). *)
Definition normalize_goals (raw_goals : json) : list json :=
  match raw_goals with
  | JObj items => List.concat (List.map goals_of_category items)
  | JArr goals => goals
  | _ => []
  end.

(** [response_data.get(key, default)] *)
Definition py_get (obj : json) (key : string) (default : json) : result json :=
  match obj with
  | JObj items => Ok (match assoc key items with Some v => v | None => default end)
  | _ => Err AttributeError
  end.

(** The body of the outer [try], from the parsed response on. *)
Definition build_roadmap (persona : string) (duration : Z) (uid : option string)
  (current_month start finish : Z) (response_data : json) : result MonthlyRoadmap :=
  let! has_weeks := py_in "weeks" response_data in
  let! has_goals :=
    if has_weeks then py_in "overall_goals" response_data else Ok false in
  if negb (has_weeks && has_goals)
  then Err (Exception_ "Invalid response structure: missing required fields")
  else
    let! week_items := py_getitem response_data "weeks" in
    let! week_items := py_iter week_items in
    let processed_weeks :=
      omap (fun week_data => absorbed (process_week week_data current_month)) week_items in
    match processed_weeks with
    | [] => Err (Exception_ "No valid weeks could be processed")
    | _ =>
        let! raw_goals := py_get response_data "overall_goals" (JArr []) in
        match all_some (List.map as_str (normalize_goals raw_goals)) with
        | Some goals =>
            Ok (validated
                  {| user_id := uid; persona_type := persona;
                     duration_months := duration; requested_month := current_month;
                     start_date := start; end_date := finish;
                     weeks := processed_weeks; overall_goals := goals |})
        | None => Err ValidationError
        end
    end.

Variable json_loads : string -> result json.

(** [WeeklyRoadmapGeneratorService.generate_weekly_roadmap], given the
    day it runs on and what the model call returned for its prompt. *)
Definition generate_weekly_roadmap (persona : string) (duration : Z)
  (uid : option string) (current_month : Z) (today : Z)
  (response : result string) : result MonthlyRoadmap :=
  let! start := date_plus today ((current_month - 1) * 30) in
  let! finish := date_plus start 30 in
  match
    (let! response_data := generate_content json_loads response in
     build_roadmap persona duration uid current_month start finish response_data)
  with
  | Ok roadmap => Ok roadmap
  | Err e => Err (Chained "Failed to generate weekly roadmap: " e)
  end.

End Generator.

(** ** Search client ([app/utils/tavily_client.py]) *)

Module Tavily.

(** [len(v)] *)
Definition py_len (v : json) : result nat :=
  match v with
  | JArr l => Ok (List.length l)
  | JObj items => Ok (List.length items)
  | JStr s => Ok (String.length s)
  | _ => Err TypeError
  end.

(** The literal [{"results": []}] the client falls back to. *)
Definition empty_results : json := JObj [("results", JArr [])].

(** [search_depth] after the check against the two accepted depths. *)
Definition valid_depth (search_depth : string) : string :=
  if String.eqb search_depth "basic" || String.eqb search_depth "advanced"
  then search_depth else "basic".

(** [content[:200] + "..."] *)
Definition snippet_of (content : json) : result json :=
  match content with
  | JStr s => Ok (JStr (take 200 s ++ "..."))
  | _ => Err TypeError
  end.

(** The body of the loop of [extract_resource_info]. *)
Definition make_resource (item : json) : result json :=
  let! title := py_get item "title" (JStr "Untitled Resource") in
  let! url := py_get item "url" (JStr EmptyString) in
  let! content := py_get item "content" (JStr "No description available") in
  let! snippet := snippet_of content in
  Ok (JObj [("title", title); ("url", url); ("snippet", snippet)]).

(** [TavilySearchClient.extract_resource_info]: any exception gives the
    empty list. *)
Definition extract_resource_info (search_results : json) : list json :=
  match
    (let! present := py_in "results" search_results in
     if present then
       let! results := py_getitem search_results "results" in
       let! results := py_iter results in
       mapM make_resource results
     else Ok [])
  with
  | Ok resources => resources
  | Err _ => []
  end.

(** [[resource["url"] for resource in resources]] under the handler of
    the caller, which returns the empty list. *)
Definition resource_urls (resources : list json) : list json :=
  match mapM (fun resource => py_getitem resource "url") resources with
  | Ok urls => urls
  | Err _ => []
  end.

Section Client.

(** [settings.TAVILY_API_KEY] and the [search] method of the provider's
    own client, which returns a response or raises. *)
Variable TAVILY_API_KEY : option string.
Variable client_search : string -> string -> Z -> result json.

Definition key_set : bool :=
  match TAVILY_API_KEY with
  | Some key => nonempty key
  | None => false
  end.

(** [TavilySearchClient.search] *)
Definition search (query search_depth : string) (max_results : Z) : json :=
  if negb key_set then empty_results
  else
    match
      (let! response := client_search query (valid_depth search_depth) max_results in
       let! results := py_get response "results" (JArr []) in
       let! result_count := py_len results in
       Ok response)
    with
    | Ok response => response
    | Err _ => empty_results
    end.

(** [TavilySearchClient.search_with_context] *)
Definition search_with_context (query context : string) (search_depth : string)
  (max_results : Z) : json :=
  search (query ++ " " ++ context) search_depth max_results.

(** The search, the extraction and the projection on [url] as the
    generator chains them (lines 283 to 293 of the weekly generator). *)
Definition web_search (query search_depth : string) (max_results : Z) : list json :=
  resource_urls (extract_resource_info (search query search_depth max_results)).

End Client.

End Tavily.

(** ** Request entry point ([app/api/endpoints/roadmap.py]) *)

Module Endpoint.

(** [range(a, b)] *)
Definition zrange (a b : Z) : list Z :=
  List.map (fun k => (a + Z.of_nat k)%Z) (List.seq 0 (Z.to_nat (b - a))).

(** [range(a, b, step)] for a positive step. *)
Definition range_step (a b step : Z) : list Z :=
  List.map (fun k => (a + step * Z.of_nat k)%Z)
           (List.seq 0 (Z.to_nat ((b - a + step - 1) / step))).

Definition batch_size : Z := 6.

Definition month_batches (duration : Z) : list (list Z) :=
  List.map (fun batch_start =>
              zrange batch_start (Z.min (batch_start + batch_size) (duration + 1)))
           (range_step 1 (duration + 1) batch_size).

(** The loop that removes duplicates: state is [(seen, unique_goals)]. *)
Definition dedup_step (st : gset string * list string) (goal : string)
  : gset string * list string :=
  let '(seen, unique) := st in
  if decide (goal ∈ seen) then st
  else ({[goal]} ∪ seen, (unique ++ [goal])%list).

Definition unique_goals (combined_goals : list string) : list string :=
  snd (List.fold_left dedup_step combined_goals (∅, [])).

Definition opt_value (o : option string) : value :=
  match o with Some s => VStr s | None => VNone end.

(** The keyword arguments of the [MultiMonthRoadmap(...)] call. The
    indexing [validated_roadmaps[0]] and [validated_roadmaps[-1]] raises
    on an empty list. *)
Definition multi_month_kwargs (persona : string) (duration : Z)
  (uid : option string) (validated_roadmaps : list MonthlyRoadmap)
  : result (list (string * value)) :=
  let combined_goals := List.concat (List.map overall_goals validated_roadmaps) in
  match head validated_roadmaps, last validated_roadmaps with
  | Some first, Some final =>
      Ok [("user_id", opt_value uid);
          ("persona_type", VStr persona);
          ("total_months", VInt duration);
          ("monthly_roadmaps", VMonths validated_roadmaps);
          ("combined_goals", VStrs (unique_goals combined_goals));
          ("start_date", VDate (start_date first));
          ("end_date", VDate (end_date final))]
  | _, _ => Err IndexError
  end.

(** The aggregation of lines 79 to 106, from the gathered months on. *)
Definition combine (persona : string) (duration : Z) (uid : option string)
  (monthly_roadmaps : list MonthlyRoadmap) : result model :=
  let validated_roadmaps := List.map validated monthly_roadmaps in
  let! kwargs := multi_month_kwargs persona duration uid validated_roadmaps in
  Ok (model_init MultiMonthRoadmap_fields kwargs).

Inductive response : Type :=
| Single (roadmap : MonthlyRoadmap)
| Multi (roadmap : model).

(** The handlers at the end of the endpoint: an [HTTPException] passes,
    anything else becomes status 500. *)
Definition to_http {A} (r : result A) : result A :=
  match r with
  | Ok a => Ok a
  | Err (HTTPException status) => Err (HTTPException status)
  | Err _ => Err (HTTPException 500)
  end.

(** [str(e)]: the exceptions this code raises carry their message,
    which ends with the message of their cause; [builtin] gives the
    message of those the interpreter and the libraries raise. *)
Fixpoint str_exn (builtin : exn -> string) (e : exn) : string :=
  match e with
  | Chained prefix cause => prefix ++ str_exn builtin cause
  | ValueError prefix cause => prefix ++ str_exn builtin cause
  | Exception_ msg => msg
  | _ => builtin e
  end.

Definition api_key_detail : string :=
  "API key error: Please check your Gemini API key configuration".

Definition malformed_detail : string :=
  "Error parsing AI response: The AI model returned malformed JSON. "
  ++ "This is often due to control characters or improper formatting in the activity fields. "
  ++ "Please try again or contact support if the issue persists.".

(** The [detail] of the status 500 answer, from [str(e)] (lines 116 to
    125). *)
Definition error_detail (msg : string) : string :=
  if contains "API key" (lower msg) then api_key_detail
  else if contains "parse json" (lower msg)
          || contains "control character" (lower msg)
          || contains "decode" (lower msg)
  then malformed_detail
  else "An error occurred while generating the weekly roadmap: " ++ msg.

Section Endpoint.

Context {pyd : Pydantic}.
Variable py_str : json -> string.
Variable web_search : string -> string -> Z -> list json.
Variable json_loads : string -> result json.

(** The day the request runs on and the model's reply for each month. *)
Variable today : Z.
Variable reply : Z -> result string.

Definition month_roadmap (persona : string) (duration : Z) (uid : option string)
  (current_month : Z) : result MonthlyRoadmap :=
  generate_weekly_roadmap py_str web_search json_loads
    persona duration uid current_month today (reply current_month).

(** [asyncio.gather] over one list of months: the results in submission
    order, or the failure of a month. *)
Definition gather (persona : string) (duration : Z) (uid : option string)
  (months : list Z) : result (list MonthlyRoadmap) :=
  mapM (month_roadmap persona duration uid) months.

Definition gather_months (persona : string) (duration : Z) (uid : option string)
  : result (list MonthlyRoadmap) :=
  if (12 <=? duration)%Z then
    let! batches := mapM (gather persona duration uid) (month_batches duration) in
    Ok (List.concat batches)
  else gather persona duration uid (zrange 1 (duration + 1)).

Definition generate_weekly_roadmap (persona : string) (duration : Z)
  (uid : option string) : result response :=
  to_http
    (if negb (nonempty persona) then Err (HTTPException 400)
     else if (duration <? 1)%Z then Err (HTTPException 400)
     else if (duration =? 1)%Z then
       let! roadmap := month_roadmap persona duration uid 1 in
       Ok (Single (validated roadmap))
     else
       let! monthly_roadmaps := gather_months persona duration uid in
       let! multi := combine persona duration uid monthly_roadmaps in
       Ok (Multi multi)).

End Endpoint.

End Endpoint.

(** ** Reference definitions and sample inputs *)

(** A rendering for use where no value other than a [str] is rendered. *)
Definition no_render (v : json) : string := EmptyString.

(** A provider that finds nothing. *)
Definition no_results (query depth : string) (limit : Z) : list json := [].

(** A decoder that accepts the one text [null]. *)
Definition null_loads (s : string) : result json :=
  if String.eqb s "null" then Ok JNull
  else Err (JSONDecodeError "Expecting value").

(** A week object that lacks one of its required fields. *)
Definition missing_week_field (week_data : json) : bool :=
  match week_data with
  | JObj items =>
      negb (forallb (fun field => bool_decide (is_Some (assoc field items)))
                    required_week_fields)
  | _ => false
  end.

(** First-occurrence deduplication by equality, as the specification
    words it. *)
Fixpoint dedup_first (l : list string) : list string :=
  match l with
  | [] => []
  | x :: l' => x :: filter (fun y => y <> x) (dedup_first l')
  end.

Definition sample_quest : json :=
  JObj [("task_type", JStr "Learn"); ("task_name", JStr "Read");
        ("time_slot", JStr "9:00 AM"); ("time_commitment", JStr "2 hours/week");
        ("activity", JStr "1. Open the book")].

Definition sample_week (n : Z) : json :=
  JObj [("week_number", JInt n); ("theme", JStr "Basics");
        ("quests", JArr [sample_quest])].

Definition week_without_theme (n : Z) : json :=
  JObj [("week_number", JInt n); ("quests", JArr [sample_quest])].

Definition doc_of (week_items : list json) (goals : json) : json :=
  JObj [("weeks", JArr week_items); ("overall_goals", goals)].

Definition four_weeks : json :=
  doc_of [sample_week 1; sample_week 2; week_without_theme 3; sample_week 4]
         (JArr [JStr "Goal 1"]).

Definition goals_mapping : json :=
  JObj [("short_term", JArr [JStr "a"; JStr "b"]); ("long_term", JStr "c")].

Definition sample_month (start : Z) (goals : list string) : MonthlyRoadmap :=
  {| user_id := None; persona_type := "INTJ"; duration_months := 2;
     requested_month := 1; start_date := start; end_date := (start + 30)%Z;
     weeks := [{| week_number := 1;
                  tasks := [{| task_name := "Read"; resources := [];
                               time_slot := "9:00 AM";
                               time_commitment := "2 hours/week";
                               practice := "1. Open the book" |}] |}];
     overall_goals := goals |}.

Definition repair_input : string := "Do the thing. Then 2. do another".

(** The step numbers that open the lines of a normalised activity. *)
Definition leading_number (line : string) : string :=
  take (String.length line - String.length (drop_digits line)) line.

(** The digits of a step number as a number. *)
Fixpoint number_of (acc : nat) (digits : string) : nat :=
  match digits with
  | EmptyString => acc
  | String c d => number_of (10 * acc + (code c - 48)) d
  end.

(** A match of the pattern that the specification gives for a line: a
    number, a dot and a whitespace character. *)
Definition numbered_with_space (line : string) : bool :=
  match after_number line with
  | Some (String c _) => is_space c
  | _ => false
  end.

(** Lines that are steps numbered [k], [k + 1], and so on. *)
Fixpoint steps_from (k : nat) (ls : list string) : bool :=
  match ls with
  | [] => true
  | line :: rest =>
      numbered_with_space line
      && (number_of 0 (leading_number line) =? k)%nat
      && steps_from (S k) rest
  end.

(** The normal form the specification states: one numbered step per
    line, numbers ascending by one from 1, no blank line. *)
Definition normalized_form (s : string) : bool := steps_from 1 (lines s).

Definition week_numbers (r : result MonthlyRoadmap) : result (list Z) :=
  let! roadmap := r in Ok (List.map week_number (weeks roadmap)).

Definition goals_of (r : result MonthlyRoadmap) : result (list string) :=
  let! roadmap := r in Ok (overall_goals roadmap).

Definition empty_weeks : json := doc_of [] (JArr [JStr "Goal 1"]).

(** The ways a parsed response is fatal for its month: a required
    field is absent, or [weeks] is an empty list, or no week of the list
    survives the walk. *)
Inductive month_fatal {pyd : Pydantic} (py_str : json -> string)
  (web_search : string -> string -> Z -> list json) (current_month : Z)
  : json -> Prop :=
| fatal_no_weeks items :
    assoc "weeks" items = None ->
    month_fatal py_str web_search current_month (JObj items)
| fatal_no_goals items :
    assoc "overall_goals" items = None ->
    month_fatal py_str web_search current_month (JObj items)
| fatal_empty items :
    assoc "weeks" items = Some (JArr []) ->
    month_fatal py_str web_search current_month (JObj items)
| fatal_all_dropped items week_items :
    assoc "weeks" items = Some (JArr week_items) ->
    Forall (fun week_data =>
              is_ok (process_week py_str web_search week_data current_month) = false)
           week_items ->
    month_fatal py_str web_search current_month (JObj items).

(** Everything in a task but its [practice]; the [practice] is kept or
    replaced by its normal form. *)
Definition task_frame (t t' : WeeklyTask) : Prop :=
  task_name t' = task_name t /\ resources t' = resources t /\
  time_slot t' = time_slot t /\ time_commitment t' = time_commitment t /\
  (practice t' = practice t \/ practice t' = format_text (practice t)).

Definition week_frame (w w' : WeekPlan) : Prop :=
  week_number w' = week_number w /\ Forall2 task_frame (tasks w) (tasks w').

Definition roadmap_frame (r r' : MonthlyRoadmap) : Prop :=
  user_id r' = user_id r /\ persona_type r' = persona_type r /\
  duration_months r' = duration_months r /\
  requested_month r' = requested_month r /\
  start_date r' = start_date r /\ end_date r' = end_date r /\
  overall_goals r' = overall_goals r /\
  Forall2 week_frame (weeks r) (weeks r').

(** A decoder that yields one fixed document for every text. *)
Definition fixed_loads (doc : json) (s : string) : result json := Ok doc.

(** The walker's test of one week: kept with its plan, or dropped. *)
Definition week_outcome {pyd : Pydantic} (py_str : json -> string)
  (web_search : string -> string -> Z -> list json) (current_month : Z)
  (week_data : json) : option WeekPlan :=
  absorbed (process_week py_str web_search week_data current_month).

(** *** Shapes of activity texts *)

Fixpoint all_chars (p : ascii -> bool) (s : string) : bool :=
  match s with
  | EmptyString => true
  | String c s' => p c && all_chars p s'
  end.

Definition not_nl (c : ascii) : bool := negb (Ascii.eqb c nl).

(** The lines after the first, each behind its newline. *)
Fixpoint tails (ls : list string) : string :=
  match ls with
  | [] => EmptyString
  | l :: r => NL ++ l ++ tails r
  end.

(** A character the cleanup keeps and that ends no line. *)
Definition clean_char (c : ascii) : bool :=
  negb (is_ctrl c) && negb (Ascii.eqb c cr) && not_nl c.

(** A character the cleanup keeps. *)
Definition text_char (c : ascii) : bool :=
  negb (is_ctrl c) && negb (Ascii.eqb c cr).

(** The ten markers the already-formatted branch splits at, in the
    order of the loop. *)
Definition markers : list string := List.map marker marker_range.

Definition marker_free (l : string) : bool :=
  forallb (fun m => negb (contains m l)) markers.

(** A line the normaliser leaves alone: kept characters only, no
    surrounding whitespace, a number and a dot at its start and more
    than that, and no marker anywhere but at its start. *)
Definition stable_line (l : string) : bool :=
  all_chars clean_char l && String.eqb (strip l) l && starts_numbered l
  && negb (bare_number l) && marker_free (drop 1 l).

Definition stable_form (s : string) : bool := forallb stable_line (lines s).

(** A line that opens with a digit. *)
Definition digit_start (l : string) : bool :=
  match l with
  | String c _ => is_digit c
  | EmptyString => false
  end.

(** A pattern that is not empty and spans no newline. *)
Definition is_marker (m : string) : bool :=
  nonempty m && all_chars not_nl m.

Definition digit_marker (m : string) : bool := digit_start m && all_chars not_nl m.

(** No pattern of the list opens another one. *)
Fixpoint no_prefix_pairs (ms : list string) : bool :=
  match ms with
  | [] => true
  | m :: rest =>
      forallb (fun m' => negb (String.prefix m m') && negb (String.prefix m' m)) rest
      && no_prefix_pairs rest
  end.

(** One pass of the marker loop. *)
Definition pass (p m : string) : string := replace m (NL ++ m) p.

(** A line with the flag that a newline was put before it. *)
Definition flagged (it : bool * string) : string :=
  (if fst it then NL else EmptyString) ++ snd it.

Fixpoint tails_b (items : list (bool * string)) : string :=
  match items with
  | [] => EmptyString
  | it :: r => NL ++ flagged it ++ tails_b r
  end.

Definition body (items : list (bool * string)) : string :=
  match items with
  | [] => EmptyString
  | it :: r => flagged it ++ tails_b r
  end.

Definition mark (m : string) (it : bool * string) : bool * string :=
  (fst it || String.prefix m (snd it), snd it).

Definition mark_all (ms : list string) (it : bool * string) : bool * string :=
  (fst it || existsb (fun m => String.prefix m (snd it)) ms, snd it).

(** [fresh]: the previous character was a newline. Every newline is
    followed by a digit and the text does not end in a newline. *)
Fixpoint steps_ok (fresh : bool) (s : string) : bool :=
  match s with
  | EmptyString => negb fresh
  | String c s' =>
      if Ascii.eqb c nl then negb fresh && steps_ok true s'
      else (if fresh then is_digit c else true) && steps_ok false s'
  end.

(** [k]: the number of newlines just passed. Runs of newlines have
    length at most two and are followed by a digit; after a run of two no
    marker of [todo] starts. *)
Fixpoint runs_ok (todo : list string) (k : nat) (t : string) : bool :=
  match t with
  | EmptyString => (k =? 0)%nat
  | String c t' =>
      if Ascii.eqb c nl then (k <? 2)%nat && runs_ok todo (S k) t'
      else (if (0 <? k)%nat then is_digit c else true)
           && (if (k =? 2)%nat
               then forallb (fun m => negb (String.prefix m t)) todo else true)
           && runs_ok todo 0 t'
  end.

Definition head_ok (t : string) : bool :=
  match t with
  | String c _ => is_digit c || Ascii.eqb c nl
  | EmptyString => false
  end.

(** What follows the first digit of a numbered line: digits and a dot. *)
Definition rest_numbered (t : string) : bool :=
  match drop_digits t with
  | String d _ => Ascii.eqb d "."%char
  | EmptyString => false
  end.

(** [pd]: the previous character was a digit. No marker of [ms] starts
    right after a digit. *)
Fixpoint slip_scan (ms : list string) (pd : bool) (t : string) : bool :=
  match t with
  | EmptyString => true
  | String c t' =>
      negb (pd && existsb (fun m => String.prefix m t) ms)
      && slip_scan ms (is_digit c) t'
  end.

Definition slip_free (t : string) : bool := slip_scan markers false t.

(** As [steps_ok], with a number and a dot at the start of every line. *)
Fixpoint nsteps (fresh : bool) (s : string) : bool :=
  match s with
  | EmptyString => negb fresh
  | String c s' =>
      if Ascii.eqb c nl then negb fresh && nsteps true s'
      else (if fresh then starts_numbered s else true) && nsteps false s'
  end.

(** As [runs_ok], with a number and a dot after every run of newlines
    and no marker of [todo] right after a digit. *)
Fixpoint nruns (todo : list string) (k : nat) (pd : bool) (t : string) : bool :=
  match t with
  | EmptyString => (k =? 0)%nat
  | String c t' =>
      negb (pd && existsb (fun m => String.prefix m t) todo)
      && (if Ascii.eqb c nl then (k <? 2)%nat && nruns todo (S k) false t'
          else (if (0 <? k)%nat then starts_numbered t else true)
               && (if (k =? 2)%nat
                   then forallb (fun m => negb (String.prefix m t)) todo else true)
               && nruns todo 0 (is_digit c) t')
  end.

Definition compatible (m o : string) : bool := String.prefix m o || String.prefix o m.

(** No marker of [ms] can start inside [o] right after a digit. *)
Fixpoint inner_scan (ms : list string) (pd : bool) (o : string) : bool :=
  match o with
  | EmptyString => true
  | String c o' =>
      negb (pd && existsb (fun m => compatible m o) ms)
      && inner_scan ms (is_digit c) o'
  end.

Fixpoint last_flag (pd : bool) (o : string) : bool :=
  match o with
  | EmptyString => pd
  | String c o' => last_flag (is_digit c) o'
  end.

Definition marker_ok (rest : list string) (m : string) : bool :=
  digit_marker m && starts_numbered m &&
  match m with
  | String a o => inner_scan rest (is_digit a) o
  | EmptyString => false
  end.

Fixpoint chain_ok (ms : list string) : bool :=
  match ms with
  | [] => true
  | m :: rest => marker_ok rest m && chain_ok rest
  end.

(** Eleven steps in normal form. *)
Definition eleven_steps : string :=
  join NL ["1. a"; "2. b"; "3. c"; "4. d"; "5. e"; "6. f"; "7. g"; "8. h";
           "9. i"; "10. j"; "11. k"].

(** *** Shapes of model replies *)

Definition backtick : ascii := "`"%char.

(** A text that holds no backtick. *)
Definition tick_free (s : string) : bool :=
  all_chars (fun c => negb (Ascii.eqb backtick c)) s.

(** The inside of a quoted value in which every backslash opens the
    escape of a backslash, of a newline or of a quote, and that holds no
    quote and no newline of its own. [esc]: the previous character opened
    an escape. *)
Fixpoint escaped_body (esc : bool) (s : string) : bool :=
  match s with
  | EmptyString => negb esc
  | String c s' =>
      if esc then
        (Ascii.eqb c "\"%char || Ascii.eqb c "n"%char || Ascii.eqb c dq)
        && escaped_body false s'
      else if Ascii.eqb c "\"%char then escaped_body true s'
      else negb (Ascii.eqb c dq) && negb (Ascii.eqb c nl) && escaped_body false s'
  end.

(** * Properties *)

(** ** String facts *)

Lemma length_take_le n s : (String.length (take n s) <= n)%nat.
Proof.
  revert s. induction n as [|n IH]; intros [|c s]; simpl; try lia.
  specialize (IH s). lia.
Qed.

(** ** The walker: weeks *)

Section WalkerFacts.

Context {pyd : Pydantic}.
Variable py_str : json -> string.
Variable web_search : string -> string -> Z -> list json.

Lemma require_fields_ok fields items what :
  forallb (fun field => bool_decide (is_Some (assoc field items))) fields = true ->
  require_fields fields (JObj items) what = Ok tt.
Proof.
  induction fields as [|f fs IH]; simpl; [reflexivity|].
  intros [Hf Hfs]%andb_true_iff.
  apply bool_decide_eq_true in Hf. destruct Hf as [v Hv].
  rewrite Hv. simpl. auto.
Qed.

Lemma require_fields_missing fields items what :
  forallb (fun field => bool_decide (is_Some (assoc field items))) fields = false ->
  exists e, require_fields fields (JObj items) what = Err e.
Proof.
  induction fields as [|f fs IH]; simpl; [discriminate|].
  intros H. destruct (assoc f items) as [v|] eqn:Hv; simpl.
  - apply IH. rewrite bool_decide_eq_true_2 in H by eauto. exact H.
  - eauto.
Qed.

Lemma require_fields_inv fields obj what :
  require_fields fields obj what = Ok tt ->
  Forall (fun field => py_in field obj = Ok true) fields.
Proof.
  induction fields as [|f fs IH]; simpl; intros H; constructor.
  - destruct (py_in f obj) as [[|]|]; simpl in H; congruence.
  - destruct (py_in f obj) as [[|]|]; simpl in H; try congruence. auto.
Qed.

Lemma process_week_missing week_data current_month :
  missing_week_field week_data = true ->
  exists e, process_week py_str web_search week_data current_month = Err e.
Proof.
  destruct week_data as [| | | | | |items]; unfold missing_week_field; try discriminate.
  intros H%negb_true_iff. unfold process_week.
  destruct (require_fields_missing _ items "week data" H) as [e He].
  rewrite He. simpl. eauto.
Qed.

(** A week that survives is a mapping that has every required field,
    and the week built from it carries its [week_number]. *)
Lemma process_week_inv week_data current_month plan :
  process_week py_str web_search week_data current_month = Ok plan ->
  exists items number,
    week_data = JObj items /\
    missing_week_field week_data = false /\
    assoc "week_number" items = Some number /\
    as_int number = Some (week_number plan) /\
    tasks plan <> [].
Proof.
  unfold process_week. intros H.
  destruct (require_fields required_week_fields week_data "week data")
    as [[]|] eqn:Hreq; simpl in H; [|discriminate].
  destruct (py_getitem week_data "quests") as [quests|] eqn:Hq; simpl in H; [|discriminate].
  destruct week_data as [| | | | | |items]; simpl in Hq; try discriminate.
  destruct (py_iter quests) as [qs|]; simpl in H; [|discriminate].
  destruct (assoc "week_number" items) as [number|] eqn:Hn; simpl in H; [|discriminate].
  destruct (omap _ qs) as [|t ts] eqn:Hts; [discriminate|].
  destruct (as_int number) as [n|] eqn:Hint; [|discriminate].
  injection H as <-. exists items, number. cbn [week_number tasks].
  repeat split; auto.
  unfold missing_week_field. apply negb_false_iff.
  apply require_fields_inv in Hreq.
  apply forallb_forall. intros f Hf.
  rewrite Forall_forall in Hreq. apply list_elem_of_In, Hreq in Hf.
  simpl in Hf. apply bool_decide_eq_true.
  destruct (assoc f items); [eauto|discriminate].
Qed.

Lemma omap_sublist {A B} (f : A -> option B) (l : list A) :
  exists kept, sublist kept l /\ Forall2 (fun a b => f a = Some b) kept (omap f l).
Proof.
  induction l as [|a l (kept & Hsub & Hall)]; simpl.
  - exists []. split; constructor.
  - destruct (f a) as [b|] eqn:Hfa.
    + exists (a :: kept). split; [by constructor|]. by constructor.
    + exists kept. split; [by constructor|]. done.
Qed.

Lemma weeks_validated roadmap :
  weeks (validated roadmap) = List.map format_week (weeks roadmap).
Proof. unfold validated. destruct (weeks roadmap) eqn:E; simpl; rewrite ?E; reflexivity. Qed.

Lemma build_roadmap_weeks persona duration uid month start finish items week_items roadmap :
  assoc "weeks" items = Some (JArr week_items) ->
  build_roadmap py_str web_search persona duration uid month start finish (JObj items)
    = Ok roadmap ->
  weeks roadmap =
    List.map format_week
      (omap (fun w => absorbed (process_week py_str web_search w month)) week_items).
Proof.
  intros Hw H. unfold build_roadmap in H. simpl in H. rewrite Hw in H. simpl in H.
  destruct (assoc "overall_goals" items) as [g|]; simpl in H; [|discriminate].
  destruct (omap _ week_items) as [|p ps] eqn:Hps; [discriminate|].
  destruct (all_some _) as [goals|]; [|discriminate].
  injection H as <-. rewrite weeks_validated. reflexivity.
Qed.

End WalkerFacts.

Lemma assoc_app_None key items1 items2 :
  assoc key items1 = None -> assoc key (items1 ++ items2)%list = assoc key items2.
Proof.
  induction items1 as [|[k v] items1 IH]; simpl; [reflexivity|].
  destruct (String.eqb k key); [discriminate|]. exact IH.
Qed.

Lemma assoc_middle key k v items1 items2 :
  assoc key (items1 ++ (k, v) :: items2)%list =
  match assoc key items1 with
  | Some x => Some x
  | None => if String.eqb k key then Some v else assoc key items2
  end.
Proof.
  induction items1 as [|[k' v'] items1 IH]; simpl; [reflexivity|].
  destruct (String.eqb k' key); [reflexivity|]. exact IH.
Qed.

(** C1. A week object that lacks [week_number], [theme] or [quests] is
    dropped and the walk goes on: the month built from a document is the
    month built from the same document without that week; the weeks of
    the result are, in input order, weeks of the document that have all
    three fields, each with the [week_number] it came with. A document
    of four weeks whose third lacks [theme] yields weeks 1, 2 and 4. *)
Theorem C1_week_containment
  (pyd : Pydantic) (py_str : json -> string)
  (web_search : string -> string -> Z -> list json)
  (persona : string) (duration : Z) (uid : option string)
  (month start finish : Z)
  (items1 items2 : list (string * json)) (before_ after_ : list json)
  (dropped : json)
  (Hkey : assoc "weeks" items1 = None)
  (Hmissing : missing_week_field dropped = true) :
  let doc ws := JObj (items1 ++ ("weeks", JArr ws) :: items2)%list in
  let build := build_roadmap py_str web_search persona duration uid month start finish in
  build (doc (before_ ++ dropped :: after_)%list) = build (doc (before_ ++ after_)%list)
  /\ (forall roadmap,
        build (doc (before_ ++ dropped :: after_)%list) = Ok roadmap ->
        exists kept,
          sublist kept (before_ ++ after_)%list /\
          Forall2 (fun week_data plan =>
                     missing_week_field week_data = false /\
                     exists number,
                       py_getitem week_data "week_number" = Ok number /\
                       as_int number = Some (week_number plan))
                  kept (weeks roadmap))
  /\ week_numbers
       (build_roadmap (pyd := strict_pydantic) no_render no_results
          persona duration uid month start finish four_weeks)
     = Ok [1; 2; 4]%Z.
Proof.
  intros doc build.
  assert (Hstep :
             omap (week_outcome py_str web_search month) (before_ ++ dropped :: after_)%list
             = omap (week_outcome py_str web_search month) (before_ ++ after_)%list).
  { rewrite !omap_app. f_equal. simpl.
    destruct (process_week_missing py_str web_search dropped month Hmissing) as [e He].
    unfold week_outcome at 1. rewrite He. reflexivity. }
  assert (Heq : build (doc (before_ ++ dropped :: after_)%list) = build (doc (before_ ++ after_)%list)).
  { unfold build, doc, build_roadmap. simpl.
    rewrite !assoc_middle, !Hkey. simpl.
    fold (week_outcome py_str web_search month). rewrite Hstep. reflexivity. }
  split; [exact Heq|]. split.
  - intros roadmap Hok. rewrite Heq in Hok.
    unfold build, doc in Hok.
    assert (Hw : assoc "weeks" (items1 ++ ("weeks", JArr (before_ ++ after_)%list) :: items2)%list
                 = Some (JArr (before_ ++ after_)%list)).
    { rewrite assoc_middle, Hkey. reflexivity. }
    rewrite (build_roadmap_weeks py_str web_search _ _ _ _ _ _ _ _ roadmap Hw Hok).
    destruct (omap_sublist (week_outcome py_str web_search month) (before_ ++ after_)%list)
      as (kept & Hsub & Hall).
    exists kept. split; [exact Hsub|].
    apply Forall2_fmap_r. eapply Forall2_impl; [exact Hall|].
    intros w plan Hout. unfold week_outcome, absorbed in Hout.
    destruct (process_week py_str web_search w month) as [plan'|] eqn:Hp; [|discriminate].
    injection Hout as ->.
    destruct (process_week_inv py_str web_search w month plan Hp)
      as (items & number & -> & Hfields & Hnum & Hint & _).
    split; [exact Hfields|]. exists number. simpl. rewrite Hnum. auto.
  - reflexivity.
Qed.

Lemma C1_week_containment_witness :
  missing_week_field (week_without_theme 3) = true /\
  build_roadmap (pyd := strict_pydantic) no_render no_results "INTJ" 1 None 1 10 40 four_weeks
  = build_roadmap (pyd := strict_pydantic) no_render no_results "INTJ" 1 None 1 10 40
      (doc_of [sample_week 1; sample_week 2; sample_week 4] (JArr [JStr "Goal 1"])).
Proof.
  split; [reflexivity|].
  exact (proj1 (C1_week_containment strict_pydantic no_render no_results
                  "INTJ" 1 None 1 10 40 [] [("overall_goals", JArr [JStr "Goal 1"])]
                  [sample_week 1; sample_week 2] [sample_week 4]
                  (week_without_theme 3) eq_refl eq_refl)).
Defined.

(** ** The walker: months *)

Lemma omap_all_dropped {A B} (f : A -> result B) (l : list A) :
  Forall (fun a => is_ok (f a) = false) l ->
  omap (fun a => absorbed (f a)) l = [].
Proof.
  induction 1 as [|a l Ha _ IH]; simpl; [reflexivity|].
  destruct (f a); [discriminate|]. exact IH.
Qed.

Lemma build_roadmap_fatal (pyd : Pydantic) py_str web_search
  persona duration uid month start finish doc :
  month_fatal py_str web_search month doc ->
  exists e,
    build_roadmap py_str web_search persona duration uid month start finish doc = Err e.
Proof.
  intros [items H|items H|items H|items ws H Hall]; unfold build_roadmap; simpl.
  - rewrite H. simpl. eauto.
  - rewrite H. destruct (assoc "weeks" items); simpl; eauto.
  - rewrite H. simpl. destruct (assoc "overall_goals" items); simpl; eauto.
  - rewrite H. simpl. destruct (assoc "overall_goals" items); simpl; eauto.
    rewrite (omap_all_dropped _ _ Hall). eauto.
Qed.

(** C2. When the parsed response lacks [weeks] or [overall_goals], or
    its [weeks] list is empty, or every week of it is dropped, the
    generation of the month raises: it yields an error and no roadmap. *)
Theorem C2_month_fatal
  (pyd : Pydantic) (py_str : json -> string)
  (web_search : string -> string -> Z -> list json)
  (json_loads : string -> result json)
  (persona : string) (duration : Z) (uid : option string)
  (month today : Z) (response : result string) (doc : json)
  (Hdoc : generate_content json_loads response = Ok doc)
  (Hfatal : month_fatal py_str web_search month doc) :
  exists e,
    generate_weekly_roadmap py_str web_search json_loads
      persona duration uid month today response = Err e.
Proof.
  unfold generate_weekly_roadmap.
  destruct (date_plus today ((month - 1) * 30)) as [start|]; simpl; [|eauto].
  destruct (date_plus start 30) as [finish|]; simpl; [|eauto].
  rewrite Hdoc. simpl.
  destruct (build_roadmap_fatal pyd py_str web_search persona duration uid
              month start finish doc Hfatal) as [e He].
  rewrite He. eauto.
Qed.

Lemma C2_month_fatal_witness :
  exists e,
    generate_weekly_roadmap (pyd := strict_pydantic) no_render no_results
      (fixed_loads empty_weeks) "INTJ" 1 None 1 738000 (Ok "{}") = Err e.
Proof.
  apply (C2_month_fatal strict_pydantic no_render no_results (fixed_loads empty_weeks)
           "INTJ" 1 None 1 738000 (Ok "{}") empty_weeks).
  - reflexivity.
  - apply fatal_empty. reflexivity.
Defined.

(** ** The parser cascade *)




(** ** Goals *)

(** C6. A mapping of goals is flattened in the order of its categories:
    a list-valued category gives its elements as they are, a
    string-valued one gives the single entry made of the category, a
    colon, a space and the value; a flat list is used as it is; any other
    shape gives the empty list, and nothing fails. The sample mapping of
    [short_term] and [long_term] gives a, b and the tagged c. *)
Theorem C6_goals_normalization :
  (forall category goals rest,
     normalize_goals (JObj ((category, JArr goals) :: rest))
     = (goals ++ normalize_goals (JObj rest))%list)
  /\ (forall category goal rest,
        normalize_goals (JObj ((category, JStr goal) :: rest))
        = JStr (category ++ ": " ++ goal) :: normalize_goals (JObj rest))
  /\ normalize_goals (JObj []) = []
  /\ (forall goals, normalize_goals (JArr goals) = goals)
  /\ (forall raw_goals,
        match raw_goals with
        | JObj _ | JArr _ => True
        | _ => normalize_goals raw_goals = []
        end)
  /\ normalize_goals goals_mapping = [JStr "a"; JStr "b"; JStr "long_term: c"]
  /\ goals_of
       (build_roadmap (pyd := strict_pydantic) no_render no_results
          "INTJ" 1 None 1 10 40 (doc_of [sample_week 1] goals_mapping))
     = Ok ["a"; "b"; "long_term: c"].
Proof.
  repeat split; try reflexivity.
  intros []; auto.
Qed.

(** ** The search query *)

Lemma cap_length q :
  (String.length (if (390 <? String.length q)%nat then take 390 q else q) <= 390)%nat.
Proof.
  destruct (Nat.ltb_spec 390 (String.length q)); [apply length_take_le|lia].
Qed.

Lemma truncated_task_str py_str task :
  exists t, truncated_task py_str (JStr task) = Ok t.
Proof. unfold truncated_task. destruct (truthy (JStr task)); eauto. Qed.

(** C9. For every task name that is a string, every practice value and
    every month, the enrichment step does build a query, hands exactly
    that query to the search provider, and the query has at most 390
    characters. *)
Theorem C9_query_cap
  (py_str : json -> string) (web_search : string -> string -> Z -> list json)
  (task : string) (practice : json) (current_month : Z) :
  exists query,
    search_query py_str (JStr task) practice current_month = Ok query /\
    (String.length query <= 390)%nat /\
    enrich_resources_with_web_search py_str web_search (JStr task) practice current_month
    = web_search query (search_depth current_month) (max_results current_month).
Proof.
  unfold enrich_resources_with_web_search, search_query.
  destruct (truncated_task_str py_str task) as [t ->]. cbn [bind].
  eexists. split; [reflexivity|]. split; [apply cap_length|reflexivity].
Qed.

(** ** Post-validation *)

Lemma format_task_frame t : task_frame t (format_task t).
Proof.
  unfold format_task, task_frame.
  destruct (nonempty (practice t)); simpl; auto 10.
Qed.

Lemma format_week_frame w : week_frame w (format_week w).
Proof.
  split; [reflexivity|]. simpl.
  induction (tasks w); simpl; constructor; auto using format_task_frame.
Qed.

Lemma validated_frame r : roadmap_frame r (validated r).
Proof.
  unfold roadmap_frame. rewrite weeks_validated.
  repeat (split; [unfold validated; destruct (weeks r); reflexivity|]).
  induction (weeks r); simpl; constructor; auto using format_week_frame.
Qed.

Lemma validated_empty r : weeks r = [] -> validated r = r.
Proof. unfold validated. intros ->. reflexivity. Qed.

(** C10. Post-validation is total and returns the reference it was
    given. For [None] the store is untouched; otherwise only the object
    referred to may change; if its weeks are empty it is unchanged, and
    in any case all it may differ in is the [practice] of its tasks:
    [week_number], [task_name], [resources], [time_slot],
    [time_commitment], the dates, [persona_type] and [overall_goals] are
    as before. *)
Theorem C10_validation_frame
  (store : gmap nat MonthlyRoadmap) (roadmap : option nat) :
  snd (validate_monthly_roadmap store roadmap) = roadmap
  /\ (roadmap = None -> fst (validate_monthly_roadmap store roadmap) = store)
  /\ (forall l l',
        roadmap = Some l -> l' <> l ->
        fst (validate_monthly_roadmap store roadmap) !! l' = store !! l')
  /\ (forall l r,
        roadmap = Some l -> store !! l = Some r ->
        exists r',
          fst (validate_monthly_roadmap store roadmap) !! l = Some r' /\
          roadmap_frame r r' /\
          (weeks r = [] -> r' = r)).
Proof.
  destruct roadmap as [l0|]; simpl.
  - split; [reflexivity|]. split; [discriminate|]. split.
    + intros l l' [= ->] Hne. apply lookup_alter_ne. congruence.
    + intros l r [= ->] Hr. exists (validated r).
      rewrite lookup_alter_eq, Hr. simpl.
      auto using validated_frame, validated_empty.
  - repeat split; try reflexivity; discriminate.
Qed.

Lemma C10_validation_frame_witness :
  exists r',
    fst (validate_monthly_roadmap {[ 7%nat := sample_month 10 ["a"] ]} (Some 7%nat))
      !! 7%nat = Some r' /\
    roadmap_frame (sample_month 10 ["a"]) r'.
Proof.
  destruct (proj2 (proj2 (proj2
              (C10_validation_frame {[ 7%nat := sample_month 10 ["a"] ]} (Some 7%nat))))
              7%nat (sample_month 10 ["a"]) eq_refl (lookup_singleton_eq _ _))
    as (r' & Hr' & Hframe & _).
  exists r'. split; assumption.
Defined.

(** ** Multi-month aggregation *)

Lemma filter_all {A} (P : A -> Prop) `{forall x, Decision (P x)} (l : list A) :
  (forall x, P x) -> filter P l = l.
Proof.
  intros HP. induction l as [|a l IH]; [reflexivity|].
  rewrite filter_cons_True by apply HP. by rewrite IH.
Qed.

Lemma fold_dedup_step (l : list string) (seen : gset string) (acc : list string) :
  snd (List.fold_left Endpoint.dedup_step l (seen, acc))
  = (acc ++ filter (fun x => x ∉ seen) (dedup_first l))%list.
Proof.
  revert seen acc. induction l as [|x l IH]; intros seen acc; simpl.
  - by rewrite app_nil_r.
  - destruct (decide (x ∈ seen)) as [Hin|Hnin].
    + rewrite IH. f_equal.
      rewrite filter_cons_False by (intros Hx; exact (Hx Hin)).
      symmetry. apply list_filter_filter_l. intros y Hy ->. exact (Hy Hin).
    + rewrite IH, <- app_assoc. simpl. f_equal.
      rewrite filter_cons_True by exact Hnin. f_equal.
      rewrite list_filter_filter. apply list_filter_iff. intros y.
      rewrite not_elem_of_union, not_elem_of_singleton. tauto.
Qed.

(** The loop over [seen] computes first-occurrence deduplication. *)
Lemma unique_goals_dedup_first (l : list string) :
  Endpoint.unique_goals l = dedup_first l.
Proof.
  unfold Endpoint.unique_goals. rewrite fold_dedup_step. simpl.
  apply filter_all. intros x. apply not_elem_of_empty.
Qed.

Lemma overall_goals_validated r : overall_goals (validated r) = overall_goals r.
Proof. unfold validated. destruct (weeks r); reflexivity. Qed.

Lemma start_date_validated r : start_date (validated r) = start_date r.
Proof. unfold validated. destruct (weeks r); reflexivity. Qed.

Lemma end_date_validated r : end_date (validated r) = end_date r.
Proof. unfold validated. destruct (weeks r); reflexivity. Qed.

Lemma last_cons_default {A} (x : A) (l : list A) :
  last (x :: l) = Some (default x (last l)).
Proof. rewrite last_cons. destruct (last l); reflexivity. Qed.

(** What the aggregation makes of a non-empty list of gathered months. *)
Lemma combine_months (persona : string) (duration : Z) (uid : option string)
  (first : MonthlyRoadmap) (rest : list MonthlyRoadmap) :
  exists kwargs obj,
    Endpoint.multi_month_kwargs persona duration uid
      (List.map validated (first :: rest)) = Ok kwargs /\
    Endpoint.combine persona duration uid (first :: rest) = Ok obj /\
    getattr kwargs "combined_goals"
    = Some (VStrs (dedup_first (List.concat (List.map overall_goals (first :: rest))))) /\
    getattr obj "combined_goals" = None /\
    getattr obj "start_date" = Some (VDate (start_date first)) /\
    getattr obj "end_date" = Some (VDate (end_date (default first (last rest)))).
Proof.
  unfold Endpoint.combine, Endpoint.multi_month_kwargs.
  change (List.map validated (first :: rest)) with (validated <$> (first :: rest)).
  rewrite fmap_last, last_cons_default. simpl.
  eexists. eexists. split; [reflexivity|]. split; [reflexivity|].
  simpl. rewrite start_date_validated, end_date_validated.
  repeat split. do 2 f_equal. rewrite unique_goals_dedup_first.
  rewrite overall_goals_validated. do 2 f_equal.
  induction rest as [|r rest IH]; simpl; [reflexivity|].
  by rewrite overall_goals_validated, IH.
Qed.

Lemma to_http_ok {A} (r : result A) (a : A) :
  Endpoint.to_http r = Ok a -> r = Ok a.
Proof. destruct r as [|[]]; simpl; congruence. Qed.

(** C7. Every multi-month generation that returns gathered at least one
    month; the endpoint computed the first-occurrence deduplication of
    the concatenated monthly goals and passed it to the constructor as
    [combined_goals]; the object that comes back has the first month's
    [start_date] and the last month's [end_date] but no [combined_goals]
    attribute, the class declaring no such field. Goals a, b and b, c
    are combined to a, b, c. *)
Theorem C7_combined_goals_not_carried
  (pyd : Pydantic) (py_str : json -> string)
  (web_search : string -> string -> Z -> list json)
  (json_loads : string -> result json) (today : Z) (reply : Z -> result string)
  (persona : string) (duration : Z) (uid : option string) (obj : model)
  (Hrun : Endpoint.generate_weekly_roadmap py_str web_search json_loads today reply
            persona duration uid = Ok (Endpoint.Multi obj)) :
  exists first rest kwargs,
    Endpoint.gather_months py_str web_search json_loads today reply persona duration uid
    = Ok (first :: rest) /\
    Endpoint.multi_month_kwargs persona duration uid
      (List.map validated (first :: rest)) = Ok kwargs /\
    getattr kwargs "combined_goals"
    = Some (VStrs (dedup_first (List.concat (List.map overall_goals (first :: rest))))) /\
    getattr obj "combined_goals" = None /\
    getattr obj "start_date" = Some (VDate (start_date first)) /\
    getattr obj "end_date" = Some (VDate (end_date (default first (last rest)))) /\
    Endpoint.unique_goals (["a"; "b"] ++ ["b"; "c"])%list = ["a"; "b"; "c"].
Proof.
  apply to_http_ok in Hrun. unfold Endpoint.generate_weekly_roadmap in Hrun.
  destruct (negb (nonempty persona)); [discriminate|].
  destruct (duration <? 1)%Z; [discriminate|].
  destruct (duration =? 1)%Z.
  { destruct (Endpoint.month_roadmap _ _ _ _ _ _ _ _ _); discriminate. }
  destruct (Endpoint.gather_months _ _ _ _ _ _ _ _) as [months|]; [|discriminate].
  simpl in Hrun.
  destruct (Endpoint.combine persona duration uid months) as [multi|] eqn:Hc; [|discriminate].
  injection Hrun as ->.
  destruct months as [|first rest].
  { unfold Endpoint.combine in Hc. simpl in Hc. discriminate. }
  destruct (combine_months persona duration uid first rest)
    as (kwargs & obj' & Hk & Hc' & Hg & Hn & Hs & He).
  rewrite Hc in Hc'. injection Hc' as <-.
  exists first, rest, kwargs. repeat split; done.
Qed.

Lemma C7_combined_goals_not_carried_witness :
  exists obj,
    Endpoint.generate_weekly_roadmap (pyd := strict_pydantic) no_render no_results
      (fixed_loads (doc_of [sample_week 1] (JArr [JStr "a"; JStr "b"])))
      738000 (fun _ => Ok "{}") "INTJ" 2 None = Ok (Endpoint.Multi obj) /\
    getattr obj "combined_goals" = None.
Proof.
  eexists. split; [reflexivity|].
  match goal with
  | |- getattr ?o _ = _ =>
      destruct (C7_combined_goals_not_carried strict_pydantic no_render no_results
                  (fixed_loads (doc_of [sample_week 1] (JArr [JStr "a"; JStr "b"])))
                  738000 (fun _ => Ok "{}") "INTJ" 2 None o eq_refl)
        as (first & rest & kwargs & _ & _ & _ & Hnone & _)
  end.
  exact Hnone.
Defined.

(** ** Facts on strings and lines *)

Lemma append_cons c s t : String c s ++ t = String c (s ++ t).
Proof. reflexivity. Qed.

Lemma NL_app s : NL ++ s = String nl s.
Proof. reflexivity. Qed.

Lemma append_nil_l s : EmptyString ++ s = s.
Proof. reflexivity. Qed.

Lemma append_nil_r s : s ++ EmptyString = s.
Proof. induction s as [|c s IH]; [reflexivity|]. by rewrite append_cons, IH. Qed.

Lemma append_assoc s1 s2 s3 : (s1 ++ s2) ++ s3 = s1 ++ (s2 ++ s3).
Proof. induction s1 as [|c s1 IH]; [reflexivity|]. by rewrite !append_cons, IH. Qed.

Lemma length_append s1 s2 :
  String.length (s1 ++ s2) = (String.length s1 + String.length s2)%nat.
Proof.
  induction s1 as [|c s1 IH]; [reflexivity|]. rewrite append_cons. simpl. by rewrite IH.
Qed.

Lemma prefix_cons a p b s :
  String.prefix (String a p) (String b s) = Ascii.eqb a b && String.prefix p s.
Proof.
  simpl. destruct (ascii_dec a b) as [->|Hne].
  - by rewrite Ascii.eqb_refl.
  - apply Ascii.eqb_neq in Hne. by rewrite Hne.
Qed.

Lemma prefix_nil s : String.prefix EmptyString s = true.
Proof. by destruct s. Qed.

Lemma prefix_true m l : String.prefix m l = true -> l = m ++ drop (String.length m) l.
Proof.
  revert l. induction m as [|a m IH]; intros l H; [reflexivity|].
  destruct l as [|b l]; [discriminate|].
  rewrite prefix_cons in H. apply andb_true_iff in H as [Hab Hp].
  apply Ascii.eqb_eq in Hab as ->. rewrite append_cons. simpl. f_equal. auto.
Qed.

Lemma prefix_append m t : String.prefix m (m ++ t) = true.
Proof.
  induction m as [|a m IH]; [apply prefix_nil|].
  rewrite append_cons, prefix_cons, Ascii.eqb_refl. exact IH.
Qed.

Lemma prefix_app_r m l r : String.prefix m l = true -> String.prefix m (l ++ r) = true.
Proof.
  intros H. rewrite (prefix_true m l H), append_assoc. apply prefix_append.
Qed.

Lemma prefix_app_nl m l t :
  all_chars not_nl m = true ->
  String.prefix m (l ++ String nl t) = String.prefix m l.
Proof.
  revert l. induction m as [|a m IH]; intros l Hm; [by rewrite !prefix_nil|].
  simpl in Hm. apply andb_true_iff in Hm as [Ha Hm].
  destruct l as [|b l].
  - rewrite append_nil_l, prefix_cons.
    unfold not_nl in Ha. apply negb_true_iff in Ha. by rewrite Ha.
  - rewrite append_cons, !prefix_cons. by rewrite IH.
Qed.

Lemma drop_append m t : drop (String.length m) (m ++ t) = t.
Proof. induction m as [|a m IH]; [by destruct t|]. rewrite append_cons. exact IH. Qed.

Lemma prefix_length m l :
  String.prefix m l = true -> (String.length m <= String.length l)%nat.
Proof.
  intros H. rewrite (prefix_true m l H), length_append. lia.
Qed.

Lemma drop_app k l r :
  (k <= String.length l)%nat -> drop k (l ++ r) = drop k l ++ r.
Proof.
  revert l. induction k as [|k IH]; intros l H; [by destruct l|].
  destruct l as [|c l]; simpl in H; [lia|].
  rewrite append_cons. simpl. apply IH. lia.
Qed.

Lemma replace_from_skip old new k s :
  replace_from old new k s = replace_from old new 0 (drop k s).
Proof.
  revert k. induction s as [|c s IH]; intros [|k]; try reflexivity.
  simpl. apply IH.
Qed.

Lemma replace_hit old new s :
  nonempty old = true ->
  String.prefix old s = true ->
  replace old new s = new ++ replace old new (drop (String.length old) s).
Proof.
  intros Hne H. destruct old as [|a o]; [discriminate|].
  destruct s as [|c s]; [discriminate|].
  unfold replace. cbn [replace_from]. rewrite H.
  rewrite replace_from_skip. simpl. by rewrite Nat.sub_0_r.
Qed.

Lemma replace_miss old new c s :
  nonempty old = true ->
  String.prefix old (String c s) = false ->
  replace old new (String c s) = String c (replace old new s).
Proof.
  intros Hne H. destruct old as [|a o]; [discriminate|].
  unfold replace. cbn [replace_from]. by rewrite H.
Qed.

Lemma replace_empty old new : nonempty old = true -> replace old new EmptyString = EmptyString.
Proof. by destruct old. Qed.

Lemma contains_cons p c s :
  contains p (String c s) = String.prefix p (String c s) || contains p s.
Proof. reflexivity. Qed.

Lemma contains_prefix p s : contains p s = false -> String.prefix p s = false.
Proof. destruct s; simpl; intros H; apply orb_false_iff in H; tauto. Qed.

(** No occurrence, then nothing is replaced, up to a following newline. *)
Lemma replace_pass old new u rest :
  nonempty old = true ->
  all_chars not_nl old = true ->
  contains old u = false ->
  (rest = EmptyString \/ exists t, rest = String nl t) ->
  replace old new (u ++ rest) = u ++ replace old new rest.
Proof.
  intros Hne Hold Hu Hrest. induction u as [|c u IH]; [reflexivity|].
  rewrite contains_cons in Hu. apply orb_false_iff in Hu as [Hp Hu].
  rewrite append_cons, replace_miss; [|done|].
  - by rewrite IH, append_cons.
  - rewrite <- append_cons. destruct Hrest as [->|[t ->]].
    + by rewrite append_nil_r.
    + by rewrite prefix_app_nl.
Qed.

Lemma join_tails l ls : join NL (l :: ls) = l ++ tails ls.
Proof.
  revert l. induction ls as [|x r IH]; intros l.
  - simpl. by rewrite append_nil_r.
  - change (join NL (l :: x :: r)) with (l ++ NL ++ join NL (x :: r)).
    by rewrite IH.
Qed.

Lemma tails_shape ls : tails ls = EmptyString \/ exists t, tails ls = String nl t.
Proof. destruct ls as [|l r]; [by left|right]. eexists. reflexivity. Qed.

Lemma lines_cons_nl s : lines (String nl s) = EmptyString :: lines s.
Proof. reflexivity. Qed.

Lemma lines_cons_other c s :
  not_nl c = true ->
  exists l r, lines s = l :: r /\ lines (String c s) = String c l :: r.
Proof.
  intros Hc. unfold lines. simpl.
  unfold not_nl in Hc. apply negb_true_iff in Hc. rewrite Hc.
  destruct (split_on nl s) as [|l r] eqn:E.
  - destruct s; simpl in E; [discriminate|].
    destruct (Ascii.eqb a nl); [discriminate|]. destruct (split_on nl s); discriminate.
  - eauto.
Qed.

Lemma lines_app l R :
  all_chars not_nl l = true -> lines (l ++ String nl R) = l :: lines R.
Proof.
  induction l as [|c l IH]; intros H; [reflexivity|].
  simpl in H. apply andb_true_iff in H as [Hc Hl].
  rewrite append_cons.
  destruct (lines_cons_other c (l ++ String nl R) Hc) as (x & r & E1 & E2).
  rewrite E2. rewrite (IH Hl) in E1. by injection E1 as <- <-.
Qed.

Lemma lines_single l : all_chars not_nl l = true -> lines l = [l].
Proof.
  induction l as [|c l IH]; intros H; [reflexivity|].
  simpl in H. apply andb_true_iff in H as [Hc Hl].
  destruct (lines_cons_other c l Hc) as (x & r & E1 & E2).
  rewrite E2. rewrite (IH Hl) in E1. by injection E1 as <- <-.
Qed.

Lemma lines_tails l ls :
  forallb (all_chars not_nl) (l :: ls) = true -> lines (l ++ tails ls) = l :: ls.
Proof.
  revert l. induction ls as [|x r IH]; intros l H.
  - simpl in H. rewrite andb_true_r in H. cbn [tails]. rewrite append_nil_r.
    by apply lines_single.
  - cbn [forallb] in H. apply andb_true_iff in H as [Hl H].
    cbn [tails]. unfold NL. rewrite append_cons, append_nil_l.
    rewrite lines_app by done. f_equal. by apply IH.
Qed.

(** Every text is its lines joined by newlines. *)
Lemma lines_spec s :
  exists l r, lines s = l :: r /\ s = l ++ tails r /\
              forallb (all_chars not_nl) (l :: r) = true.
Proof.
  induction s as [|c s (l & r & E & Hs & Hall)].
  - exists EmptyString, []. auto.
  - destruct (Ascii.eqb c nl) eqn:Hc.
    + apply Ascii.eqb_eq in Hc as ->. rewrite lines_cons_nl, E.
      exists EmptyString, (l :: r). split; [done|]. split.
      * cbn [tails]. by rewrite <- Hs.
      * cbn [forallb] in *. by rewrite Hall.
    + assert (Hn : not_nl c = true) by (unfold not_nl; by rewrite Hc).
      destruct (lines_cons_other c s Hn) as (x & r' & E1 & E2).
      rewrite E in E1. injection E1 as <- <-. rewrite E2.
      exists (String c l), r. split; [done|]. split.
      * by rewrite append_cons, <- Hs.
      * cbn [forallb all_chars] in *. by rewrite Hn.
Qed.

Lemma join_lines s : join NL (lines s) = s.
Proof.
  destruct (lines_spec s) as (l & r & -> & Hs & _). by rewrite join_tails.
Qed.

Lemma all_chars_impl (p q : ascii -> bool) s :
  (forall c, p c = true -> q c = true) -> all_chars p s = true -> all_chars q s = true.
Proof.
  intros Hpq. induction s as [|c s IH]; [done|]. simpl.
  intros [Hc Hs]%andb_true_iff. rewrite (Hpq c Hc). auto.
Qed.

Lemma all_chars_app p s t :
  all_chars p (s ++ t) = all_chars p s && all_chars p t.
Proof.
  induction s as [|c s IH]; [done|]. rewrite append_cons. simpl.
  by rewrite IH, andb_assoc.
Qed.

Lemma replace_absent a o new s :
  all_chars (fun c => negb (Ascii.eqb a c)) s = true ->
  replace (String a o) new s = s.
Proof.
  induction s as [|c s IH]; [done|]. cbn [all_chars].
  intros [Hc Hs]%andb_true_iff. rewrite replace_miss; [|done|].
  - by rewrite IH.
  - rewrite prefix_cons. apply negb_true_iff in Hc. by rewrite Hc.
Qed.

Lemma filter_chars_all p s : all_chars p s = true -> filter_chars p s = s.
Proof.
  induction s as [|c s IH]; [done|]. simpl.
  intros [Hc Hs]%andb_true_iff. by rewrite Hc, IH.
Qed.

Lemma prefix_both m m' l :
  String.prefix m l = true -> String.prefix m' l = true ->
  String.prefix m m' = true \/ String.prefix m' m = true.
Proof.
  revert m m'. induction l as [|c l IH]; intros m m' H H'.
  - destruct m; [|discriminate]. left. apply prefix_nil.
  - destruct m as [|a m]; [left; apply prefix_nil|].
    destruct m' as [|a' m']; [right; apply prefix_nil|].
    rewrite prefix_cons in H, H'.
    apply andb_true_iff in H as [Ha H]. apply andb_true_iff in H' as [Ha' H'].
    apply Ascii.eqb_eq in Ha as ->. apply Ascii.eqb_eq in Ha' as ->.
    rewrite !prefix_cons, Ascii.eqb_refl. simpl. eauto.
Qed.

Lemma contains_drop m k s : contains m s = false -> contains m (drop k s) = false.
Proof.
  revert s. induction k as [|k IH]; intros s H; [by destruct s|].
  destruct s as [|c s]; [done|]. simpl. apply IH.
  rewrite contains_cons in H. apply orb_false_iff in H. tauto.
Qed.

Lemma is_marker_inv m :
  is_marker m = true ->
  nonempty m = true /\ all_chars not_nl m = true /\
  forall s, String.prefix m (String nl s) = false.
Proof.
  unfold is_marker. intros [Hne Hall]%andb_true_iff. repeat split; try done.
  intros s. destruct m as [|a o]; [done|]. rewrite prefix_cons.
  simpl in Hall. apply andb_true_iff in Hall as [Ha _].
  unfold not_nl in Ha. apply negb_true_iff in Ha. by rewrite Ha.
Qed.

Lemma replace_nl_miss m new s :
  is_marker m = true ->
  replace m new (String nl s) = String nl (replace m new s).
Proof.
  intros (Hne & _ & Hnl)%is_marker_inv. by apply replace_miss.
Qed.

Section Step.

Variable m : string.
Hypothesis Hm : is_marker m = true.

(** One replacement pass over a line that is followed by the end of the
    text or by a newline. *)
Lemma step_line b l R :
  nonempty l = true ->
  contains m (drop 1 l) = false ->
  (b = true -> String.prefix m l = false) ->
  (R = EmptyString \/ exists t, R = String nl t) ->
  replace m (NL ++ m) (flagged (b, l) ++ R)
  = flagged (mark m (b, l)) ++ replace m (NL ++ m) R.
Proof.
  intros Hl Hfree Hb HR.
  destruct (is_marker_inv m Hm) as (Hne & Hall & _).
  assert (Hbody : replace m (NL ++ m) (l ++ R)
                  = (if String.prefix m l then NL else EmptyString) ++ l ++ replace m (NL ++ m) R).
  { destruct (String.prefix m l) eqn:Hp.
    - rewrite replace_hit; [|done|by apply prefix_app_r].
      rewrite drop_app by (by apply prefix_length).
      rewrite replace_pass; [|done|done| |done].
      + rewrite <- !append_assoc. f_equal. rewrite append_assoc.
        by rewrite <- (prefix_true m l Hp).
      + destruct l as [|c l]; [done|].
        simpl in Hfree. destruct m as [|a o]; [done|]. simpl. by apply contains_drop.
    - destruct l as [|c l]; [done|]. rewrite append_cons.
      rewrite replace_miss; [|done|].
      + simpl in Hfree. rewrite replace_pass by done. by rewrite append_nil_l, append_cons.
      + rewrite <- append_cons. destruct HR as [->|[t ->]].
        * by rewrite append_nil_r.
        * by rewrite prefix_app_nl. }
  unfold flagged, mark. cbn [fst snd]. destruct b.
  - rewrite (Hb eq_refl) in *. cbn [orb].
    rewrite !append_assoc, (NL_app (l ++ R)).
    rewrite replace_nl_miss by done.
    rewrite Hbody. by rewrite append_nil_l.
  - rewrite append_nil_l. cbn [orb]. rewrite Hbody. by rewrite append_assoc.
Qed.

Lemma step_tails items :
  Forall (fun it => nonempty (snd it) = true /\
                    contains m (drop 1 (snd it)) = false /\
                    (fst it = true -> String.prefix m (snd it) = false)) items ->
  replace m (NL ++ m) (tails_b items) = tails_b (List.map (mark m) items).
Proof.
  induction 1 as [|[b l] items (Hl & Hfree & Hb) _ IH]; [by apply replace_empty, is_marker_inv|].
  cbn [tails_b List.map]. rewrite (NL_app (flagged (b, l) ++ _)).
  rewrite replace_nl_miss by done. rewrite NL_app. f_equal.
  rewrite step_line; [by rewrite IH|done|done|done|].
  destruct items as [|it r]; [by left|right]. eexists. reflexivity.
Qed.

End Step.

Lemma tails_b_shape items : tails_b items = EmptyString \/ exists t, tails_b items = String nl t.
Proof. destruct items as [|it r]; [by left|right]. eexists. reflexivity. Qed.

Lemma step_body m items :
  is_marker m = true ->
  Forall (fun it => nonempty (snd it) = true /\
                    contains m (drop 1 (snd it)) = false /\
                    (fst it = true -> String.prefix m (snd it) = false)) items ->
  pass (body items) m = body (List.map (mark m) items).
Proof.
  intros Hm Hall. unfold pass. destruct Hall as [|[b l] items (Hl & Hfree & Hb) Hall].
  - by apply replace_empty, is_marker_inv.
  - cbn [body List.map].
    rewrite step_line by auto using tails_b_shape.
    by rewrite step_tails.
Qed.

Lemma no_prefix_pairs_cons m ms m' l :
  no_prefix_pairs (m :: ms) = true -> In m' ms ->
  String.prefix m l = true -> String.prefix m' l = false.
Proof.
  cbn [no_prefix_pairs]. intros [Hm _]%andb_true_iff Hin Hp.
  rewrite forallb_forall in Hm. specialize (Hm m' Hin).
  apply andb_true_iff in Hm as [H1 H2].
  apply negb_true_iff in H1, H2.
  destruct (String.prefix m' l) eqn:Hp'; [|done].
  destruct (prefix_both m m' l Hp Hp'); congruence.
Qed.

Lemma split_fold ms :
  forallb is_marker ms = true ->
  no_prefix_pairs ms = true ->
  forall items,
    Forall (fun it => nonempty (snd it) = true /\
                      (forall m, In m ms -> contains m (drop 1 (snd it)) = false) /\
                      (fst it = true -> forall m, In m ms -> String.prefix m (snd it) = false))
           items ->
    List.fold_left pass ms (body items) = body (List.map (mark_all ms) items).
Proof.
  induction ms as [|m ms IH]; intros Hms Hpairs items Hitems.
  - cbn [List.fold_left]. f_equal. symmetry. erewrite map_ext; [apply map_id|].
    intros [b l]. unfold mark_all. simpl. by rewrite orb_false_r.
  - cbn [forallb] in Hms. apply andb_true_iff in Hms as [Hm Hms].
    cbn [List.fold_left]. rewrite step_body; [|done|].
    + rewrite IH; [| done | by apply andb_true_iff in Hpairs as [_ ?] |].
      * f_equal. rewrite map_map. apply map_ext. intros [b l].
        unfold mark_all, mark. cbn [fst snd existsb]. by rewrite orb_assoc.
      * rewrite Forall_forall in Hitems. apply Forall_forall.
        intros it' Hin. apply list_elem_of_In, in_map_iff in Hin as ([b l] & <- & Hin).
        apply list_elem_of_In, Hitems in Hin as (Hl & Hfree & Hb).
        cbn [fst snd mark] in *. repeat split; [done|intros; apply Hfree; by right|].
        intros [Hbt|Hp]%orb_true_iff m' Hm'.
        -- apply Hb; [done|by right].
        -- by eapply no_prefix_pairs_cons.
    + eapply Forall_impl; [exact Hitems|]. intros [b l] (Hl & Hfree & Hb). cbn [fst snd] in *.
      repeat split; [done|apply Hfree; by left|]. intros Hbt. apply Hb; [done|by left].
Qed.

(** The pass that merges doubled newlines. *)
Lemma dedupe_pass new l R :
  all_chars not_nl l = true ->
  replace (NL ++ NL) new (l ++ R) = l ++ replace (NL ++ NL) new R.
Proof.
  induction l as [|c l IH]; [done|]. cbn [all_chars].
  intros [Hc Hl]%andb_true_iff. rewrite append_cons, replace_miss; [|done|].
  - by rewrite IH, append_cons.
  - unfold NL. rewrite append_cons, prefix_cons.
    unfold not_nl in Hc. apply negb_true_iff in Hc.
    by rewrite Ascii.eqb_sym, Hc.
Qed.

Lemma prefix_NLNL c s :
  not_nl c = true -> String.prefix (NL ++ NL) (String nl (String c s)) = false.
Proof.
  intros Hc. change (NL ++ NL) with (String nl (String nl EmptyString)).
  rewrite !prefix_cons. unfold not_nl in Hc. apply negb_true_iff in Hc.
  by rewrite Ascii.eqb_refl, Ascii.eqb_sym, Hc.
Qed.

Lemma dedupe_tails items :
  Forall (fun it => nonempty (snd it) = true /\ all_chars not_nl (snd it) = true) items ->
  replace (NL ++ NL) NL (tails_b items) = tails (List.map snd items).
Proof.
  induction 1 as [|[b l] items [Hl Hall] _ IH]; [done|].
  cbn [tails_b List.map tails snd]. unfold flagged. cbn [fst snd]. destruct b.
  - rewrite (append_assoc NL l), <- (append_assoc NL NL).
    rewrite replace_hit; [|done|apply prefix_append].
    rewrite drop_append. by rewrite dedupe_pass, IH.
  - rewrite append_nil_l. rewrite (NL_app (l ++ _)), replace_miss; [|done|].
    + by rewrite dedupe_pass, IH.
    + destruct l as [|c l]; [done|]. cbn [all_chars] in Hall.
      apply andb_true_iff in Hall as [Hc _].
      rewrite append_cons. by apply prefix_NLNL.
Qed.

Lemma lstrip_nl_line l R :
  nonempty l = true -> all_chars not_nl l = true ->
  lstrip_nl (l ++ R) = l ++ R.
Proof.
  destruct l as [|c l]; [done|]. cbn [all_chars]. intros _ [Hc _]%andb_true_iff.
  rewrite append_cons. simpl. unfold not_nl in Hc. apply negb_true_iff in Hc. by rewrite Hc.
Qed.

Lemma lstrip_nl_nl s : lstrip_nl (String nl s) = lstrip_nl s.
Proof. reflexivity. Qed.

Lemma dedupe_body it items :
  Forall (fun it => nonempty (snd it) = true /\ all_chars not_nl (snd it) = true)
         (it :: items) ->
  lstrip_nl (replace (NL ++ NL) NL (body (it :: items)))
  = snd it ++ tails (List.map snd items).
Proof.
  intros Hall. inversion Hall as [|? ? [Hl Hnl] Hrest]; subst.
  destruct it as [b l]. cbn [body snd fst] in *. unfold flagged. cbn [fst snd].
  destruct b.
  - rewrite append_assoc, (NL_app (l ++ _)), replace_miss; [|done|].
    + rewrite dedupe_pass, dedupe_tails by done.
      rewrite lstrip_nl_nl. by apply lstrip_nl_line.
    + destruct l as [|c l]; [done|]. cbn [all_chars] in Hnl.
      apply andb_true_iff in Hnl as [Hc _].
      rewrite append_cons. by apply prefix_NLNL.
  - rewrite append_nil_l, dedupe_pass, dedupe_tails by done. by apply lstrip_nl_line.
Qed.

Lemma stable_line_inv l :
  stable_line l = true ->
  all_chars clean_char l = true /\ strip l = l /\ starts_numbered l = true /\
  bare_number l = false /\ marker_free (drop 1 l) = true /\ nonempty l = true.
Proof.
  unfold stable_line. intros H.
  repeat (apply andb_true_iff in H as [H ?]).
  repeat split; try done.
  - by apply String.eqb_eq.
  - by apply negb_true_iff.
  - destruct l; [discriminate|done].
Qed.

Lemma clean_not_nl l : all_chars clean_char l = true -> all_chars not_nl l = true.
Proof.
  apply all_chars_impl. unfold clean_char. intros c H.
  apply andb_true_iff in H. tauto.
Qed.

Lemma clean_text l : all_chars clean_char l = true -> all_chars text_char l = true.
Proof.
  apply all_chars_impl. unfold clean_char, text_char. intros c H.
  apply andb_true_iff in H. tauto.
Qed.

Lemma all_chars_tails p ls :
  p nl = true -> forallb (all_chars p) ls = true -> all_chars p (tails ls) = true.
Proof.
  intros Hnl. induction ls as [|l r IH]; [done|]. cbn [forallb tails].
  intros [Hl Hr]%andb_true_iff.
  rewrite NL_app. cbn [all_chars]. rewrite Hnl, all_chars_app, Hl. simpl. auto.
Qed.

Lemma forallb_impl {A} (p q : A -> bool) l :
  (forall x, p x = true -> q x = true) -> forallb p l = true -> forallb q l = true.
Proof.
  intros Hpq. induction l as [|x l IH]; [done|]. cbn [forallb].
  intros [Hx Hl]%andb_true_iff. rewrite (Hpq x Hx). auto.
Qed.

Lemma process_lines_cons i l ls acc :
  process_lines i (l :: ls) acc =
  process_lines (S i) ls
    (if nonempty (strip l) then
       (if bare_number (strip l) then
          (if starts_numbered (strip l) && (0 <? i)%nat
           then acc ++ NL ++ strip l else acc ++ strip l) ++ " "
        else
          (if starts_numbered (strip l) && (0 <? i)%nat
           then acc ++ NL ++ strip l else acc ++ strip l))
     else acc).
Proof. reflexivity. Qed.

Lemma process_lines_stable ls :
  forallb stable_line ls = true ->
  forall i acc, (0 < i)%nat -> process_lines i ls acc = acc ++ tails ls.
Proof.
  induction ls as [|l r IH]; intros H i acc Hi.
  - cbn [tails]. by rewrite append_nil_r.
  - cbn [forallb] in H. apply andb_true_iff in H as [Hl Hr].
    destruct (stable_line_inv l Hl) as (_ & Hs & Hn & Hb & _ & Hne).
    rewrite process_lines_cons, Hs, Hne, Hb, Hn.
    apply Nat.ltb_lt in Hi. rewrite Hi. cbn [andb].
    rewrite IH by (done || lia). cbn [tails]. by rewrite !append_assoc.
Qed.

Lemma process_lines_first l ls :
  forallb stable_line (l :: ls) = true ->
  process_lines 0 (l :: ls) EmptyString = l ++ tails ls.
Proof.
  cbn [forallb]. intros [Hl Hr]%andb_true_iff.
  destruct (stable_line_inv l Hl) as (_ & Hs & Hn & Hb & _ & Hne).
  rewrite process_lines_cons, Hs, Hne, Hb, Hn. cbn [andb Nat.ltb Nat.leb].
  rewrite process_lines_stable by (done || lia). by rewrite append_nil_l.
Qed.

Lemma stripped_lines_stable l ls :
  forallb stable_line (l :: ls) = true ->
  stripped_lines (l ++ tails ls) = l :: ls.
Proof.
  intros H. unfold stripped_lines.
  rewrite lines_tails.
  2:{ eapply forallb_impl; [|exact H]. intros x Hx.
      apply clean_not_nl. by apply stable_line_inv in Hx as [? _]. }
  induction (l :: ls) as [|x r IH]; [done|].
  cbn [forallb] in H. apply andb_true_iff in H as [Hx Hr].
  destruct (stable_line_inv x Hx) as (_ & Hs & _ & _ & _ & Hne).
  cbn [List.map List.filter]. rewrite Hs, Hne. f_equal. auto.
Qed.

Lemma validate_stable l ls :
  forallb stable_line (l :: ls) = true ->
  validate_activity_format (l ++ tails ls) = true.
Proof.
  intros H. unfold validate_activity_format.
  rewrite stripped_lines_stable by done.
  apply andb_true_iff. split.
  - cbn [forallb] in H. apply andb_true_iff in H as [Hl _].
    apply stable_line_inv in Hl as (_ & _ & _ & _ & _ & Hne).
    destruct l; [discriminate|done].
  - eapply forallb_impl; [|exact H]. intros x Hx.
    by apply stable_line_inv in Hx as (_ & _ & ? & _).
Qed.

Lemma text_chars_stable l ls :
  forallb stable_line (l :: ls) = true ->
  all_chars text_char (l ++ tails ls) = true.
Proof.
  cbn [forallb]. intros [Hl Hr]%andb_true_iff.
  rewrite all_chars_app. apply andb_true_iff. split.
  - apply clean_text. by apply stable_line_inv in Hl as [? _].
  - apply all_chars_tails; [reflexivity|].
    eapply forallb_impl; [|exact Hr]. intros x Hx.
    apply clean_text. by apply stable_line_inv in Hx as [? _].
Qed.

Lemma normalize_newlines_text s :
  all_chars text_char s = true -> normalize_newlines s = s.
Proof.
  intros H. unfold normalize_newlines.
  assert (Hcr : all_chars (fun c => negb (Ascii.eqb cr c)) s = true).
  { eapply all_chars_impl; [|exact H]. unfold text_char. intros c Hc.
    apply andb_true_iff in Hc as [_ Hc]. by rewrite Ascii.eqb_sym. }
  change (CR ++ NL) with (String cr NL). unfold CR.
  rewrite (replace_absent cr NL NL s Hcr). apply replace_absent, Hcr.
Qed.

Lemma remove_ctrl_text s : all_chars text_char s = true -> remove_ctrl s = s.
Proof.
  intros H. apply filter_chars_all.
  eapply all_chars_impl; [|exact H]. unfold text_char. intros c Hc.
  apply andb_true_iff in Hc. tauto.
Qed.

Lemma markers_ok : forallb is_marker markers = true /\ no_prefix_pairs markers = true.
Proof. split; vm_compute; reflexivity. Qed.

Lemma split_markers_fold p : split_markers p = List.fold_left pass markers p.
Proof. reflexivity. Qed.

Lemma tails_b_plain ls : tails_b (List.map (pair false) ls) = tails ls.
Proof.
  induction ls as [|l r IH]; [done|]. cbn [List.map tails_b tails].
  unfold flagged. cbn [fst snd]. by rewrite append_nil_l, IH.
Qed.

Lemma format_text_stable l ls :
  forallb stable_line (l :: ls) = true ->
  format_text (l ++ tails ls) = l ++ tails ls.
Proof.
  intros H. unfold format_text, clean_activity.
  rewrite normalize_newlines_text, remove_ctrl_text by by apply text_chars_stable.
  rewrite validate_stable by done. unfold format_valid.
  rewrite lines_tails.
  2:{ eapply forallb_impl; [|exact H]. intros x Hx.
      apply clean_not_nl. by apply stable_line_inv in Hx as [? _]. }
  rewrite process_lines_first by done.
  replace (l ++ tails ls) with (body (List.map (pair false) (l :: ls))) at 1.
  2:{ cbn [List.map body]. unfold flagged. cbn [fst snd].
      by rewrite append_nil_l, tails_b_plain. }
  destruct markers_ok as [Hm Hp].
  rewrite split_markers_fold, split_fold; [|done|done|].
  - cbn [List.map]. rewrite dedupe_body.
    + cbn [snd]. rewrite !map_map. cbn [snd mark_all]. by rewrite map_id.
    + rewrite <- (map_cons (mark_all markers)), <- (map_cons (pair false)).
      rewrite map_map. apply Forall_forall. intros it Hin.
      apply list_elem_of_In, in_map_iff in Hin as (x & <- & Hin). cbn [snd mark_all].
      rewrite forallb_forall in H. apply H, stable_line_inv in Hin as (Hc & _ & _ & _ & _ & Hne).
      split; [done|by apply clean_not_nl].
  - apply Forall_forall. intros it Hin.
    apply list_elem_of_In, in_map_iff in Hin as (x & <- & Hin). cbn [fst snd].
    rewrite forallb_forall in H. apply H, stable_line_inv in Hin as (_ & _ & _ & _ & Hfree & Hne).
    repeat split; [done| |done].
    intros m Hm'. unfold marker_free in Hfree. rewrite forallb_forall in Hfree.
    apply Hfree in Hm'. by apply negb_true_iff.
Qed.

Lemma all_chars_lstrip p s : all_chars p s = true -> all_chars p (lstrip s) = true.
Proof.
  induction s as [|c s IH]; [done|]. cbn [all_chars lstrip].
  intros [Hc Hs]%andb_true_iff. destruct (is_space c); [auto|].
  cbn [all_chars]. by rewrite Hc, Hs.
Qed.

Lemma all_chars_rstrip p s : all_chars p s = true -> all_chars p (rstrip s) = true.
Proof.
  induction s as [|c s IH]; [done|]. cbn [all_chars rstrip].
  intros [Hc Hs]%andb_true_iff. specialize (IH Hs).
  destruct (rstrip s) as [|d r].
  - destruct (is_space c); [done|]. cbn [all_chars]. by rewrite Hc.
  - cbn [all_chars] in *. by rewrite Hc, IH.
Qed.

Lemma all_chars_strip p s : all_chars p s = true -> all_chars p (strip s) = true.
Proof. intros H. by apply all_chars_rstrip, all_chars_lstrip. Qed.

Lemma stripped_lines_plain a :
  forallb (all_chars not_nl) (stripped_lines a) = true.
Proof.
  unfold stripped_lines. destruct (lines_spec a) as (l & r & -> & _ & H).
  induction (l :: r) as [|x xs IH]; [done|].
  cbn [forallb] in H. apply andb_true_iff in H as [Hx Hxs].
  cbn [List.map List.filter]. destruct (nonempty (strip x)); [|auto].
  cbn [forallb]. rewrite all_chars_strip by done. auto.
Qed.

Lemma forallb_app {A} (p : A -> bool) l1 l2 :
  forallb p (l1 ++ l2)%list = forallb p l1 && forallb p l2.
Proof. apply List.forallb_app. Qed.

Lemma merge_fold_plain ls merged current :
  forallb (all_chars not_nl) ls = true ->
  forallb (all_chars not_nl) merged = true ->
  all_chars not_nl current = true ->
  let st := List.fold_left merge_step ls (merged, current) in
  forallb (all_chars not_nl) (fst st) = true /\ all_chars not_nl (snd st) = true.
Proof.
  revert merged current. induction ls as [|l r IH]; intros merged current Hls Hm Hc; [done|].
  cbn [forallb] in Hls. apply andb_true_iff in Hls as [Hl Hr].
  cbn [List.fold_left merge_step].
  destruct (starts_numbered l).
  - apply IH; [done| |done].
    destruct (nonempty current); [|done].
    rewrite forallb_app, Hm. cbn [forallb]. by rewrite Hc.
  - apply IH; [done|done|].
    destruct (nonempty current); [|done].
    rewrite !all_chars_app, Hc, Hl. reflexivity.
Qed.

Lemma merge_lines_plain ls :
  forallb (all_chars not_nl) ls = true ->
  forallb (all_chars not_nl) (merge_lines ls) = true.
Proof.
  intros H. unfold merge_lines.
  pose proof (merge_fold_plain ls [] EmptyString H eq_refl eq_refl) as [Hm Hc].
  destruct (List.fold_left merge_step ls ([], EmptyString)) as [merged current].
  cbn [fst snd] in *. destruct (nonempty current); [|done].
  rewrite forallb_app, Hm. cbn [forallb]. by rewrite Hc.
Qed.

Lemma uint_digits d : all_chars is_digit (NilEmpty.string_of_uint d) = true.
Proof. induction d; cbn [NilEmpty.string_of_uint all_chars]; try done; by rewrite IHd. Qed.

Lemma dec_digits n : all_chars is_digit (dec n) = true /\ nonempty (dec n) = true.
Proof.
  unfold dec, NilZero.string_of_uint.
  destruct (Nat.to_uint n) eqn:E; try done;
    (split; [apply (uint_digits (_ u))|done]).
Qed.

Lemma digit_not_nl c : is_digit c = true -> not_nl c = true.
Proof.
  unfold not_nl. destruct (Ascii.eqb c nl) eqn:E; [|done].
  apply Ascii.eqb_eq in E as ->. discriminate.
Qed.

Lemma drop_digits_app ds t :
  all_chars is_digit ds = true -> drop_digits (ds ++ t) = drop_digits t.
Proof.
  induction ds as [|c ds IH]; [done|]. cbn [all_chars].
  intros [Hc Hds]%andb_true_iff. rewrite append_cons. cbn [drop_digits]. rewrite Hc. auto.
Qed.

Lemma starts_numbered_dec n l : starts_numbered (dec n ++ ". " ++ l) = true.
Proof.
  destruct (dec_digits n) as [Hd Hne].
  destruct (dec n) as [|c ds]; [discriminate|].
  cbn [all_chars] in Hd. apply andb_true_iff in Hd as [Hc Hds].
  unfold starts_numbered, after_number. rewrite append_cons, Hc.
  by rewrite drop_digits_app.
Qed.

Lemma starts_numbered_digit l : starts_numbered l = true -> digit_start l = true.
Proof.
  unfold starts_numbered, after_number. destruct l as [|c l]; [done|].
  cbn [digit_start]. by destruct (is_digit c).
Qed.

Lemma number_fold ls numbered counter :
  forallb (all_chars not_nl) ls = true ->
  forallb (fun l => all_chars not_nl l && starts_numbered l) numbered = true ->
  forallb (fun l => all_chars not_nl l && starts_numbered l)
          (fst (List.fold_left number_step ls (numbered, counter))) = true.
Proof.
  revert numbered counter. induction ls as [|l r IH]; intros numbered counter Hls Hn; [done|].
  cbn [forallb] in Hls. apply andb_true_iff in Hls as [Hl Hr].
  cbn [List.fold_left number_step].
  destruct (starts_numbered l) eqn:E; apply IH; try done.
  - rewrite forallb_app, Hn. cbn [forallb]. by rewrite Hl, E.
  - rewrite forallb_app, Hn. cbn [forallb].
    rewrite starts_numbered_dec, !all_chars_app, Hl.
    destruct (dec_digits counter) as [Hd _].
    rewrite (all_chars_impl _ _ _ digit_not_nl Hd). reflexivity.
Qed.

Lemma format_invalid_shape a :
  format_invalid a = EmptyString \/
  forallb starts_numbered (lines (format_invalid a)) = true.
Proof.
  unfold format_invalid.
  pose proof (number_fold (merge_lines (stripped_lines a)) [] 1
                (merge_lines_plain _ (stripped_lines_plain a)) eq_refl) as H.
  fold (number_lines (merge_lines (stripped_lines a))) in H.
  destruct (number_lines (merge_lines (stripped_lines a))) as [|l r]; [by left|right].
  rewrite join_tails, lines_tails.
  - eapply forallb_impl; [|exact H]. intros x Hx. apply andb_true_iff in Hx. tauto.
  - eapply forallb_impl; [|exact H]. intros x Hx. apply andb_true_iff in Hx. tauto.
Qed.

Lemma digit_marker_is_marker m : digit_marker m = true -> is_marker m = true.
Proof.
  unfold digit_marker, is_marker. intros [Hd Hall]%andb_true_iff.
  rewrite Hall. by destruct m.
Qed.

Lemma steps_ok_plain u : all_chars not_nl u = true -> steps_ok false u = true.
Proof.
  induction u as [|c u IH]; [done|]. cbn [all_chars steps_ok].
  intros [Hc Hu]%andb_true_iff. unfold not_nl in Hc. apply negb_true_iff in Hc.
  rewrite Hc. auto.
Qed.

Lemma steps_ok_app f acc u :
  steps_ok f acc = true -> steps_ok false u = true -> steps_ok f (acc ++ u) = true.
Proof.
  revert f. induction acc as [|c acc IH]; intros f Hacc Hu.
  - destruct f; [discriminate|done].
  - rewrite append_cons. cbn [steps_ok] in *. destruct (Ascii.eqb c nl).
    + apply andb_true_iff in Hacc as [-> Hacc]. simpl. auto.
    + apply andb_true_iff in Hacc as [-> Hacc]. simpl. auto.
Qed.

Lemma steps_ok_runs todo f t :
  steps_ok f t = true -> runs_ok todo (if f then 1 else 0) t = true.
Proof.
  revert f. induction t as [|c t IH]; intros f H.
  - by destruct f.
  - cbn [steps_ok runs_ok] in *. destruct (Ascii.eqb c nl).
    + apply andb_true_iff in H as [Hf H]. apply negb_true_iff in Hf as ->.
      cbn. apply (IH true H).
    + apply andb_true_iff in H as [Hc H].
      rewrite (IH false H), andb_true_r. destruct f; cbn; by rewrite ?Hc.
Qed.

Lemma runs_ok_skip todo o R :
  all_chars not_nl o = true -> runs_ok todo 0 (o ++ R) = runs_ok todo 0 R.
Proof.
  induction o as [|c o IH]; [done|]. cbn [all_chars].
  intros [Hc Ho]%andb_true_iff. rewrite append_cons. cbn [runs_ok].
  unfold not_nl in Hc. apply negb_true_iff in Hc. rewrite Hc. cbn. auto.
Qed.

(** A marker that opens the text after a pass opened it before. *)
Lemma prefix_pass_inv m m' t :
  is_marker m = true -> all_chars not_nl m' = true ->
  String.prefix m' (pass t m) = true -> String.prefix m' t = true.
Proof.
  intros Hm. destruct (is_marker_inv m Hm) as (Hne & _ & _).
  revert t. induction m' as [|a m' IH]; intros t Hall H; [apply prefix_nil|].
  cbn [all_chars] in Hall. apply andb_true_iff in Hall as [Ha Hall].
  unfold not_nl in Ha. apply negb_true_iff in Ha.
  unfold pass in *. destruct t as [|c t].
  - by rewrite replace_empty in H.
  - destruct (String.prefix m (String c t)) eqn:Hp.
    + rewrite replace_hit in H by done.
      rewrite append_assoc, NL_app, prefix_cons, Ha in H. discriminate.
    + rewrite replace_miss in H by done. rewrite prefix_cons in *.
      apply andb_true_iff in H as [-> H]. simpl. auto.
Qed.

Lemma length_drop_le k s : (String.length (drop k s) <= String.length s)%nat.
Proof.
  revert s. induction k as [|k IH]; intros [|c s]; simpl; try lia.
  specialize (IH s). lia.
Qed.

Lemma runs_ok_pass m rest :
  digit_marker m = true ->
  forallb (all_chars not_nl) rest = true ->
  no_prefix_pairs (m :: rest) = true ->
  forall n t k, (String.length t <= n)%nat -> (k <= 2)%nat ->
    runs_ok (m :: rest) k t = true -> runs_ok rest k (pass t m) = true.
Proof.
  intros Hdm Hrest Hpairs.
  pose proof (digit_marker_is_marker m Hdm) as Hm.
  destruct (is_marker_inv m Hm) as (Hne & Hall & Hnl).
  induction n as [|n IH]; intros t k Hlen Hk H.
  - destruct t; [|simpl in Hlen; lia]. unfold pass. by rewrite replace_empty.
  - destruct t as [|c t]; [unfold pass; by rewrite replace_empty|].
    simpl in Hlen. unfold pass. cbn [runs_ok] in H.
    destruct (Ascii.eqb c nl) eqn:Hc.
    + apply Ascii.eqb_eq in Hc as ->. rewrite replace_nl_miss by done.
      apply andb_true_iff in H as [Hk2 H]. cbn [runs_ok]. rewrite Ascii.eqb_refl, Hk2.
      apply Nat.ltb_lt in Hk2. apply (IH t (S k)); [lia|lia|done].
    + apply andb_true_iff in H as [H Hrec]. apply andb_true_iff in H as [Hdig Hmk].
      destruct (String.prefix m (String c t)) eqn:Hp.
      * assert (Hk1 : (k <? 2)%nat = true).
        { apply Nat.ltb_lt. destruct (Nat.eqb_spec k 2) as [->|]; [|lia].
          cbn [forallb] in Hmk. rewrite Hp in Hmk. discriminate. }
        rewrite replace_hit by done. rewrite append_assoc, NL_app.
        cbn [runs_ok]. rewrite Ascii.eqb_refl, Hk1. cbn [andb].
        destruct m as [|a o]; [done|].
        unfold digit_marker in Hdm. cbn [digit_start all_chars] in Hdm.
        apply andb_true_iff in Hdm as [Ha Ho]. apply andb_true_iff in Ho as [Han Ho].
        rewrite append_cons. cbn [runs_ok].
        unfold not_nl in Han. apply negb_true_iff in Han. rewrite Han, Ha.
        rewrite runs_ok_skip by done.
        set (R := replace (String a o) (NL ++ String a o)
                     (drop (String.length (String a o)) (String c t))).
        assert (Hrec' : runs_ok rest 0 R = true).
        { unfold R. rewrite prefix_cons in Hp. apply andb_true_iff in Hp as [_ Hpo].
          change (drop (String.length (String a o)) (String c t))
            with (drop (String.length o) t).
          apply (IH _ 0%nat).
          - pose proof (length_drop_le (String.length o) t). lia.
          - lia.
          - rewrite (prefix_true _ _ Hpo), runs_ok_skip in Hrec by done. exact Hrec. }
        rewrite Hrec', andb_true_r.
        assert (Hexcl : forallb (fun m' => negb (String.prefix m' (String a o ++ R))) rest = true)
          by (apply forallb_forall; intros m' Hin; apply negb_true_iff;
              eapply no_prefix_pairs_cons; [exact Hpairs|exact Hin|apply prefix_append]).
        rewrite append_cons in Hexcl. rewrite Hexcl.
        by destruct (0 <? S k)%nat, (S k =? 2)%nat.
      * rewrite replace_miss by done. cbn [runs_ok]. rewrite Hc, Hdig. cbn [andb].
        assert (Ht : runs_ok rest 0 (replace m (NL ++ m) t) = true)
          by (apply (IH t 0%nat); done || lia).
        rewrite Ht, andb_true_r.
        destruct (k =? 2)%nat; [|done].
        cbn [forallb] in Hmk. apply andb_true_iff in Hmk as [_ Hmk].
        rewrite forallb_forall in Hmk |- *. intros m' Hin. specialize (Hmk m' Hin).
        apply negb_true_iff in Hmk. apply negb_true_iff.
        destruct (String.prefix m' (String c (replace m (NL ++ m) t))) eqn:E; [|done].
        rewrite <- replace_miss in E by done.
        apply (prefix_pass_inv m m' (String c t) Hm) in E; [congruence|].
        rewrite forallb_forall in Hrest. by apply Hrest.
Qed.

Lemma runs_ok_fold ms :
  forallb digit_marker ms = true ->
  no_prefix_pairs ms = true ->
  forall t, runs_ok ms 0 t = true -> runs_ok [] 0 (List.fold_left pass ms t) = true.
Proof.
  induction ms as [|m ms IH]; intros Hms Hpairs t H; [done|].
  cbn [forallb] in Hms. apply andb_true_iff in Hms as [Hm Hms].
  cbn [List.fold_left]. apply IH; [done|by apply andb_true_iff in Hpairs as [_ ?]|].
  apply (runs_ok_pass m ms Hm) with (n := String.length t); [|done|lia|lia|done].
  eapply forallb_impl; [|exact Hms]. unfold digit_marker. intros x Hx.
  apply andb_true_iff in Hx. tauto.
Qed.

Lemma head_ok_pass m t : is_marker m = true -> head_ok t = true -> head_ok (pass t m) = true.
Proof.
  intros Hm Ht. destruct (is_marker_inv m Hm) as (Hne & _ & _).
  destruct t as [|c t]; [done|]. unfold pass.
  destruct (String.prefix m (String c t)) eqn:Hp.
  - rewrite replace_hit by done. rewrite append_assoc, NL_app. cbn [head_ok].
    by rewrite Ascii.eqb_refl, orb_true_r.
  - by rewrite replace_miss.
Qed.

Lemma head_ok_fold ms t :
  forallb is_marker ms = true -> head_ok t = true ->
  head_ok (List.fold_left pass ms t) = true.
Proof.
  revert t. induction ms as [|m ms IH]; intros t Hms Ht; [done|].
  cbn [forallb] in Hms. apply andb_true_iff in Hms as [Hm Hms].
  cbn [List.fold_left]. auto using head_ok_pass.
Qed.

Lemma dedupe_nl_miss c s :
  not_nl c = true ->
  replace (NL ++ NL) NL (String c s) = String c (replace (NL ++ NL) NL s).
Proof.
  intros Hc. apply replace_miss; [done|].
  change (NL ++ NL) with (String nl NL). rewrite prefix_cons.
  unfold not_nl in Hc. apply negb_true_iff in Hc. by rewrite Ascii.eqb_sym, Hc.
Qed.

(** After doubled newlines are merged every newline is followed by a
    digit. *)
Lemma steps_ok_dedupe n t :
  (String.length t <= n)%nat ->
  runs_ok [] 0 t = true -> steps_ok false (replace (NL ++ NL) NL t) = true.
Proof.
  revert t. induction n as [|n IH]; intros t Hlen H.
  - destruct t; [done|simpl in Hlen; lia].
  - destruct t as [|c t]; [done|]. simpl in Hlen. cbn [runs_ok] in H.
    destruct (Ascii.eqb c nl) eqn:Hc.
    + apply Ascii.eqb_eq in Hc as ->. cbn [Nat.ltb Nat.leb andb] in H.
      destruct t as [|d t]; [discriminate|]. cbn [runs_ok] in H.
      destruct (Ascii.eqb d nl) eqn:Hd.
      * apply Ascii.eqb_eq in Hd as ->. cbn [Nat.ltb Nat.leb andb] in H.
        destruct t as [|e t]; [discriminate|]. cbn [runs_ok] in H.
        destruct (Ascii.eqb e nl) eqn:He; [discriminate|].
        cbn [Nat.ltb Nat.leb Nat.eqb forallb andb] in H.
        apply andb_true_iff in H as [He' H]. rewrite andb_true_r in He'.
        rewrite replace_hit; [|done|reflexivity].
        change (drop (String.length (NL ++ NL)) (String nl (String nl (String e t))))
          with (String e t).
        rewrite dedupe_nl_miss by (unfold not_nl; by rewrite He).
        rewrite NL_app. cbn [steps_ok]. rewrite Ascii.eqb_refl, He, He'. cbn [negb andb].
        apply IH; [simpl in Hlen; lia|done].
      * cbn [Nat.ltb Nat.leb Nat.eqb andb] in H.
        apply andb_true_iff in H as [Hd' H]. rewrite andb_true_r in Hd'.
        rewrite replace_miss; [|done|].
        2:{ apply prefix_NLNL. unfold not_nl. by rewrite Hd. }
        rewrite dedupe_nl_miss by (unfold not_nl; by rewrite Hd).
        cbn [steps_ok]. rewrite Ascii.eqb_refl, Hd, Hd'. cbn [negb andb].
        apply IH; [simpl in Hlen; lia|done].
    + cbn [Nat.ltb Nat.leb Nat.eqb andb] in H.
      rewrite dedupe_nl_miss by (unfold not_nl; by rewrite Hc).
      cbn [steps_ok]. rewrite Hc. cbn [andb]. apply IH; [lia|done].
Qed.

Lemma head_ok_dedupe t : head_ok t = true -> head_ok (replace (NL ++ NL) NL t) = true.
Proof.
  destruct t as [|c t]; [done|]. intros H.
  destruct (String.prefix (NL ++ NL) (String c t)) eqn:Hp.
  - rewrite replace_hit by done. rewrite NL_app. cbn [head_ok].
    by rewrite Ascii.eqb_refl, orb_true_r.
  - by rewrite replace_miss.
Qed.

Lemma steps_ok_lstrip s :
  head_ok s = true -> steps_ok false s = true -> steps_ok true (lstrip_nl s) = true.
Proof.
  destruct s as [|c s]; [done|]. cbn [head_ok steps_ok lstrip_nl].
  destruct (Ascii.eqb c nl) eqn:Hc.
  - intros _ H. cbn [negb andb] in H.
    destruct s as [|d s]; [done|]. cbn [steps_ok lstrip_nl] in *.
    destruct (Ascii.eqb d nl); [done|]. cbn [steps_ok]. 
    destruct (Ascii.eqb d nl) eqn:Hd; [|done].
    apply Ascii.eqb_eq in Hd as ->. done.
  - rewrite orb_false_r. intros Hd H. cbn [steps_ok]. by rewrite Hc, Hd.
Qed.

Lemma steps_ok_lines_gen s f :
  steps_ok f s = true ->
  exists l r, lines s = l :: r /\
              (f = true -> digit_start l = true) /\
              forallb digit_start r = true.
Proof.
  revert f. induction s as [|c s IH]; intros f H.
  - exists EmptyString, []. destruct f; [discriminate|done].
  - cbn [steps_ok] in H. destruct (Ascii.eqb c nl) eqn:Hc.
    + apply Ascii.eqb_eq in Hc as ->.
      apply andb_true_iff in H as [Hf H]. apply negb_true_iff in Hf as ->.
      destruct (IH true H) as (l & r & E & Hl & Hr).
      exists EmptyString, (l :: r). rewrite lines_cons_nl, E.
      split; [done|]. split; [done|]. cbn [forallb]. by rewrite Hl, Hr.
    + apply andb_true_iff in H as [Hd H].
      destruct (IH false H) as (l & r & E & _ & Hr).
      assert (Hn : not_nl c = true) by (unfold not_nl; by rewrite Hc).
      destruct (lines_cons_other c s Hn) as (l' & r' & E1 & E2).
      rewrite E in E1. injection E1 as <- <-.
      exists (String c l), r. split; [done|]. split; [|done].
      intros ->. exact Hd.
Qed.

Lemma steps_ok_lines s :
  steps_ok true s = true -> forallb digit_start (lines s) = true.
Proof.
  intros H. destruct (steps_ok_lines_gen s true H) as (l & r & -> & Hl & Hr).
  cbn [forallb]. by rewrite Hl, Hr.
Qed.

(** The loop of the already-formatted branch on a text all of whose
    non-blank lines are numbered. *)
Lemma process_lines_steps ls :
  forallb (all_chars not_nl) ls = true ->
  forallb starts_numbered (List.filter nonempty (List.map strip ls)) = true ->
  forall i acc,
    (i = 0%nat -> acc = EmptyString) ->
    steps_ok false acc = true ->
    (acc = EmptyString \/ head_ok acc = true) ->
    let p := process_lines i ls acc in
    steps_ok false p = true /\
    (p = EmptyString /\ List.filter nonempty (List.map strip ls) = [] /\ acc = EmptyString
     \/ head_ok p = true).
Proof.
  induction ls as [|l r IH]; intros Hplain Hnum i acc Hi Hacc Hhead.
  - cbn [process_lines]. split; [done|]. destruct Hhead as [->|?]; auto.
  - cbn [forallb] in Hplain. apply andb_true_iff in Hplain as [Hl Hr].
    cbn zeta. rewrite process_lines_cons.
    cbn [List.map List.filter] in Hnum |- *.
    destruct (nonempty (strip l)) eqn:Hne.
    + cbn [forallb] in Hnum. apply andb_true_iff in Hnum as [Hn Hnum].
      rewrite Hn. cbn [andb].
      pose proof (all_chars_strip _ _ Hl) as Hsl.
      pose proof (starts_numbered_digit _ Hn) as Hdig.
      set (chunk := if bare_number (strip l) then strip l ++ " " else strip l).
      assert (Hchunk : steps_ok true chunk = true /\ digit_start chunk = true).
      { unfold chunk. destruct (strip l) as [|c sl]; [done|].
        cbn [digit_start] in Hdig. cbn [all_chars] in Hsl.
        apply andb_true_iff in Hsl as [Hc Hsl]. unfold not_nl in Hc.
        apply negb_true_iff in Hc.
        destruct (bare_number (String c sl)); rewrite ?append_cons;
          cbn [steps_ok digit_start]; rewrite Hc, Hdig; cbn [andb];
          (split; [|done]); apply steps_ok_plain; rewrite ?all_chars_app, ?Hsl; done. }
      destruct Hchunk as [Hck Hcd].
      assert (Hnew : exists acc',
                 (if bare_number (strip l)
                  then (if (0 <? i)%nat then acc ++ NL ++ strip l else acc ++ strip l) ++ " "
                  else (if (0 <? i)%nat then acc ++ NL ++ strip l else acc ++ strip l))
                 = acc' /\ steps_ok false acc' = true /\ head_ok acc' = true).
      { eexists. split; [reflexivity|].
        destruct (Nat.ltb_spec 0 i) as [Hpos|Hz].
        - assert (E : (if bare_number (strip l)
                       then (acc ++ NL ++ strip l) ++ " " else acc ++ NL ++ strip l)
                      = acc ++ NL ++ chunk).
          { unfold chunk. destruct (bare_number (strip l)); by rewrite ?append_assoc. }
          rewrite E. split.
          + apply steps_ok_app; [done|]. rewrite NL_app. cbn [steps_ok].
            by rewrite Ascii.eqb_refl.
          + destruct Hhead as [->|Hh].
            * by rewrite append_nil_l, NL_app.
            * destruct acc as [|c acc]; [done|]. by rewrite append_cons.
        - assert (i = 0%nat) as Hi0 by lia. rewrite (Hi Hi0), !append_nil_l.
          fold chunk. split.
          + destruct chunk as [|c ch]; [done|]. cbn [steps_ok digit_start] in *.
            destruct (Ascii.eqb c nl); [done|]. rewrite Hcd in Hck. exact Hck.
          + destruct chunk as [|c ch]; [done|]. cbn [head_ok digit_start] in *.
            by rewrite Hcd. }
      destruct Hnew as (acc' & -> & Hs' & Hh').
      destruct (IH Hr Hnum (S i) acc' ltac:(lia) Hs' (or_intror Hh')) as [Hp Hq].
      split; [exact Hp|]. right. destruct Hq as [(_ & _ & ->)|Hq]; [done|exact Hq].
    + exact (IH Hr Hnum (S i) acc ltac:(lia) Hacc Hhead).
Qed.

(** What the already-formatted branch returns has only lines that open
    with a digit. *)
Lemma format_valid_steps a :
  validate_activity_format a = true ->
  steps_ok true (format_valid a) = true.
Proof.
  unfold validate_activity_format, stripped_lines.
  intros [_ Hv]%andb_true_iff.
  destruct (lines_spec a) as (l & r & E & _ & Hplain). rewrite E in Hv.
  destruct (List.filter nonempty (List.map strip (l :: r))) as [|x xs] eqn:Ef; [discriminate|].
  unfold format_valid. rewrite E.
  destruct (process_lines_steps (l :: r) Hplain ltac:(by rewrite Ef) 0%nat EmptyString
              (fun _ => eq_refl) eq_refl (or_introl eq_refl)) as [Hs Hh].
  destruct Hh as [(_ & Hnil & _)|Hh]; [congruence|].
  destruct markers_ok as [Hm Hp].
  assert (Hdm : forallb digit_marker markers = true) by (vm_compute; reflexivity).
  apply steps_ok_lstrip.
  - apply head_ok_dedupe. rewrite split_markers_fold. by apply head_ok_fold.
  - eapply steps_ok_dedupe; [reflexivity|].
    rewrite split_markers_fold. apply runs_ok_fold; [done|done|].
    apply (steps_ok_runs markers false _ Hs).
Qed.

(** ** Numbered lines through the marker loop *)

Lemma starts_numbered_cons c t :
  starts_numbered (String c t) = is_digit c && rest_numbered t.
Proof.
  unfold starts_numbered, after_number, rest_numbered.
  destruct (is_digit c); [|done]. cbn [andb].
  destruct (drop_digits t) as [|d r]; [done|]. by destruct (Ascii.eqb d ".").
Qed.

Lemma rest_numbered_cons c t :
  rest_numbered (String c t)
  = if is_digit c then rest_numbered t else Ascii.eqb c "."%char.
Proof. unfold rest_numbered. cbn [drop_digits]. by destruct (is_digit c). Qed.

Lemma rest_numbered_app t R : rest_numbered t = true -> rest_numbered (t ++ R) = true.
Proof.
  induction t as [|c t IH]; [done|]. rewrite append_cons, !rest_numbered_cons.
  destruct (is_digit c); auto.
Qed.

Lemma starts_numbered_app t R : starts_numbered t = true -> starts_numbered (t ++ R) = true.
Proof.
  destruct t as [|c t]; [done|]. rewrite append_cons, !starts_numbered_cons.
  intros [-> H]%andb_true_iff. by rewrite rest_numbered_app.
Qed.

Lemma nsteps_steps f s : nsteps f s = true -> steps_ok f s = true.
Proof.
  revert f. induction s as [|c s IH]; intros f; [done|]. cbn [nsteps steps_ok].
  destruct (Ascii.eqb c nl).
  - intros [-> H]%andb_true_iff. simpl. auto.
  - intros [Hn H]%andb_true_iff. rewrite (IH _ H), andb_true_r.
    destruct f; [|done]. by apply starts_numbered_digit in Hn.
Qed.

Lemma nsteps_plain u : all_chars not_nl u = true -> nsteps false u = true.
Proof.
  induction u as [|c u IH]; [done|]. cbn [all_chars nsteps].
  intros [Hc Hu]%andb_true_iff. unfold not_nl in Hc. apply negb_true_iff in Hc.
  rewrite Hc. auto.
Qed.

Lemma nsteps_app f acc u :
  nsteps f acc = true -> nsteps false u = true -> nsteps f (acc ++ u) = true.
Proof.
  revert f. induction acc as [|c acc IH]; intros f Hacc Hu.
  - destruct f; [discriminate|done].
  - rewrite append_cons. cbn [nsteps] in *. destruct (Ascii.eqb c nl).
    + apply andb_true_iff in Hacc as [-> Hacc]. simpl. auto.
    + apply andb_true_iff in Hacc as [Hn Hacc]. rewrite (IH _ Hacc Hu), andb_true_r.
      destruct f; [|done]. rewrite <- append_cons. by apply starts_numbered_app.
Qed.

Lemma nsteps_nruns ms f pd t :
  nsteps f t = true -> slip_scan ms pd t = true ->
  nruns ms (if f then 1 else 0) pd t = true.
Proof.
  revert f pd. induction t as [|c t IH]; intros f pd H Hs.
  - by destruct f.
  - cbn [nsteps slip_scan nruns] in *. apply andb_true_iff in Hs as [Hslip Hs].
    rewrite Hslip. cbn [andb]. destruct (Ascii.eqb c nl) eqn:Hc.
    + apply andb_true_iff in H as [Hf H]. apply negb_true_iff in Hf as ->.
      cbn. apply (IH true false H).
      apply Ascii.eqb_eq in Hc as ->. exact Hs.
    + apply andb_true_iff in H as [Hn H].
      rewrite (IH false (is_digit c) H Hs), andb_true_r. destruct f; cbn; by rewrite ?Hn.
Qed.



Lemma prefix_compatible m o R :
  String.prefix m (o ++ R) = true -> compatible m o = true.
Proof.
  intros H. unfold compatible. apply orb_true_iff.
  apply (prefix_both m o (o ++ R) H). apply prefix_append.
Qed.

(** Through the characters of a marker, reading the invariant off. *)
Lemma nruns_skip_out todo pd o R :
  all_chars not_nl o = true ->
  nruns todo 0 pd (o ++ R) = true -> nruns todo 0 (last_flag pd o) R = true.
Proof.
  revert pd. induction o as [|c o IH]; intros pd Ho H; [done|].
  cbn [all_chars] in Ho. apply andb_true_iff in Ho as [Hc Ho].
  unfold not_nl in Hc. apply negb_true_iff in Hc.
  rewrite append_cons in H. cbn [nruns] in H. rewrite Hc in H.
  apply andb_true_iff in H as [_ H]. cbn [Nat.ltb Nat.leb Nat.eqb andb] in H.
  cbn [last_flag]. by apply IH.
Qed.

(** Through the characters of a marker, building the invariant up. *)
Lemma nruns_skip_in todo pd o R :
  all_chars not_nl o = true ->
  inner_scan todo pd o = true ->
  nruns todo 0 (last_flag pd o) R = true -> nruns todo 0 pd (o ++ R) = true.
Proof.
  revert pd. induction o as [|c o IH]; intros pd Ho Hin H; [done|].
  cbn [all_chars] in Ho. apply andb_true_iff in Ho as [Hc Ho].
  unfold not_nl in Hc. apply negb_true_iff in Hc.
  cbn [inner_scan] in Hin. apply andb_true_iff in Hin as [Hhere Hin].
  rewrite append_cons. cbn [nruns]. rewrite Hc. cbn [Nat.ltb Nat.leb Nat.eqb andb].
  rewrite (IH (is_digit c) Ho Hin H), andb_true_r.
  destruct pd; [|done]. cbn [andb] in *. apply negb_true_iff in Hhere.
  apply negb_true_iff. apply not_true_is_false. intros Hex.
  apply existsb_exists in Hex as (m & Hm & Hp).
  rewrite <- append_cons in Hp. apply prefix_compatible in Hp.
  assert (existsb (fun m => compatible m (String c o)) todo = true)
    by (apply existsb_exists; eauto).
  congruence.
Qed.

Lemma slip_part_pass m rest pd t :
  is_marker m = true -> forallb (all_chars not_nl) rest = true ->
  negb (pd && existsb (fun m' => String.prefix m' t) (m :: rest)) = true ->
  negb (pd && existsb (fun m' => String.prefix m' (pass t m)) rest) = true.
Proof.
  intros Hm Hrest H. destruct pd; [|done]. cbn [andb] in *.
  apply negb_true_iff in H. apply negb_true_iff. apply not_true_is_false. intros Hex.
  apply existsb_exists in Hex as (m' & Hin & Hp).
  rewrite forallb_forall in Hrest.
  apply (prefix_pass_inv m m' t Hm (Hrest m' Hin)) in Hp.
  assert (existsb (fun m' => String.prefix m' t) (m :: rest) = true)
    by (apply existsb_exists; exists m'; split; [by right|done]).
  congruence.
Qed.

Section Pass.

Variables (m : string) (rest : list string).
Hypothesis Hok : marker_ok rest m = true.
Hypothesis Hrest : forallb (all_chars not_nl) rest = true.
Hypothesis Hpairs : no_prefix_pairs (m :: rest) = true.

Lemma marker_ok_inv :
  digit_marker m = true /\ starts_numbered m = true /\ is_marker m = true /\
  exists a o, m = String a o /\ is_digit a = true /\ all_chars not_nl o = true /\
              inner_scan rest (is_digit a) o = true.
Proof.
  unfold marker_ok in Hok. apply andb_true_iff in Hok as [H Hin].
  apply andb_true_iff in H as [Hd Hn].
  repeat split; try done; [by apply digit_marker_is_marker|].
  destruct m as [|a o]; [done|]. exists a, o.
  unfold digit_marker in Hd. cbn [digit_start all_chars] in Hd.
  apply andb_true_iff in Hd as [Ha Ho]. apply andb_true_iff in Ho as [_ Ho]. done.
Qed.

(** The number at the start of a line survives a pass when no marker
    starts right after one of its digits. *)
Lemma rest_numbered_pass t :
  rest_numbered t = true -> nruns (m :: rest) 0 true t = true ->
  rest_numbered (pass t m) = true.
Proof.
  destruct marker_ok_inv as (_ & _ & Hm & a & o & -> & Ha & _).
  destruct (is_marker_inv _ Hm) as (Hne & _ & _).
  induction t as [|d t IH]; intros Hr H; [done|].
  rewrite rest_numbered_cons in Hr. cbn [nruns] in H.
  apply andb_true_iff in H as [Hslip H]. cbn [andb existsb] in Hslip.
  apply negb_true_iff, orb_false_iff in Hslip as [Hp _].
  unfold pass. rewrite replace_miss by done. rewrite rest_numbered_cons.
  destruct (is_digit d) eqn:Hd; [|done].
  apply IH; [done|].
  destruct (Ascii.eqb d nl) eqn:Hdn.
  - apply Ascii.eqb_eq in Hdn as ->. discriminate.
  - cbn [Nat.ltb Nat.leb Nat.eqb andb] in H. exact H.
Qed.

Lemma nruns_pass :
  forall n t k pd, (String.length t <= n)%nat -> (k <= 2)%nat ->
    nruns (m :: rest) k pd t = true -> nruns rest k pd (pass t m) = true.
Proof.
  destruct marker_ok_inv as (Hdm & Hnum & Hm & a & o & Em & Ha & Ho & Hin).
  destruct (is_marker_inv m Hm) as (Hne & Hall & Hnl).
  induction n as [|n IH]; intros t k pd Hlen Hk H.
  - destruct t; [|simpl in Hlen; lia]. unfold pass. by rewrite replace_empty.
  - destruct t as [|c t]; [unfold pass; by rewrite replace_empty|].
    simpl in Hlen.
    pose proof H as H0. cbn [nruns] in H.
    apply andb_true_iff in H as [Hslip H].
    pose proof (slip_part_pass m rest pd (String c t) Hm Hrest Hslip) as Hslip'.
    destruct (Ascii.eqb c nl) eqn:Hc.
    + apply Ascii.eqb_eq in Hc as ->. unfold pass in *.
      rewrite replace_nl_miss in * by done.
      apply andb_true_iff in H as [Hk2 H]. cbn [nruns].
      rewrite Hslip', Ascii.eqb_refl, Hk2. cbn [andb].
      apply Nat.ltb_lt in Hk2. apply (IH t (S k)); [lia|lia|done].
    + apply andb_true_iff in H as [H Hrec]. apply andb_true_iff in H as [Hstart Hmk].
      destruct (String.prefix m (String c t)) eqn:Hp.
      * assert (Hpd : pd = false).
        { destruct pd; [|done]. cbn [andb existsb] in Hslip. rewrite Hp in Hslip. done. }
        assert (Hk1 : (k <? 2)%nat = true).
        { apply Nat.ltb_lt. destruct (Nat.eqb_spec k 2) as [->|]; [|lia].
          cbn [forallb] in Hmk. rewrite Hp in Hmk. discriminate. }
        unfold pass. rewrite replace_hit by done. rewrite append_assoc, NL_app.
        set (R := replace m (NL ++ m) (drop (String.length m) (String c t))).
        assert (Hrec' : nruns rest 0 (last_flag (is_digit a) o) R = true).
        { apply (IH _ 0%nat).
          - rewrite Em. cbn [String.length drop].
            pose proof (length_drop_le (String.length o) t) as Hd. lia.
          - lia.
          - pose proof (prefix_true _ _ Hp) as Et.
            rewrite Et in H0. rewrite Em in H0 at 2. rewrite append_cons in H0.
            cbn [nruns] in H0. apply andb_true_iff in H0 as [_ H0].
            assert (Ascii.eqb a nl = false) as Han
              by (apply negb_true_iff, digit_not_nl, Ha).
            rewrite Han in H0. apply andb_true_iff in H0 as [_ H0].
            by apply nruns_skip_out. }
        cbn [nruns]. rewrite Hpd, Ascii.eqb_refl, Hk1. cbn [andb].
        rewrite Em, append_cons. cbn [nruns].
        assert (Ascii.eqb a nl = false) as Han
          by (apply negb_true_iff, digit_not_nl, Ha).
        rewrite Han. cbn [andb negb].
        rewrite (nruns_skip_in rest (is_digit a) o R Ho Hin Hrec'), andb_true_r.
        rewrite <- append_cons, <- Em.
        rewrite (starts_numbered_app m R Hnum).
        assert (Hexcl : forallb (fun m' => negb (String.prefix m' (m ++ R))) rest = true)
          by (apply forallb_forall; intros m' Hi; apply negb_true_iff;
              eapply no_prefix_pairs_cons; [exact Hpairs|exact Hi|apply prefix_append]).
        rewrite Hexcl. by destruct (0 <? S k)%nat, (S k =? 2)%nat.
      * unfold pass in *. rewrite replace_miss in * by done. cbn [nruns].
        rewrite Hslip', Hc. cbn [andb].
        assert (Ht : nruns rest 0 (is_digit c) (replace m (NL ++ m) t) = true)
          by (apply (IH t 0%nat); done || lia).
        rewrite Ht, andb_true_r. apply andb_true_iff. split.
        -- destruct (0 <? k)%nat; [|done].
           rewrite starts_numbered_cons in Hstart |- *.
           apply andb_true_iff in Hstart as [Hd Hr]. rewrite Hd in *. cbn [andb].
           by apply rest_numbered_pass.
        -- destruct (k =? 2)%nat; [|done].
           cbn [forallb] in Hmk. apply andb_true_iff in Hmk as [_ Hmk].
           rewrite forallb_forall in Hmk |- *. intros m' Hi. specialize (Hmk m' Hi).
           apply negb_true_iff in Hmk. apply negb_true_iff.
           destruct (String.prefix m' (String c (replace m (NL ++ m) t))) eqn:E; [|done].
           rewrite <- replace_miss in E by done.
           apply (prefix_pass_inv m m' (String c t) Hm) in E; [congruence|].
           rewrite forallb_forall in Hrest. by apply Hrest.
Qed.

End Pass.



Lemma chain_ok_plain ms : chain_ok ms = true -> forallb (all_chars not_nl) ms = true.
Proof.
  induction ms as [|m ms IH]; [done|]. cbn [chain_ok forallb].
  intros [Hm Hms]%andb_true_iff. rewrite (IH Hms), andb_true_r.
  unfold marker_ok in Hm. apply andb_true_iff in Hm as [Hm _].
  apply andb_true_iff in Hm as [Hm _]. unfold digit_marker in Hm.
  apply andb_true_iff in Hm. tauto.
Qed.

Lemma nruns_fold ms :
  chain_ok ms = true -> no_prefix_pairs ms = true ->
  forall t k pd, (k <= 2)%nat ->
    nruns ms k pd t = true -> nruns [] k pd (List.fold_left pass ms t) = true.
Proof.
  induction ms as [|m ms IH]; intros Hms Hpairs t k pd Hk H; [done|].
  cbn [chain_ok] in Hms. apply andb_true_iff in Hms as [Hm Hms].
  cbn [List.fold_left]. apply IH; [done|by apply andb_true_iff in Hpairs as [_ ?]|done|].
  apply (nruns_pass m ms Hm (chain_ok_plain ms Hms) Hpairs (String.length t)); done || lia.
Qed.

Lemma fold_pass_nl ms t :
  forallb is_marker ms = true ->
  List.fold_left pass ms (String nl t) = String nl (List.fold_left pass ms t).
Proof.
  revert t. induction ms as [|m ms IH]; intros t Hms; [done|].
  cbn [forallb] in Hms. apply andb_true_iff in Hms as [Hm Hms].
  cbn [List.fold_left]. unfold pass at 2. rewrite replace_nl_miss by done. by apply IH.
Qed.

Lemma rest_numbered_dedupe t :
  rest_numbered t = true -> rest_numbered (replace (NL ++ NL) NL t) = true.
Proof.
  induction t as [|c t IH]; [done|]. rewrite rest_numbered_cons.
  destruct (is_digit c) eqn:Hd.
  - intros H. rewrite dedupe_nl_miss by by apply digit_not_nl.
    rewrite rest_numbered_cons, Hd. auto.
  - intros Hc. apply Ascii.eqb_eq in Hc as ->.
    rewrite dedupe_nl_miss by done. by rewrite rest_numbered_cons.
Qed.

Lemma starts_numbered_dedupe t :
  starts_numbered t = true -> starts_numbered (replace (NL ++ NL) NL t) = true.
Proof.
  destruct t as [|c t]; [done|]. rewrite starts_numbered_cons.
  intros [Hd Hr]%andb_true_iff.
  rewrite dedupe_nl_miss by by apply digit_not_nl.
  by rewrite starts_numbered_cons, Hd, rest_numbered_dedupe.
Qed.

Lemma starts_numbered_not_nl c t : starts_numbered (String c t) = true -> Ascii.eqb c nl = false.
Proof.
  rewrite starts_numbered_cons. intros [Hd _]%andb_true_iff.
  apply negb_true_iff. by apply digit_not_nl.
Qed.

(** After doubled newlines are merged every newline is followed by a
    number and a dot. *)
Lemma nsteps_dedupe n t pd :
  (String.length t <= n)%nat ->
  nruns [] 0 pd t = true -> nsteps false (replace (NL ++ NL) NL t) = true.
Proof.
  revert t pd. induction n as [|n IH]; intros t pd Hlen H.
  - destruct t; [done|simpl in Hlen; lia].
  - destruct t as [|c t]; [done|]. simpl in Hlen. cbn [nruns] in H.
    rewrite andb_false_r in H. cbn [negb andb] in H.
    destruct (Ascii.eqb c nl) eqn:Hc.
    + apply Ascii.eqb_eq in Hc as ->. cbn [Nat.ltb Nat.leb andb] in H.
      destruct t as [|d t]; [discriminate|]. cbn [nruns] in H.
      cbn [andb negb] in H.
      destruct (Ascii.eqb d nl) eqn:Hd.
      * apply Ascii.eqb_eq in Hd as ->. cbn [Nat.ltb Nat.leb andb] in H.
        destruct t as [|e t]; [discriminate|]. cbn [nruns] in H.
        cbn [andb negb] in H.
        destruct (Ascii.eqb e nl) eqn:He; [discriminate|].
        cbn [Nat.ltb Nat.leb Nat.eqb forallb andb] in H.
        apply andb_true_iff in H as [He' H]. rewrite andb_true_r in He'.
        rewrite replace_hit; [|done|reflexivity].
        change (drop (String.length (NL ++ NL)) (String nl (String nl (String e t))))
          with (String e t).
        pose proof (starts_numbered_dedupe _ He') as Hs.
        rewrite dedupe_nl_miss in * by (unfold not_nl; by rewrite He).
        rewrite NL_app. cbn [nsteps]. rewrite Ascii.eqb_refl, He, Hs. cbn [negb andb].
        apply (IH t (is_digit e)); [simpl in Hlen; lia|done].
      * cbn [Nat.ltb Nat.leb Nat.eqb andb] in H.
        apply andb_true_iff in H as [Hd' H]. rewrite andb_true_r in Hd'.
        rewrite replace_miss; [|done|].
        2:{ apply prefix_NLNL. unfold not_nl. by rewrite Hd. }
        pose proof (starts_numbered_dedupe _ Hd') as Hs.
        rewrite dedupe_nl_miss in * by (unfold not_nl; by rewrite Hd).
        cbn [nsteps]. rewrite Ascii.eqb_refl, Hd, Hs. cbn [negb andb].
        apply (IH t (is_digit d)); [simpl in Hlen; lia|done].
    + cbn [Nat.ltb Nat.leb Nat.eqb andb] in H.
      rewrite dedupe_nl_miss by (unfold not_nl; by rewrite Hc).
      cbn [nsteps]. rewrite Hc. cbn [andb]. apply (IH t (is_digit c)); [lia|done].
Qed.

(** The same from a text that opens a line. *)
Lemma nsteps_dedupe_start t :
  nruns [] 1 false t = true ->
  nsteps true (lstrip_nl (replace (NL ++ NL) NL t)) = true.
Proof.
  destruct t as [|c t]; [done|]. cbn [nruns]. cbn [andb negb].
  destruct (Ascii.eqb c nl) eqn:Hc.
  - apply Ascii.eqb_eq in Hc as ->. cbn [Nat.ltb Nat.leb andb].
    destruct t as [|e t]; [done|]. cbn [nruns]. cbn [andb negb].
    destruct (Ascii.eqb e nl) eqn:He; [done|].
    cbn [Nat.ltb Nat.leb Nat.eqb forallb andb].
    intros [He' H]%andb_true_iff. rewrite andb_true_r in He'.
    rewrite replace_miss; [|done|].
    2:{ apply prefix_NLNL. unfold not_nl. by rewrite He. }
    pose proof (starts_numbered_dedupe _ He') as Hs.
    rewrite dedupe_nl_miss in * by (unfold not_nl; by rewrite He).
    rewrite lstrip_nl_nl. cbn [lstrip_nl]. rewrite He. cbn [nsteps]. rewrite He, Hs.
    cbn [andb]. eapply nsteps_dedupe; [reflexivity|exact H].
  - cbn [Nat.ltb Nat.leb Nat.eqb andb].
    intros [Hc' H]%andb_true_iff. rewrite andb_true_r in Hc'.
    pose proof (starts_numbered_dedupe _ Hc') as Hs.
    rewrite dedupe_nl_miss in * by (unfold not_nl; by rewrite Hc).
    cbn [lstrip_nl]. rewrite Hc. cbn [nsteps]. rewrite Hc, Hs.
    cbn [andb]. eapply nsteps_dedupe; [reflexivity|exact H].
Qed.

(** The same from a text behind one newline. *)
Lemma nsteps_dedupe_behind t :
  nruns [] 1 false t = true ->
  nsteps true (lstrip_nl (replace (NL ++ NL) NL (String nl t))) = true.
Proof.
  intros H. destruct t as [|c t]; [done|].
  destruct (Ascii.eqb c nl) eqn:Hc.
  - apply Ascii.eqb_eq in Hc as ->. cbn [nruns] in H. cbn [andb negb] in H.
    cbn [Nat.ltb Nat.leb andb] in H.
    destruct t as [|e t]; [done|]. cbn [nruns] in H. cbn [andb negb] in H.
    destruct (Ascii.eqb e nl) eqn:He; [done|].
    cbn [Nat.ltb Nat.leb Nat.eqb forallb andb] in H.
    apply andb_true_iff in H as [He' H]. rewrite andb_true_r in He'.
    rewrite replace_hit; [|done|reflexivity].
    change (drop (String.length (NL ++ NL)) (String nl (String nl (String e t))))
      with (String e t).
    pose proof (starts_numbered_dedupe _ He') as Hs.
    rewrite dedupe_nl_miss in * by (unfold not_nl; by rewrite He).
    rewrite NL_app, lstrip_nl_nl. cbn [lstrip_nl]. rewrite He. cbn [nsteps].
    rewrite He, Hs. cbn [andb]. eapply nsteps_dedupe; [reflexivity|exact H].
  - rewrite replace_miss; [|done|].
    2:{ apply prefix_NLNL. unfold not_nl. by rewrite Hc. }
    rewrite lstrip_nl_nl. by apply nsteps_dedupe_start.
Qed.

Lemma rest_numbered_line l T :
  (T = EmptyString \/ exists t, T = String nl t) ->
  rest_numbered (l ++ T) = true -> rest_numbered l = true.
Proof.
  intros HT. induction l as [|c l IH].
  - rewrite append_nil_l. destruct HT as [->|[t ->]]; [done|].
    rewrite rest_numbered_cons. done.
  - rewrite append_cons, !rest_numbered_cons. destruct (is_digit c); auto.
Qed.

Lemma starts_numbered_line l T :
  (T = EmptyString \/ exists t, T = String nl t) ->
  starts_numbered (l ++ T) = true -> starts_numbered l = true.
Proof.
  intros HT. destruct l as [|c l].
  - rewrite append_nil_l. destruct HT as [->|[t ->]]; done.
  - rewrite append_cons, !starts_numbered_cons.
    intros [-> H]%andb_true_iff. by rewrite (rest_numbered_line l T HT H).
Qed.

Lemma nsteps_lines_gen s f :
  nsteps f s = true ->
  exists l r, lines s = l :: r /\
              (f = true -> starts_numbered l = true) /\
              forallb starts_numbered r = true.
Proof.
  revert f. induction s as [|c s IH]; intros f H.
  - exists EmptyString, []. destruct f; [discriminate|done].
  - cbn [nsteps] in H. destruct (Ascii.eqb c nl) eqn:Hc.
    + apply Ascii.eqb_eq in Hc as ->.
      apply andb_true_iff in H as [Hf H]. apply negb_true_iff in Hf as ->.
      destruct (IH true H) as (l & r & E & Hl & Hr).
      exists EmptyString, (l :: r). rewrite lines_cons_nl, E.
      split; [done|]. split; [done|]. cbn [forallb]. by rewrite Hl, Hr.
    + apply andb_true_iff in H as [Hn H].
      destruct (IH false H) as (l & r & E & _ & Hr).
      assert (Hnn : not_nl c = true) by (unfold not_nl; by rewrite Hc).
      destruct (lines_cons_other c s Hnn) as (l' & r' & E1 & E2).
      rewrite E in E1. injection E1 as <- <-.
      exists (String c l), r. split; [done|]. split; [|done].
      intros ->.
      (* the first line is the text up to the first newline *)
      destruct (lines_spec s) as (l0 & r0 & E0 & Es & _).
      rewrite E in E0. injection E0 as <- <-.
      rewrite Es, <- append_cons in Hn.
      exact (starts_numbered_line _ _ (tails_shape r) Hn).
Qed.

Lemma nsteps_lines s :
  nsteps true s = true -> forallb starts_numbered (lines s) = true.
Proof.
  intros H. destruct (nsteps_lines_gen s true H) as (l & r & -> & Hl & Hr).
  cbn [forallb]. by rewrite Hl, Hr.
Qed.

(** The loop of the already-formatted branch on a text all of whose
    non-blank lines are numbered: what it builds is empty, or opens a
    numbered line, or does so behind a newline. *)
Lemma process_lines_nsteps ls :
  forallb (all_chars not_nl) ls = true ->
  forallb starts_numbered (List.filter nonempty (List.map strip ls)) = true ->
  forall i acc,
    (i = 0%nat -> acc = EmptyString) ->
    (acc = EmptyString \/ nsteps true acc = true \/
     exists p, acc = String nl p /\ nsteps true p = true) ->
    let p := process_lines i ls acc in
    (p = EmptyString /\ List.filter nonempty (List.map strip ls) = [] /\ acc = EmptyString) \/
    nsteps true p = true \/
    exists p', p = String nl p' /\ nsteps true p' = true.
Proof.
  induction ls as [|l r IH]; intros Hplain Hnum i acc Hi Hacc.
  - cbn [process_lines]. destruct Hacc as [->|[?|?]]; auto.
  - cbn [forallb] in Hplain. apply andb_true_iff in Hplain as [Hl Hr].
    cbn zeta. rewrite process_lines_cons.
    cbn [List.map List.filter] in Hnum |- *.
    destruct (nonempty (strip l)) eqn:Hne.
    + cbn [forallb] in Hnum. apply andb_true_iff in Hnum as [Hn Hnum].
      rewrite Hn. cbn [andb].
      pose proof (all_chars_strip _ _ Hl) as Hsl.
      set (chunk := if bare_number (strip l) then strip l ++ " " else strip l).
      assert (Hchunk : nsteps true chunk = true).
      { assert (Hcn : starts_numbered chunk = true).
        { unfold chunk. destruct (bare_number (strip l)); [|done].
          by apply starts_numbered_app. }
        assert (Hcp : all_chars not_nl chunk = true).
        { unfold chunk. destruct (bare_number (strip l)); [|done].
          by rewrite all_chars_app, Hsl. }
        destruct chunk as [|c ch]; [done|]. cbn [nsteps].
        rewrite (starts_numbered_not_nl _ _ Hcn), Hcn. cbn [andb].
        cbn [all_chars] in Hcp. apply andb_true_iff in Hcp as [_ Hcp].
        by apply nsteps_plain. }
      assert (Hnew : exists acc',
                 (if bare_number (strip l)
                  then (if (0 <? i)%nat then acc ++ NL ++ strip l else acc ++ strip l) ++ " "
                  else (if (0 <? i)%nat then acc ++ NL ++ strip l else acc ++ strip l))
                 = acc' /\
                 (nsteps true acc' = true \/
                  exists p, acc' = String nl p /\ nsteps true p = true)).
      { eexists. split; [reflexivity|].
        assert (Hnl : nsteps false (NL ++ chunk) = true).
        { rewrite NL_app. cbn [nsteps]. by rewrite Ascii.eqb_refl. }
        destruct (Nat.ltb_spec 0 i) as [Hpos|Hz].
        - assert (E : (if bare_number (strip l)
                       then (acc ++ NL ++ strip l) ++ " " else acc ++ NL ++ strip l)
                      = acc ++ NL ++ chunk).
          { unfold chunk. destruct (bare_number (strip l)); by rewrite ?append_assoc. }
          rewrite E. destruct Hacc as [->|[Ha|(p & -> & Hp)]].
          + right. exists chunk. by rewrite append_nil_l, NL_app.
          + left. by apply nsteps_app.
          + right. exists (p ++ NL ++ chunk). split; [by rewrite append_cons|].
            by apply nsteps_app.
        - assert (i = 0%nat) as Hi0 by lia. rewrite (Hi Hi0), !append_nil_l.
          fold chunk. by left. }
      destruct Hnew as (acc' & -> & Hacc').
      destruct (IH Hr Hnum (S i) acc' ltac:(lia) (or_intror Hacc')) as [(_ & _ & ->)|Hq].
      * destruct Hacc' as [?|(? & ? & _)]; done.
      * by right.
    + exact (IH Hr Hnum (S i) acc ltac:(lia) Hacc).
Qed.

Lemma slip_scan_nl ms pd t : slip_scan ms pd (String nl t) = true -> slip_scan ms false t = true.
Proof. cbn [slip_scan]. intros [_ H]%andb_true_iff. exact H. Qed.

Lemma markers_chain : chain_ok markers = true.
Proof. vm_compute. reflexivity. Qed.

(** On a text already in numbered lines in which no marker starts right
    after a digit, every line that comes out opens with a number and a
    dot. *)
Lemma format_valid_numbered a :
  validate_activity_format a = true ->
  slip_free (process_lines 0 (lines a) EmptyString) = true ->
  nsteps true (format_valid a) = true.
Proof.
  unfold validate_activity_format, stripped_lines.
  intros [_ Hv]%andb_true_iff Hslip.
  destruct (lines_spec a) as (l & r & E & _ & Hplain). rewrite E in Hv, Hslip.
  destruct (List.filter nonempty (List.map strip (l :: r))) as [|x xs] eqn:Ef; [discriminate|].
  unfold format_valid. rewrite E.
  destruct markers_ok as [Hm Hp].
  destruct (process_lines_nsteps (l :: r) Hplain ltac:(by rewrite Ef) 0%nat EmptyString
              (fun _ => eq_refl) (or_introl eq_refl))
    as [(_ & Hnil & _)|[Hs|(p & Ep & Hs)]]; [congruence| |].
  - apply nsteps_dedupe_start. rewrite split_markers_fold.
    apply nruns_fold; [apply markers_chain|done|lia|].
    by apply (nsteps_nruns markers true false).
  - rewrite Ep in *. rewrite split_markers_fold, fold_pass_nl by done.
    apply nsteps_dedupe_behind. apply nruns_fold; [apply markers_chain|done|lia|].
    apply (nsteps_nruns markers true false); [done|].
    by apply slip_scan_nl in Hslip.
Qed.

(** ** The activity normaliser on the sample inputs *)

(** C8, as stated, fails: the repaired text is not a two-line form. *)
Lemma C8_counterexample :
  List.length (lines (format_activity no_render (JStr repair_input))) <> 2%nat.
Proof. vm_compute. discriminate. Qed.

(** C8. The input without a leading number and with an embedded second
    marker is repaired to the single step numbered 1 that holds the whole
    text: no newline is put before the embedded marker, and the one
    number that opens a line is 1, so none is skipped or repeated. *)
Theorem C8_numbering_repair (py_str : json -> string) :
  format_activity py_str (JStr repair_input) = "1. " ++ repair_input
  /\ lines (format_activity py_str (JStr repair_input))
     = ["1. Do the thing. Then 2. do another"]
  /\ List.map leading_number (lines (format_activity py_str (JStr repair_input)))
     = ["1"].
Proof. repeat split; vm_compute; reflexivity. Qed.

(** C3, as stated, fails: a text whose only step is numbered 3 is
    returned as it is. *)
Lemma C3_counterexample :
  format_activity no_render (JStr "3. foo") = "3. foo"
  /\ normalized_form (format_activity no_render (JStr "3. foo")) = false.
Proof. split; vm_compute; reflexivity. Qed.

(** C4, as stated, fails: a normalised text with a space at the end of
    its first line comes back without that space. *)
Lemma C4_counterexample :
  normalized_form (join NL ["1. a "; "2. b"]) = true
  /\ format_activity no_render (JStr (join NL ["1. a "; "2. b"]))
     <> join NL ["1. a "; "2. b"].
Proof. split; vm_compute; [reflexivity|discriminate]. Qed.

(** The already-formatted branch splits a marker off a larger number:
    step 21 becomes a line 2 and a step 1. *)
Example format_activity_splits_21 :
  lines (format_activity no_render (JStr "21. foo")) = ["2"; "1. foo"].
Proof. vm_compute. reflexivity. Qed.

(** The not-formatted branch numbers an unnumbered first step 1 and
    keeps the numbers that follow: here 1 comes twice. *)
Example format_activity_repeats_1 :
  lines (format_activity no_render (JStr (join NL ["intro"; "1. a"; "2. b"])))
  = ["1. intro"; "1. a"; "2. b"].
Proof. vm_compute. reflexivity. Qed.

(** Eleven steps in normal form do not come back unchanged: the marker
    of step 1 is found inside the number 11. *)
Example format_activity_eleven_steps :
  normalized_form eleven_steps = true /\
  lines (format_activity no_render (JStr eleven_steps))
  = ["1. a"; "2. b"; "3. c"; "4. d"; "5. e"; "6. f"; "7. g"; "8. h";
     "9. i"; "10. j"; "1"; "1. k"].
Proof. split; vm_compute; reflexivity. Qed.

(** A number with no whitespace after its dot is kept as it is. *)
Example format_activity_keeps_1a :
  format_activity no_render (JStr "1.a") = "1.a"
  /\ numbered_with_space "1.a" = false.
Proof. split; vm_compute; reflexivity. Qed.

(** The text of step 21 has a marker right after a digit. *)
Example slip_free_21 :
  slip_free (process_lines 0 (lines "21. foo") EmptyString) = false
  /\ slip_free (process_lines 0 (lines "3. see 10. x") EmptyString) = true.
Proof. split; vm_compute; reflexivity. Qed.

(** C3. For every input the normaliser returns a text that is empty or
    whose lines, separated by single newlines, each open with a decimal
    digit, so that none is blank. Every line of the result opens with a
    number and a dot when the cleaned text is not already a list of
    numbered steps, and also when it is one and, in what the line loop
    builds from it, none of the markers from 1 to 10 (number, dot,
    space) starts right after a digit. The numbers are those the lines
    came with, so they need not start at 1, ascend or differ, and no
    whitespace after the dot is promised. *)
Theorem C3_output_shape (py_str : json -> string) (activity : json) :
  let text := clean_activity (coerce_activity py_str activity) in
  let out := format_activity py_str activity in
  (out = EmptyString \/ forallb digit_start (lines out) = true)
  /\ (validate_activity_format text = false ->
      out = EmptyString \/ forallb starts_numbered (lines out) = true)
  /\ (validate_activity_format text = true ->
      slip_free (process_lines 0 (lines text) EmptyString) = true ->
      forallb starts_numbered (lines out) = true).
Proof.
  cbn zeta. unfold format_activity, format_text.
  fold (clean_activity (coerce_activity py_str activity)).
  set (a := clean_activity (coerce_activity py_str activity)).
  split; [|split].
  - destruct (validate_activity_format a) eqn:Hv.
    + right. by apply steps_ok_lines, format_valid_steps.
    + destruct (format_invalid_shape a) as [->|H]; [by left|right].
      eapply forallb_impl; [|exact H]. apply starts_numbered_digit.
  - intros ->. apply format_invalid_shape.
  - intros Hv Hslip. rewrite Hv. by apply nsteps_lines, format_valid_numbered.
Qed.

Lemma C3_output_shape_witness :
  (format_activity no_render (JArr [JStr "warm up"; JStr "2. stretch"]) = EmptyString
   \/ forallb starts_numbered
        (lines (format_activity no_render (JArr [JStr "warm up"; JStr "2. stretch"])))
      = true)
  /\ forallb starts_numbered
       (lines (format_activity no_render (JStr "1. warm up 2. stretch"))) = true.
Proof.
  split.
  - exact (proj1 (proj2 (C3_output_shape no_render
                           (JArr [JStr "warm up"; JStr "2. stretch"]))) eq_refl).
  - exact (proj2 (proj2 (C3_output_shape no_render (JStr "1. warm up 2. stretch")))
             eq_refl eq_refl).
Defined.

(** C4. An activity text in which every line is a numbered step that
    has no whitespace around it, is more than a bare number, holds no
    control character or carriage return, and holds one of the markers
    from 1 to 10 (number, dot, space) nowhere but at its start, is
    returned unchanged. *)
Theorem C4_idempotent_on_stable_forms (py_str : json -> string) (s : string)
  (Hstable : stable_form s = true) :
  format_activity py_str (JStr s) = s.
Proof.
  destruct (lines_spec s) as (l & r & E & -> & _).
  unfold stable_form in Hstable. rewrite E in Hstable.
  by apply format_text_stable.
Qed.

Lemma C4_idempotent_on_stable_forms_witness :
  stable_form (join NL ["1. Read the brief"; "2. Draft a plan"; "10. Review"]) = true
  /\ format_activity no_render
       (JStr (join NL ["1. Read the brief"; "2. Draft a plan"; "10. Review"]))
     = join NL ["1. Read the brief"; "2. Draft a plan"; "10. Review"].
Proof.
  split; [reflexivity|].
  apply (C4_idempotent_on_stable_forms no_render). reflexivity.
Defined.

(** ** The transport wrapper *)

Lemma find_unfold p s :
  find p s =
  if String.prefix p s then Some 0%nat
  else match s with
       | EmptyString => None
       | String _ s' => option_map S (find p s')
       end.
Proof. by destruct s. Qed.

Lemma find_app_free a p pre rest :
  all_chars (fun c => negb (Ascii.eqb a c)) pre = true ->
  find (String a p) (pre ++ String a p ++ rest) = Some (String.length pre).
Proof.
  induction pre as [|c pre IH]; intros H.
  - rewrite append_nil_l, find_unfold. by rewrite prefix_append.
  - cbn [all_chars] in H. apply andb_true_iff in H as [Hc H].
    rewrite append_cons, find_unfold, prefix_cons.
    apply negb_true_iff in Hc. rewrite Hc. cbn [andb]. by rewrite IH.
Qed.

Lemma rfind_free a p s :
  all_chars (fun c => negb (Ascii.eqb a c)) s = true -> rfind (String a p) s = None.
Proof.
  induction s as [|c s IH]; intros H; [done|].
  cbn [all_chars] in H. apply andb_true_iff in H as [Hc H].
  cbn [rfind]. rewrite IH by done. rewrite prefix_cons.
  apply negb_true_iff in Hc. by rewrite Hc.
Qed.

Lemma prefix_free a p s :
  all_chars (fun c => negb (Ascii.eqb a c)) s = true -> String.prefix (String a p) s = false.
Proof.
  destruct s as [|c s]; [done|]. cbn [all_chars]. intros [Hc _]%andb_true_iff.
  rewrite prefix_cons. apply negb_true_iff in Hc. by rewrite Hc.
Qed.

Lemma rfind_fence_here post :
  tick_free post = true -> rfind fence (fence ++ post) = Some 0%nat.
Proof.
  intros H. unfold fence.
  rewrite !append_cons, append_nil_l.
  cbn [rfind]. rewrite (rfind_free _ _ _ H).
  rewrite !prefix_cons, (prefix_free _ _ _ H), prefix_nil.
  change (Ascii.eqb "`" "`") with true. cbn [andb].
  destruct post as [|c post]; [done|].
  cbn [tick_free all_chars] in H. apply andb_true_iff in H as [Hc _].
  apply negb_true_iff in Hc. unfold backtick in Hc.
  rewrite !prefix_cons, Hc. reflexivity.
Qed.

Lemma rfind_app p x s k :
  rfind p s = Some k -> rfind p (x ++ s) = Some (String.length x + k)%nat.
Proof.
  intros H. induction x as [|c x IH]; [done|].
  rewrite append_cons. cbn [rfind]. by rewrite IH.
Qed.

Lemma take_append a b : take (String.length a) (a ++ b) = a.
Proof.
  induction a as [|c a IH]; [by destruct b|].
  rewrite append_cons. cbn [String.length take]. by rewrite IH.
Qed.

Lemma slice_middle a b c :
  slice (String.length a) (String.length a + String.length b) (a ++ b ++ c) = b.
Proof.
  unfold slice. rewrite drop_append.
  replace (String.length a + String.length b - String.length a)%nat
    with (String.length b) by lia.
  apply take_append.
Qed.

Lemma contains_here p s : String.prefix p s = true -> contains p s = true.
Proof. intros H. destruct s; cbn [contains]; by rewrite H. Qed.

Lemma contains_app p pre rest : contains p (pre ++ p ++ rest) = true.
Proof.
  induction pre as [|c pre IH].
  - rewrite append_nil_l. apply contains_here, prefix_append.
  - rewrite append_cons, contains_cons. by rewrite IH, orb_true_r.
Qed.

(** A fence inside a text opens every longer pattern that starts with it. *)
Lemma prefix_weaken p q s : String.prefix (p ++ q) s = true -> String.prefix p s = true.
Proof.
  intros H. rewrite (prefix_true _ _ H), append_assoc. apply prefix_append.
Qed.

Lemma contains_weaken p q s : contains (p ++ q) s = true -> contains p s = true.
Proof.
  induction s as [|c s IH].
  - cbn [contains]. rewrite !orb_false_r. apply prefix_weaken.
  - rewrite !contains_cons. intros [H|H]%orb_true_iff.
    + by rewrite (prefix_weaken _ _ _ H).
    + rewrite (IH H). apply orb_true_r.
Qed.

Lemma strip_empty : strip EmptyString = EmptyString.
Proof. reflexivity. Qed.

Lemma slice_empty a b s : (b <= a)%nat -> slice a b s = EmptyString.
Proof.
  intros H. unfold slice. replace (b - a)%nat with 0%nat by lia. by destruct (drop a s).
Qed.

(** X1. A reply that wraps its document in a fence, with or without the
    [json] tag and with any text that holds no backtick around the
    block, is cut down to the stripped inside of the block. *)
Theorem strip_fences_block (pre body post : string) :
  tick_free pre = true -> tick_free post = true ->
  strip_fences (pre ++ (fence ++ "json") ++ body ++ fence ++ post) = strip body
  /\ (contains (fence ++ "json") (pre ++ fence ++ body ++ fence ++ post) = false ->
      strip_fences (pre ++ fence ++ body ++ fence ++ post) = strip body).
Proof.
  intros Hpre Hpost. split.
  - unfold strip_fences. rewrite contains_app.
    rewrite (find_app_free backtick "``json" pre (body ++ fence ++ post) Hpre
             : find (fence ++ "json") (pre ++ (fence ++ "json") ++ body ++ fence ++ post) = _).
    replace (pre ++ (fence ++ "json") ++ body ++ fence ++ post)
      with ((pre ++ (fence ++ "json") ++ body) ++ fence ++ post)
      by (by rewrite !append_assoc).
    rewrite (rfind_app _ _ _ _ (rfind_fence_here post Hpost)).
    rewrite Nat.add_0_r.
    replace ((pre ++ (fence ++ "json") ++ body) ++ fence ++ post)
      with ((pre ++ fence ++ "json") ++ body ++ fence ++ post)
      by (by rewrite !append_assoc).
    replace (String.length pre + 7)%nat with (String.length (pre ++ fence ++ "json"))
      by (rewrite length_append; reflexivity).
    replace (String.length (pre ++ (fence ++ "json") ++ body))
      with (String.length (pre ++ fence ++ "json") + String.length body)%nat
      by (rewrite !length_append; cbn [String.length]; lia).
    by rewrite slice_middle.
  - intros Hno. unfold strip_fences. rewrite Hno.
    replace (pre ++ fence ++ body ++ fence ++ post)
      with (pre ++ fence ++ (body ++ fence ++ post)) by done.
    rewrite contains_app.
    rewrite (find_app_free backtick "``" pre (body ++ fence ++ post) Hpre
             : find fence (pre ++ fence ++ body ++ fence ++ post) = _).
    replace (pre ++ fence ++ body ++ fence ++ post)
      with ((pre ++ fence ++ body) ++ fence ++ post)
      by (by rewrite !append_assoc).
    rewrite (rfind_app _ _ _ _ (rfind_fence_here post Hpost)).
    rewrite Nat.add_0_r.
    replace ((pre ++ fence ++ body) ++ fence ++ post)
      with ((pre ++ fence) ++ body ++ fence ++ post)
      by (by rewrite !append_assoc).
    replace (String.length pre + 3)%nat with (String.length (pre ++ fence))
      by (rewrite length_append; reflexivity).
    replace (String.length (pre ++ fence ++ body))
      with (String.length (pre ++ fence) + String.length body)%nat
      by (rewrite !length_append; cbn [String.length]; lia).
    by rewrite slice_middle.
Qed.

Lemma strip_fences_block_witness :
  strip_fences ("Here it is:" ++ (fence ++ "json") ++ (NL ++ "{}" ++ NL) ++ fence ++ " Done.")
  = strip (NL ++ "{}" ++ NL).
Proof.
  exact (proj1 (strip_fences_block "Here it is:" (NL ++ "{}" ++ NL) " Done." eq_refl eq_refl)).
Defined.

Lemma find_skip a p pre t :
  all_chars (fun c => negb (Ascii.eqb a c)) pre = true ->
  find (String a p) (pre ++ t)
  = option_map (fun j => (String.length pre + j)%nat) (find (String a p) t).
Proof.
  induction pre as [|c pre IH]; intros H.
  - rewrite append_nil_l. by destruct (find (String a p) t).
  - cbn [all_chars] in H. apply andb_true_iff in H as [Hc H].
    rewrite append_cons, find_unfold, prefix_cons.
    apply negb_true_iff in Hc. rewrite Hc. cbn [andb]. rewrite IH by done.
    by destruct (find (String a p) t).
Qed.

Lemma contains_find p s : contains p s = true -> exists j, find p s = Some j.
Proof.
  induction s as [|c s IH]; rewrite find_unfold.
  - cbn [contains]. rewrite orb_false_r. intros ->. eauto.
  - rewrite contains_cons. destruct (String.prefix p (String c s)); [eauto|].
    cbn [orb]. intros [j ->]%IH. eauto.
Qed.

(** X2. A reply without a fence reaches the parser as it is, and a reply
    whose only fence is never closed is cut down to the empty text, so
    that a document behind an opening fence alone is lost. *)
Theorem strip_fences_edges (s pre rest : string) :
  (contains fence s = false -> strip_fences s = s)
  /\ (tick_free pre = true -> tick_free rest = true ->
      strip_fences (pre ++ fence ++ rest) = EmptyString).
Proof.
  split.
  - intros H. unfold strip_fences. rewrite H.
    destruct (contains (fence ++ "json") s) eqn:E; [|done].
    apply contains_weaken in E. congruence.
  - intros Hpre Hrest. unfold strip_fences.
    pose proof (rfind_app fence pre _ _ (rfind_fence_here rest Hrest)) as Hr.
    rewrite Nat.add_0_r in Hr. rewrite Hr.
    destruct (contains (fence ++ "json") (pre ++ fence ++ rest)) eqn:E.
    + destruct (contains_find _ _ E) as [j Hj]. rewrite Hj.
      change (fence ++ "json") with (String backtick "``json") in Hj.
      rewrite (find_skip _ _ _ _ Hpre) in Hj.
      destruct (find (String backtick "``json") (fence ++ rest)) as [j'|]; [|discriminate].
      injection Hj as <-. rewrite slice_empty by lia. reflexivity.
    + rewrite contains_app.
      rewrite (find_app_free backtick "``" pre rest Hpre
               : find fence (pre ++ fence ++ rest) = _).
      rewrite slice_empty by lia. reflexivity.
Qed.

Lemma strip_fences_edges_witness :
  strip_fences "{}" = "{}" /\
  strip_fences ("Here it is:" ++ fence ++ "json{}") = EmptyString.
Proof.
  destruct (strip_fences_edges "{}" "Here it is:" "json{}") as [H1 H2].
  split; [exact (H1 eq_refl)|exact (H2 eq_refl eq_refl)].
Defined.

(** X3. Whatever goes wrong in [generate_content], the caller sees one
    exception whose message opens with the words of the outer handler; a
    parse failure is wrapped a second time and carries the error of the
    cascade, not that of the last retry. *)
Theorem generate_content_failure
  (json_loads : string -> result json) (response : result string) (e : exn) :
  generate_content json_loads response = Err e ->
  exists cause,
    e = Chained "Failed to generate content: " cause /\
    (response = Err cause
     \/ exists text json_err,
          response = Ok text /\
          safe_parse_json json_loads (strip_fences text) = Err json_err /\
          cause = Chained "Failed to parse JSON response: " json_err).
Proof.
  unfold generate_content. destruct response as [text|e0].
  - destruct (safe_parse_json json_loads (strip_fences text)) as [doc|json_err] eqn:E;
      [discriminate|].
    destruct (json_loads (sanitize_json_string (strip_fences text))); [discriminate|].
    intros [= <-]. eexists. split; [reflexivity|]. right. eauto.
  - intros [= <-]. eauto.
Qed.

Lemma generate_content_failure_witness :
  exists cause,
    Chained "Failed to generate content: "
      (Chained "Failed to parse JSON response: "
         (ValueError "Failed to parse JSON after multiple attempts: "
            (JSONDecodeError "Expecting value")))
    = Chained "Failed to generate content: " cause.
Proof.
  destruct (generate_content_failure null_loads (Ok "x") _ eq_refl) as (cause & H & _).
  exists cause. exact H.
Defined.

(** X4. The last retry of [generate_content] parses the text the second
    stage of the cascade has parsed already: a reply yields a document
    exactly when the cascade yields it, or when the direct parse raised
    something other than a decode error and the sanitised text parses. *)
Theorem generate_content_retry
  (json_loads : string -> result json) (text : string) (doc : json) :
  generate_content json_loads (Ok text) = Ok doc <->
  (safe_parse_json json_loads (strip_fences text) = Ok doc
   \/ exists e1,
        json_loads (strip_fences text) = Err e1 /\ is_decode_error e1 = false /\
        json_loads (sanitize_json_string (strip_fences text)) = Ok doc).
Proof.
  unfold generate_content. set (t := strip_fences text). split.
  - destruct (safe_parse_json json_loads t) as [d|json_err] eqn:E.
    + intros [= <-]. by left.
    + destruct (json_loads (sanitize_json_string t)) as [d|e2] eqn:L2; [|discriminate].
      intros [= <-]. right.
      unfold safe_parse_json, loads_or in E.
      destruct (json_loads t) as [d1|e1] eqn:L1; [discriminate|].
      exists e1. destruct (is_decode_error e1); [|done].
      rewrite L2 in E. discriminate.
  - intros [->|(e1 & L1 & H1 & L2)]; [done|].
    unfold safe_parse_json, loads_or. by rewrite L1, H1, L2.
Qed.

(** ** Characters through the string primitives *)

Lemma length_lstrip_le s : (String.length (lstrip s) <= String.length s)%nat.
Proof.
  induction s as [|c s IH]; [done|]. cbn [lstrip].
  destruct (is_space c); cbn [String.length]; lia.
Qed.

Lemma length_rstrip_le s : (String.length (rstrip s) <= String.length s)%nat.
Proof.
  induction s as [|c s IH]; [done|]. cbn [rstrip].
  destruct (rstrip s); [destruct (is_space c)|]; cbn [String.length] in *; lia.
Qed.

Lemma length_strip_le s : (String.length (strip s) <= String.length s)%nat.
Proof.
  unfold strip. pose proof (length_rstrip_le (lstrip s)). pose proof (length_lstrip_le s). lia.
Qed.

Lemma rstrip_keeps a d r :
  is_space d = false -> rstrip (a ++ String d r) = a ++ String d (rstrip r).
Proof.
  intros Hd. induction a as [|c a IH].
  - rewrite !append_nil_l. cbn [rstrip]. rewrite Hd. by destruct (rstrip r).
  - rewrite !append_cons. cbn [rstrip]. rewrite IH.
    by destruct a.
Qed.

Lemma all_chars_replace_from p old new k s :
  all_chars p new = true -> all_chars p s = true ->
  all_chars p (replace_from old new k s) = true.
Proof.
  intros Hnew. revert k. induction s as [|c s IH]; intros k H; [done|].
  cbn [all_chars] in H. apply andb_true_iff in H as [Hc Hs].
  cbn [replace_from]. destruct k as [|k]; [|auto].
  destruct (String.prefix old (String c s)).
  - rewrite all_chars_app, Hnew. cbn [andb]. auto.
  - cbn [all_chars]. rewrite Hc. cbn [andb]. auto.
Qed.

Lemma all_chars_replace p old new s :
  nonempty old = true ->
  all_chars p new = true -> all_chars p s = true ->
  all_chars p (replace old new s) = true.
Proof.
  intros Hold Hnew Hs. destruct old as [|a o]; [discriminate|].
  by apply all_chars_replace_from.
Qed.

Lemma all_chars_drop p k s : all_chars p s = true -> all_chars p (drop k s) = true.
Proof.
  revert s. induction k as [|k IH]; intros s H; [by destruct s|].
  destruct s as [|c s]; [done|]. cbn [all_chars] in H.
  apply andb_true_iff in H as [_ H]. cbn [drop]. auto.
Qed.

Lemma all_chars_filter p q s :
  all_chars p s = true -> all_chars p (filter_chars q s) = true.
Proof.
  induction s as [|c s IH]; [done|]. cbn [all_chars filter_chars].
  intros [Hc Hs]%andb_true_iff. destruct (q c); [|auto].
  cbn [all_chars]. by rewrite Hc, IH.
Qed.

Lemma all_chars_filtered q s : all_chars q (filter_chars q s) = true.
Proof.
  induction s as [|c s IH]; [done|]. cbn [filter_chars].
  destruct (q c) eqn:E; [|done]. cbn [all_chars]. by rewrite E, IH.
Qed.

(** Replacing a character by a text without it leaves none behind. *)
Lemma replace_char_gone a new s :
  all_chars (fun c => negb (Ascii.eqb a c)) new = true ->
  all_chars (fun c => negb (Ascii.eqb a c)) (replace (String a EmptyString) new s) = true.
Proof.
  intros Hnew. induction s as [|c s IH]; [done|].
  destruct (Ascii.eqb a c) eqn:E.
  - rewrite replace_hit; [|done|by rewrite prefix_cons, E, prefix_nil].
    rewrite all_chars_app, Hnew. exact IH.
  - rewrite replace_miss; [|done|by rewrite prefix_cons, E].
    cbn [all_chars]. by rewrite E, IH.
Qed.

(** The cleanup leaves neither a carriage return nor a control character
    other than the newline. *)
Lemma clean_activity_text s : all_chars text_char (clean_activity s) = true.
Proof.
  unfold clean_activity, remove_ctrl, normalize_newlines.
  set (t := replace CR NL (replace (CR ++ NL) NL s)).
  assert (Hcr : all_chars (fun c => negb (Ascii.eqb cr c)) t = true)
    by (by apply replace_char_gone).
  assert (H1 : all_chars (fun c => negb (Ascii.eqb cr c))
                 (filter_chars (fun c => negb (is_ctrl c)) t) = true)
    by (by apply all_chars_filter).
  pose proof (all_chars_filtered (fun c => negb (is_ctrl c)) t) as H2.
  revert H1 H2. generalize (filter_chars (fun c => negb (is_ctrl c)) t). intros u.
  induction u as [|c u IH]; [done|]. cbn [all_chars].
  intros [Ha Hb]%andb_true_iff [Hc Hd]%andb_true_iff.
  unfold text_char at 1. rewrite Hc, (Ascii.eqb_sym c cr), Ha. cbn [andb]. auto.
Qed.

(** ** The text sanitiser *)

Lemma sub_activity_absent s :
  contains activity_key s = false -> sub_activity 0 s = s.
Proof.
  induction s as [|c s IH]; [done|]. rewrite contains_cons.
  intros [Hp Hs]%orb_false_iff. cbn [sub_activity].
  unfold match_activity. rewrite Hp. by rewrite IH.
Qed.

(** X5. A text that needs no cleanup and holds no [activity] key passes the
    sanitiser unchanged. *)
Theorem sanitize_json_string_frame (json_str : string) :
  all_chars text_char json_str = true ->
  contains activity_key json_str = false ->
  sanitize_json_string json_str = json_str.
Proof.
  intros Htext Hkey. unfold sanitize_json_string.
  rewrite normalize_newlines_text, remove_ctrl_text by done.
  by apply sub_activity_absent.
Qed.

Lemma sanitize_json_string_frame_witness :
  sanitize_json_string ("{" ++ DQ ++ "weeks" ++ DQ ++ ": []}")
  = "{" ++ DQ ++ "weeks" ++ DQ ++ ": []}".
Proof.
  exact (sanitize_json_string_frame ("{" ++ DQ ++ "weeks" ++ DQ ++ ": []}") eq_refl eq_refl).
Defined.

Lemma lazy_group_chars p s g r :
  lazy_group s = Some (g, r) -> all_chars p s = true -> all_chars p g = true.
Proof.
  revert g r. induction s as [|c s IH]; intros g r.
  - cbn [lazy_group]. destruct (lookahead_end EmptyString); [|discriminate].
    by intros [= <- <-].
  - cbn [lazy_group]. destruct (lookahead_end (String c s)).
    + by intros [= <- <-].
    + destruct (lazy_group s) as [[g' r']|]; [|discriminate].
      intros [= <- <-]. cbn [all_chars]. intros [Hc Hs]%andb_true_iff.
      rewrite Hc. cbn [andb]. eauto.
Qed.

Lemma match_activity_chars p s g r :
  match_activity s = Some (g, r) -> all_chars p s = true -> all_chars p g = true.
Proof.
  unfold match_activity. destruct (String.prefix activity_key s); [|discriminate].
  intros H Hs.
  assert (Hb : all_chars p (lstrip (drop (String.length activity_key) s)) = true)
    by (by apply all_chars_lstrip, all_chars_drop).
  destruct (lstrip (drop (String.length activity_key) s)) as [|c b]; [discriminate|].
  destruct (Ascii.eqb c dq); [|discriminate].
  cbn [all_chars] in Hb. apply andb_true_iff in Hb as [_ Hb].
  eapply lazy_group_chars; eauto.
Qed.

Lemma fix_activity_chars p g :
  all_chars p ("\" ++ DQ ++ "activity: n") = true ->
  all_chars p g = true -> all_chars p (fix_activity g) = true.
Proof.
  intros Hlit Hg. unfold fix_activity.
  cbn [all_chars] in Hlit. repeat (apply andb_true_iff in Hlit as [? Hlit]).
  rewrite !all_chars_app. cbn [all_chars DQ].
  repeat (apply andb_true_iff; split); try done.
  apply all_chars_replace; [done|cbn; by repeat (apply andb_true_iff; split)|].
  apply all_chars_replace; [done|cbn; by repeat (apply andb_true_iff; split)|].
  apply all_chars_replace; [done|cbn; by repeat (apply andb_true_iff; split)|done].
Qed.

Lemma sub_activity_chars p k s :
  all_chars p ("\" ++ DQ ++ "activity: n") = true ->
  all_chars p s = true -> all_chars p (sub_activity k s) = true.
Proof.
  intros Hlit. revert k. induction s as [|c s IH]; intros k H; [done|].
  pose proof H as Hall.
  cbn [all_chars] in H. apply andb_true_iff in H as [Hc Hs].
  cbn [sub_activity]. destruct k as [|k]; [|auto].
  destruct (match_activity (String c s)) as [[g rest]|] eqn:E.
  - rewrite all_chars_app. apply andb_true_iff. split; [|auto].
    apply fix_activity_chars; [done|]. eapply match_activity_chars; eauto.
  - cbn [all_chars]. rewrite Hc. cbn [andb]. auto.
Qed.

(** X6. Whatever the text, the sanitised text holds neither a carriage
    return nor a control character other than the newline. *)
Theorem sanitize_json_string_clean (json_str : string) :
  all_chars text_char (sanitize_json_string json_str) = true.
Proof.
  unfold sanitize_json_string. apply sub_activity_chars; [reflexivity|].
  apply (clean_activity_text json_str).
Qed.

(** A one-character pattern is replaced character by character. *)
Lemma replace_char_cons a new c s :
  replace (String a EmptyString) new (String c s)
  = (if Ascii.eqb a c then new else String c EmptyString)
    ++ replace (String a EmptyString) new s.
Proof.
  destruct (Ascii.eqb a c) eqn:E.
  - rewrite replace_hit; [done|done|by rewrite prefix_cons, E, prefix_nil].
  - rewrite replace_miss; [done|done|by rewrite prefix_cons, E].
Qed.

Lemma replace_char_app a new s t :
  replace (String a EmptyString) new (s ++ t)
  = replace (String a EmptyString) new s ++ replace (String a EmptyString) new t.
Proof.
  induction s as [|c s IH]; [done|].
  by rewrite append_cons, !replace_char_cons, IH, append_assoc.
Qed.

Lemma escape_cons c g :
  replace DQ (BS ++ DQ) (replace NL (BS ++ "n") (replace BS (BS ++ BS) (String c g)))
  = (if Ascii.eqb c "\"%char then BS ++ BS
     else if Ascii.eqb c nl then BS ++ "n"
     else if Ascii.eqb c dq then BS ++ DQ
     else String c EmptyString)
    ++ replace DQ (BS ++ DQ) (replace NL (BS ++ "n") (replace BS (BS ++ BS) g)).
Proof.
  unfold BS, NL, DQ.
  rewrite replace_char_cons, !replace_char_app. f_equal.
  rewrite (Ascii.eqb_sym c "\"%char).
  destruct (Ascii.eqb "\" c) eqn:E1; [reflexivity|].
  rewrite replace_char_cons, append_nil_r, (Ascii.eqb_sym c nl).
  destruct (Ascii.eqb nl c) eqn:E2; [reflexivity|].
  rewrite replace_char_cons, append_nil_r, (Ascii.eqb_sym c dq).
  destruct (Ascii.eqb dq c) eqn:E3; reflexivity.
Qed.

(** X7. The value [fix_activity] writes behind the key is well escaped:
    every backslash in it opens the escape of a backslash, a newline or a
    quote, and no quote or newline stands in it by itself. *)
Theorem fix_activity_escapes (activity : string) :
  exists body,
    fix_activity activity = DQ ++ "activity" ++ DQ ++ ": " ++ DQ ++ body /\
    escaped_body false body = true.
Proof.
  unfold fix_activity. eexists. split; [reflexivity|].
  induction activity as [|c g IH]; [reflexivity|].
  rewrite escape_cons.
  destruct (Ascii.eqb c "\"%char) eqn:E1; [exact IH|].
  destruct (Ascii.eqb c nl) eqn:E2; [exact IH|].
  destruct (Ascii.eqb c dq) eqn:E3; [exact IH|].
  rewrite append_cons, append_nil_l. cbn [escaped_body]. by rewrite E1, E2, E3.
Qed.

(** ** The text sanitiser on an activity field *)

Lemma sub_activity_skip k s : sub_activity k s = sub_activity 0 (drop k s).
Proof.
  revert k. induction s as [|c s IH]; intros [|k]; try reflexivity.
  cbn [sub_activity drop]. apply IH.
Qed.

Lemma lstrip_spaces ws d t :
  all_chars is_space ws = true -> is_space d = false ->
  lstrip (ws ++ String d t) = String d t.
Proof.
  intros Hws Hd. induction ws as [|c ws IH].
  - rewrite append_nil_l. cbn [lstrip]. by rewrite Hd.
  - cbn [all_chars] in Hws. apply andb_true_iff in Hws as [Hc Hws].
    rewrite append_cons. cbn [lstrip]. rewrite Hc. auto.
Qed.

Lemma lookahead_end_other c t : Ascii.eqb c dq = false -> lookahead_end (String c t) = false.
Proof.
  intros H. unfold lookahead_end. unfold DQ. rewrite append_cons, prefix_cons.
  rewrite (Ascii.eqb_sym dq c), H. reflexivity.
Qed.

Lemma lazy_group_value g tail :
  all_chars (fun c => negb (Ascii.eqb c dq)) g = true ->
  lookahead_end tail = true ->
  lazy_group (g ++ tail) = Some (g, tail).
Proof.
  intros Hg Htail. induction g as [|c g IH].
  - rewrite append_nil_l. destruct tail; cbn [lazy_group]; by rewrite Htail.
  - cbn [all_chars] in Hg. apply andb_true_iff in Hg as [Hc Hg].
    apply negb_true_iff in Hc. rewrite append_cons. cbn [lazy_group].
    rewrite (lookahead_end_other _ _ Hc), IH by done. reflexivity.
Qed.

Lemma match_activity_value ws g tail :
  all_chars is_space ws = true ->
  all_chars (fun c => negb (Ascii.eqb c dq)) g = true ->
  lookahead_end tail = true ->
  match_activity (activity_key ++ ws ++ DQ ++ g ++ tail) = Some (g, tail).
Proof.
  intros Hws Hg Htail. unfold match_activity.
  rewrite prefix_append, drop_append. unfold DQ at 1. rewrite append_cons, append_nil_l.
  rewrite lstrip_spaces by done. rewrite Ascii.eqb_refl. by apply lazy_group_value.
Qed.

Lemma sub_activity_value ws g tail :
  all_chars is_space ws = true ->
  all_chars (fun c => negb (Ascii.eqb c dq)) g = true ->
  lookahead_end tail = true ->
  sub_activity 0 (activity_key ++ ws ++ DQ ++ g ++ tail)
  = fix_activity g ++ sub_activity 0 tail.
Proof.
  intros Hws Hg Htail.
  pose proof (match_activity_value ws g tail Hws Hg Htail) as Hm.
  assert (Hlen : String.length (activity_key ++ ws ++ DQ ++ g ++ tail)
                 = (String.length (activity_key ++ ws ++ DQ ++ g) + String.length tail)%nat)
    by (rewrite !length_append; lia).
  assert (Hdrop : drop (String.length (activity_key ++ ws ++ DQ ++ g))
                       (activity_key ++ ws ++ DQ ++ g ++ tail) = tail).
  { replace (activity_key ++ ws ++ DQ ++ g ++ tail)
      with ((activity_key ++ ws ++ DQ ++ g) ++ tail) by (by rewrite !append_assoc).
    apply drop_append. }
  destruct (activity_key ++ ws ++ DQ ++ g ++ tail) as [|c s'] eqn:E; [discriminate|].
  cbn [sub_activity]. rewrite Hm. f_equal. rewrite sub_activity_skip. f_equal.
  rewrite Hlen.
  replace (String.length (activity_key ++ ws ++ DQ ++ g) + String.length tail
           - String.length tail - 1)%nat
    with (String.length (activity_key ++ ws ++ DQ ++ g) - 1)%nat by lia.
  destruct (String.length (activity_key ++ ws ++ DQ ++ g)) as [|n] eqn:En.
  { rewrite !length_append in En. cbn in En. lia. }
  cbn [drop] in Hdrop. by rewrite Nat.sub_succ, Nat.sub_0_r.
Qed.

Lemma find_step p c s n :
  find p (String c s) = Some (S n) ->
  String.prefix p (String c s) = false /\ find p s = Some n.
Proof.
  rewrite find_unfold. destruct (String.prefix p (String c s)); [discriminate|].
  destruct (find p s); cbn; [|discriminate]. intros [= ->]. done.
Qed.

Lemma sub_activity_before pre field :
  find activity_key (pre ++ field) = Some (String.length pre) ->
  sub_activity 0 (pre ++ field) = pre ++ sub_activity 0 field.
Proof.
  induction pre as [|c pre IH]; [done|]. rewrite !append_cons. cbn [String.length].
  intros [Hp Hf]%find_step. cbn [sub_activity]. unfold match_activity. rewrite Hp.
  by rewrite IH.
Qed.

(** X8. What the sanitiser does at the first [activity] field of a text that
    needs no cleanup: the text before the field is kept, the value, up to
    its closing quote, is written escaped behind the key, and the rest is
    sanitised from the closing quote on. *)
Theorem sanitize_json_string_field (pre ws g rest : string) :
  let tail := DQ ++ "," ++ rest in
  let json_str := pre ++ activity_key ++ ws ++ DQ ++ g ++ tail in
  all_chars text_char json_str = true ->
  find activity_key json_str = Some (String.length pre) ->
  all_chars is_space ws = true ->
  all_chars (fun c => negb (Ascii.eqb c dq)) g = true ->
  sanitize_json_string json_str = pre ++ fix_activity g ++ sanitize_json_string tail.
Proof.
  cbn zeta. intros Htext Hfind Hws Hg.
  assert (Htail : all_chars text_char (DQ ++ "," ++ rest) = true).
  { rewrite !all_chars_app in Htext. repeat (apply andb_true_iff in Htext as [? Htext]).
    by rewrite !all_chars_app, Htext. }
  unfold sanitize_json_string.
  rewrite !normalize_newlines_text, !remove_ctrl_text by done.
  rewrite sub_activity_before by done. f_equal.
  apply sub_activity_value; try done.
  replace (DQ ++ "," ++ rest) with ((DQ ++ ",") ++ rest) by (by rewrite append_assoc).
  unfold lookahead_end. by rewrite prefix_append.
Qed.

Lemma sanitize_json_string_field_witness :
  sanitize_json_string
    ("{" ++ activity_key ++ " " ++ DQ ++ ("1. a" ++ NL ++ "2. b") ++ DQ ++ "," ++ "}")
  = "{" ++ fix_activity ("1. a" ++ NL ++ "2. b") ++ sanitize_json_string (DQ ++ "," ++ "}").
Proof.
  exact (sanitize_json_string_field "{" " " ("1. a" ++ NL ++ "2. b") "}"
           eq_refl eq_refl eq_refl eq_refl).
Defined.

(** ** The line-by-line stage *)

Lemma contains_app_r p s t : contains p t = true -> contains p (s ++ t) = true.
Proof.
  intros H. induction s as [|c s IH]; [done|].
  by rewrite append_cons, contains_cons, IH, orb_true_r.
Qed.

Lemma contains_app_l p s t : contains p s = true -> contains p (s ++ t) = true.
Proof.
  induction s as [|c s IH].
  - cbn [contains]. rewrite orb_false_r. intros H.
    apply contains_here. by apply prefix_app_r.
  - rewrite contains_cons. intros [H|H]%orb_true_iff.
    + apply contains_here. by apply prefix_app_r.
    + by rewrite append_cons, contains_cons, IH, orb_true_r.
Qed.

Lemma lstrip_suffix s : exists a, s = a ++ lstrip s.
Proof.
  induction s as [|c s [a IH]]; [by exists EmptyString|].
  cbn [lstrip]. destruct (is_space c).
  - exists (String c a). by rewrite append_cons, <- IH.
  - by exists EmptyString.
Qed.

Lemma rstrip_prefix s : exists b, s = rstrip s ++ b.
Proof.
  induction s as [|c s [b IH]]; [by exists EmptyString|].
  cbn [rstrip]. destruct (rstrip s) as [|d r] eqn:E.
  - destruct (is_space c).
    + by exists (String c s).
    + exists s. by rewrite append_cons, append_nil_l.
  - exists b. by rewrite append_cons, <- IH.
Qed.

Lemma contains_strip p s : contains p s = false -> contains p (strip s) = false.
Proof.
  intros H. destruct (contains p (strip s)) eqn:E; [|done].
  unfold strip in E.
  destruct (rstrip_prefix (lstrip s)) as [b Hb].
  destruct (lstrip_suffix s) as [a Ha].
  apply (contains_app_l _ _ b) in E. rewrite <- Hb in E.
  apply (contains_app_r _ a) in E. rewrite <- Ha in E. congruence.
Qed.

Lemma contains_tails p l r :
  contains p (l ++ tails r) = false ->
  Forall (fun x => contains p x = false) (l :: r).
Proof.
  revert l. induction r as [|x r IH]; intros l H.
  - cbn [tails] in H. rewrite append_nil_r in H. by constructor.
  - cbn [tails] in H. constructor.
    + destruct (contains p l) eqn:E; [|done].
      apply (contains_app_l _ _ (NL ++ x ++ tails r)) in E. congruence.
    + apply IH. destruct (contains p (x ++ tails r)) eqn:E; [|done].
      apply (contains_app_r _ (l ++ NL)) in E.
      rewrite append_assoc in E. congruence.
Qed.

Lemma contains_lines p s :
  contains p s = false -> Forall (fun x => contains p x = false) (lines s).
Proof.
  destruct (lines_spec s) as (l & r & -> & Hs & _). rewrite Hs at 1.
  apply contains_tails.
Qed.

Lemma fold_line_step_plain ls res buffer :
  Forall (fun x => contains activity_key x = false) ls ->
  List.fold_left line_step ls (res, false, buffer)
  = ((res ++ List.map strip ls)%list, false, buffer).
Proof.
  revert res. induction ls as [|l ls IH]; intros res H.
  - cbn [List.fold_left List.map]. by rewrite app_nil_r.
  - inversion H as [|? ? Hl Hls]; subst. cbn [List.fold_left List.map].
    unfold line_step at 2. rewrite (contains_strip _ _ Hl).
    rewrite IH by done. by rewrite <- app_assoc.
Qed.

(** X9. On a text that holds no [activity] key the line-by-line stage does
    no more than strip every line. *)
Theorem sanitize_line_by_line_frame (json_str : string) :
  contains activity_key json_str = false ->
  sanitize_line_by_line json_str = join NL (List.map strip (lines json_str)).
Proof.
  intros H. unfold sanitize_line_by_line.
  by rewrite (fold_line_step_plain _ _ _ (contains_lines _ _ H)).
Qed.

Lemma sanitize_line_by_line_frame_witness :
  sanitize_line_by_line ("{" ++ NL ++ "  " ++ DQ ++ "weeks" ++ DQ ++ ": []" ++ NL ++ "}")
  = join NL (List.map strip
               (lines ("{" ++ NL ++ "  " ++ DQ ++ "weeks" ++ DQ ++ ": []" ++ NL ++ "}"))).
Proof.
  exact (sanitize_line_by_line_frame
           ("{" ++ NL ++ "  " ++ DQ ++ "weeks" ++ DQ ++ ": []" ++ NL ++ "}") eq_refl).
Defined.

(** ** The line-by-line stage on an activity over two lines *)

Lemma endswith_aux_app p x t :
  endswith_aux p (String.length x) (x ++ t) = String.eqb p t.
Proof.
  induction x as [|c x IH]; [reflexivity|].
  rewrite append_cons. cbn [String.length endswith_aux]. exact IH.
Qed.

Lemma endswith_split p x t :
  String.length t = String.length p -> endswith p (x ++ t) = String.eqb p t.
Proof.
  intros H. unfold endswith. rewrite length_append, H.
  replace (String.length p <=? String.length x + String.length p)%nat with true
    by (symmetry; apply Nat.leb_le; lia).
  replace (String.length x + String.length p - String.length p)%nat
    with (String.length x) by lia.
  apply endswith_aux_app.
Qed.

Lemma last_char a : nonempty a = true -> exists a' e, a = a' ++ String e EmptyString.
Proof.
  induction a as [|c a IH]; [discriminate|]. intros _. destruct a as [|d a].
  - by exists EmptyString, c.
  - destruct (IH eq_refl) as (a' & e & E). exists (String c a'), e. by rewrite E.
Qed.

Lemma rstrip_fixed x a :
  nonempty a = true -> rstrip a = a -> rstrip (x ++ a) = x ++ a.
Proof.
  intros Hne Ha. induction x as [|c x IH]; [done|].
  rewrite append_cons. cbn [rstrip]. rewrite IH.
  destruct (x ++ a) eqn:E; [|done]. destruct x, a; discriminate.
Qed.

Lemma lstrip_fixed b t : lstrip b = b -> nonempty b = true -> lstrip (b ++ t) = b ++ t.
Proof.
  destruct b as [|c b]; [discriminate|]. intros H _. cbn [lstrip] in *.
  rewrite append_cons. cbn [lstrip]. destruct (is_space c); [|done].
  pose proof (length_lstrip_le b) as Hl. rewrite H in Hl. cbn [String.length] in Hl. lia.
Qed.

Lemma drop_last_app b e : drop_last (b ++ String e EmptyString) = b.
Proof.
  induction b as [|c b IH]; [done|]. rewrite append_cons. cbn [drop_last].
  rewrite IH. destruct b; reflexivity.
Qed.

Lemma after_here sep t : nonempty sep = true -> after sep (sep ++ t) = t.
Proof.
  intros H. destruct sep as [|c sep]; [discriminate|]. rewrite append_cons.
  cbn [after]. rewrite <- append_cons, prefix_append. apply drop_append.
Qed.

Lemma contains_key_free b :
  all_chars (fun c => negb (Ascii.eqb dq c)) b = true ->
  contains activity_key (b ++ DQ) = false.
Proof.
  intros H. induction b as [|c b IH]; [reflexivity|].
  cbn [all_chars] in H. apply andb_true_iff in H as [Hc H].
  rewrite append_cons, contains_cons, IH by done.
  unfold activity_key, DQ at 1. rewrite append_cons, prefix_cons.
  apply negb_true_iff in Hc. by rewrite Hc.
Qed.

(** X10. An activity that is opened on one line and closed on the next comes
    out of the line-by-line stage as the collected text and its closing
    quote alone: the key and the opening quote, which are computed for the
    first line, are never written. *)
Theorem sanitize_line_by_line_loses_key (a b : string) :
  nonempty a = true -> rstrip a = a ->
  all_chars (fun c => negb (Ascii.eqb dq c) && not_nl c) a = true ->
  lstrip b = b ->
  all_chars (fun c => negb (Ascii.eqb dq c) && not_nl c && negb (Ascii.eqb c "\")) b = true ->
  sanitize_line_by_line ((activity_key ++ " " ++ DQ ++ a) ++ NL ++ (b ++ DQ))
  = a ++ " " ++ b ++ DQ.
Proof.
  intros Hne Hra Ha Hlb Hb.
  assert (Ha_dq : all_chars (fun c => negb (Ascii.eqb dq c)) a = true).
  { eapply all_chars_impl; [|exact Ha]. intros c H. apply andb_true_iff in H. tauto. }
  assert (Ha_nl : all_chars not_nl a = true).
  { eapply all_chars_impl; [|exact Ha]. intros c H. apply andb_true_iff in H. tauto. }
  assert (Hb_dq : all_chars (fun c => negb (Ascii.eqb dq c)) b = true).
  { eapply all_chars_impl; [|exact Hb]. intros c H.
    repeat (apply andb_true_iff in H as [H ?]). done. }
  assert (Hb_nl : all_chars not_nl b = true).
  { eapply all_chars_impl; [|exact Hb]. intros c H.
    repeat (apply andb_true_iff in H as [H ?]). done. }
  set (l1 := activity_key ++ " " ++ DQ ++ a). set (l2 := b ++ DQ).
  assert (Hs1 : strip l1 = l1).
  { unfold strip, l1.
    change (lstrip (activity_key ++ " " ++ DQ ++ a)) with (activity_key ++ " " ++ DQ ++ a).
    replace (activity_key ++ " " ++ DQ ++ a) with ((activity_key ++ " " ++ DQ) ++ a)
      by (by rewrite !append_assoc).
    by apply rstrip_fixed. }
  assert (Hs2 : strip l2 = l2).
  { unfold strip, l2.
    assert (Hl : lstrip (b ++ DQ) = b ++ DQ).
    { destruct b as [|c b'] eqn:Eb; [done|]. by apply lstrip_fixed. }
    rewrite Hl. unfold DQ. by rewrite rstrip_keeps. }
  assert (Hlines : lines (l1 ++ NL ++ l2) = [l1; l2]).
  { replace (l1 ++ NL ++ l2) with (l1 ++ tails [l2])
      by (cbn [tails]; by rewrite append_nil_r).
    apply lines_tails. cbn [forallb]. unfold l1, l2.
    by rewrite !all_chars_app, Ha_nl, Hb_nl. }
  unfold sanitize_line_by_line. rewrite Hlines. cbn [List.fold_left].
  (* the line that opens the value *)
  unfold line_step at 2. rewrite Hs1.
  assert (Hk1 : contains activity_key l1 = true) by apply contains_here, prefix_append.
  rewrite Hk1.
  assert (He1 : endswith DQ l1 = false).
  { destruct (last_char a Hne) as (a' & e & Ea). unfold l1. rewrite Ea.
    replace (activity_key ++ " " ++ DQ ++ a' ++ String e EmptyString)
      with ((activity_key ++ " " ++ DQ ++ a') ++ String e EmptyString)
      by (by rewrite !append_assoc).
    rewrite endswith_split by done.
    rewrite Ea, all_chars_app in Ha_dq. apply andb_true_iff in Ha_dq as [_ He].
    cbn [all_chars] in He. rewrite andb_true_r in He. apply negb_true_iff in He.
    unfold DQ. cbn [String.eqb]. by rewrite He. }
  rewrite He1. cbn [andb].
  assert (Hc1 : strip (after activity_key l1) = DQ ++ a).
  { unfold l1. rewrite after_here by done. unfold strip.
    change (lstrip (" " ++ DQ ++ a)) with (DQ ++ a). by apply rstrip_fixed. }
  rewrite Hc1. unfold startswith. rewrite prefix_append.
  change (drop 1 (DQ ++ a)) with a.
  (* the line that closes it *)
  unfold line_step. rewrite Hs2. unfold l2 at 1. rewrite contains_key_free by done.
  assert (He2 : endswith DQ l2 = true).
  { unfold l2. rewrite endswith_split by done. reflexivity. }
  assert (He3 : endswith (BS ++ DQ) l2 = false).
  { unfold l2. destruct b as [|c b'] eqn:Eb; [reflexivity|].
    destruct (last_char (String c b') eq_refl) as (b0 & e & Eb0). rewrite Eb0.
    rewrite append_assoc, endswith_split by done.
    rewrite Eb0, all_chars_app in Hb. apply andb_true_iff in Hb as [_ He].
    cbn [all_chars] in He. rewrite andb_true_r in He.
    apply andb_true_iff in He as [_ He]. apply negb_true_iff in He.
    unfold BS, DQ. rewrite !append_cons, append_nil_l. cbn [String.eqb].
    by rewrite (Ascii.eqb_sym "\" e), He. }
  rewrite He2, He3. cbn [andb negb app]. unfold l2, DQ at 3. rewrite drop_last_app.
  unfold DQ at 2. rewrite (replace_absent dq EmptyString).
  2:{ by rewrite !all_chars_app, Ha_dq, Hb_dq. }
  unfold NL at 1. rewrite (replace_absent nl EmptyString).
  2:{ rewrite !all_chars_app. cbn [all_chars].
      assert (Hflip : forall s, all_chars not_nl s = true ->
                                all_chars (fun c => negb (Ascii.eqb nl c)) s = true).
      { intros s. apply all_chars_impl. intros c H. unfold not_nl in H.
        by rewrite Ascii.eqb_sym. }
      by rewrite (Hflip a Ha_nl), (Hflip b Hb_nl). }
  cbn [join String.concat]. by rewrite !append_assoc.
Qed.

Lemma sanitize_line_by_line_loses_key_witness :
  sanitize_line_by_line ((activity_key ++ " " ++ DQ ++ "1. a") ++ NL ++ ("2. b" ++ DQ))
  = "1. a" ++ " " ++ "2. b" ++ DQ.
Proof.
  exact (sanitize_line_by_line_loses_key "1. a" "2. b"
           eq_refl eq_refl eq_refl eq_refl eq_refl).
Defined.

(** ** The activity normaliser: characters *)

Section Chars.

Variable p : ascii -> bool.
Hypothesis p_nl : p nl = true.
Hypothesis p_space : p " "%char = true.
Hypothesis p_dot : p "."%char = true.
Hypothesis p_digit : forall c, is_digit c = true -> p c = true.

Lemma all_chars_tails_inv ls :
  all_chars p (tails ls) = true -> forallb (all_chars p) ls = true.
Proof.
  induction ls as [|l r IH]; [done|]. cbn [tails forallb].
  rewrite NL_app. cbn [all_chars]. rewrite all_chars_app.
  intros [_ [Hl Hr]%andb_true_iff]%andb_true_iff. rewrite Hl. auto.
Qed.

Lemma all_chars_lines s :
  all_chars p s = true -> forallb (all_chars p) (lines s) = true.
Proof.
  destruct (lines_spec s) as (l & r & -> & Hs & _). rewrite Hs at 1.
  rewrite all_chars_app. intros [Hl Hr]%andb_true_iff.
  cbn [forallb]. rewrite Hl. by apply all_chars_tails_inv.
Qed.

Lemma all_chars_stripped_lines s :
  all_chars p s = true -> forallb (all_chars p) (stripped_lines s) = true.
Proof.
  intros H. apply all_chars_lines in H. unfold stripped_lines.
  induction (lines s) as [|x xs IH]; [done|].
  cbn [forallb] in H. apply andb_true_iff in H as [Hx Hxs].
  cbn [List.map List.filter]. destruct (nonempty (strip x)); [|auto].
  cbn [forallb]. rewrite all_chars_strip by done. auto.
Qed.

Lemma all_chars_process_lines ls i acc :
  forallb (all_chars p) ls = true -> all_chars p acc = true ->
  all_chars p (process_lines i ls acc) = true.
Proof.
  revert i acc. induction ls as [|l r IH]; intros i acc Hls Hacc; [done|].
  cbn [forallb] in Hls. apply andb_true_iff in Hls as [Hl Hr].
  rewrite process_lines_cons. apply IH; [done|].
  pose proof (all_chars_strip p l Hl) as Hs.
  destruct (nonempty (strip l)); [|done].
  assert (HNL : all_chars p NL = true) by (unfold NL; cbn [all_chars]; by rewrite p_nl).
  assert (Hsp : all_chars p " " = true) by (cbn [all_chars]; by rewrite p_space).
  destruct (bare_number (strip l)), (starts_numbered (strip l) && (0 <? i)%nat);
    by rewrite ?all_chars_app, ?Hacc, ?Hs, ?HNL, ?Hsp.
Qed.

Lemma all_chars_fold_pass ms acc :
  forallb (fun m => nonempty m && all_chars p m) ms = true ->
  all_chars p acc = true ->
  all_chars p (List.fold_left pass ms acc) = true.
Proof.
  revert acc. induction ms as [|m ms IH]; intros acc Hms Hacc; [done|].
  cbn [forallb] in Hms. apply andb_true_iff in Hms as [[Hne Hm]%andb_true_iff Hms].
  cbn [List.fold_left]. apply IH; [done|]. unfold pass.
  apply all_chars_replace; [done| |done].
  rewrite NL_app. cbn [all_chars]. by rewrite p_nl, Hm.
Qed.

Lemma all_chars_lstrip_nl s : all_chars p s = true -> all_chars p (lstrip_nl s) = true.
Proof.
  induction s as [|c s IH]; [done|]. cbn [all_chars lstrip_nl].
  intros [Hc Hs]%andb_true_iff. destruct (Ascii.eqb c nl); [auto|].
  cbn [all_chars]. by rewrite Hc, Hs.
Qed.

Lemma all_chars_merge_fold ls merged current :
  forallb (all_chars p) ls = true ->
  forallb (all_chars p) merged = true ->
  all_chars p current = true ->
  let st := List.fold_left merge_step ls (merged, current) in
  forallb (all_chars p) (fst st) = true /\ all_chars p (snd st) = true.
Proof.
  revert merged current. induction ls as [|l r IH]; intros merged current Hls Hm Hc; [done|].
  cbn [forallb] in Hls. apply andb_true_iff in Hls as [Hl Hr].
  cbn [List.fold_left merge_step].
  destruct (starts_numbered l).
  - apply IH; [done| |done].
    destruct (nonempty current); [|done].
    rewrite forallb_app, Hm. cbn [forallb]. by rewrite Hc.
  - apply IH; [done|done|].
    destruct (nonempty current); [|done].
    rewrite !all_chars_app, Hc, Hl. cbn [all_chars]. by rewrite p_space.
Qed.

Lemma all_chars_merge_lines ls :
  forallb (all_chars p) ls = true -> forallb (all_chars p) (merge_lines ls) = true.
Proof.
  intros H. unfold merge_lines.
  pose proof (all_chars_merge_fold ls [] EmptyString H eq_refl eq_refl) as [Hm Hc].
  destruct (List.fold_left merge_step ls ([], EmptyString)) as [merged current].
  cbn [fst snd] in *. destruct (nonempty current); [|done].
  rewrite forallb_app, Hm. cbn [forallb]. by rewrite Hc.
Qed.

Lemma all_chars_number_fold ls numbered counter :
  forallb (all_chars p) ls = true ->
  forallb (all_chars p) numbered = true ->
  forallb (all_chars p) (fst (List.fold_left number_step ls (numbered, counter))) = true.
Proof.
  revert numbered counter. induction ls as [|l r IH]; intros numbered counter Hls Hn; [done|].
  cbn [forallb] in Hls. apply andb_true_iff in Hls as [Hl Hr].
  cbn [List.fold_left number_step].
  destruct (starts_numbered l); apply IH; try done.
  - rewrite forallb_app, Hn. cbn [forallb]. by rewrite Hl.
  - rewrite forallb_app, Hn. cbn [forallb].
    rewrite !all_chars_app, Hl. cbn [all_chars]. rewrite p_dot, p_space.
    destruct (dec_digits counter) as [Hd _].
    by rewrite (all_chars_impl _ _ _ p_digit Hd).
Qed.

Lemma all_chars_join ls :
  forallb (all_chars p) ls = true -> all_chars p (join NL ls) = true.
Proof.
  destruct ls as [|l r]; [done|]. cbn [forallb]. intros [Hl Hr]%andb_true_iff.
  rewrite join_tails, all_chars_app, Hl. by apply all_chars_tails.
Qed.

Lemma all_chars_format_valid a :
  forallb (fun m => nonempty m && all_chars p m) markers = true ->
  all_chars p a = true -> all_chars p (format_valid a) = true.
Proof.
  intros Hms H. unfold format_valid.
  apply all_chars_lstrip_nl, all_chars_replace; [done|by cbn; rewrite p_nl|].
  rewrite split_markers_fold. apply all_chars_fold_pass; [done|].
  apply all_chars_process_lines; [by apply all_chars_lines|done].
Qed.

Lemma all_chars_format_invalid a :
  all_chars p a = true -> all_chars p (format_invalid a) = true.
Proof.
  intros H. unfold format_invalid, number_lines.
  apply all_chars_join, all_chars_number_fold; [|done].
  by apply all_chars_merge_lines, all_chars_stripped_lines.
Qed.

End Chars.

Lemma digit_text c : is_digit c = true -> text_char c = true.
Proof.
  destruct c as [[] [] [] [] [] [] [] []]; (discriminate || reflexivity).
Qed.

Lemma format_text_clean s : all_chars text_char (format_text s) = true.
Proof.
  unfold format_text. pose proof (clean_activity_text s) as H.
  destruct (validate_activity_format (clean_activity s)).
  - apply all_chars_format_valid; (done || apply digit_text).
  - apply all_chars_format_invalid; (done || apply digit_text).
Qed.

(** X11. Whatever value it is given, [format_activity] returns a text with
    no carriage return and no control character other than the newline. *)
Theorem format_activity_clean (py_str : json -> string) (activity : json) :
  all_chars text_char (format_activity py_str activity) = true.
Proof. apply format_text_clean. Qed.

(** X12. After post-validation no [practice] of the roadmap holds a carriage
    return or a control character other than the newline. *)
Theorem validated_practice_clean
  (store : gmap nat MonthlyRoadmap) (l : nat) (roadmap : MonthlyRoadmap) :
  store !! l = Some roadmap ->
  exists roadmap',
    fst (validate_monthly_roadmap store (Some l)) !! l = Some roadmap' /\
    Forall (fun week =>
              Forall (fun task => all_chars text_char (practice task) = true)
                     (tasks week))
           (weeks roadmap').
Proof.
  intros Hl. exists (validated roadmap).
  cbn [validate_monthly_roadmap fst]. rewrite lookup_alter_eq, Hl. split; [done|].
  rewrite weeks_validated.
  apply Forall_forall. intros w [w0 [<- Hw0]]%list_elem_of_In%in_map_iff.
  apply Forall_forall. intros t [t0 [<- Ht0]]%list_elem_of_In%in_map_iff.
  unfold format_task. destruct (nonempty (practice t0)) eqn:E.
  - apply format_text_clean.
  - by destruct (practice t0).
Qed.

Lemma validated_practice_clean_witness :
  exists roadmap',
    fst (validate_monthly_roadmap {[ 7%nat := sample_month 10 ["a"] ]} (Some 7%nat))
      !! 7%nat = Some roadmap' /\
    Forall (fun week =>
              Forall (fun task => all_chars text_char (practice task) = true)
                     (tasks week))
           (weeks roadmap').
Proof.
  exact (validated_practice_clean {[ 7%nat := sample_month 10 ["a"] ]} 7
           (sample_month 10 ["a"]) (lookup_singleton_eq _ _)).
Defined.

(** ** The activity normaliser: its output and the validator *)

Lemma digit_not_space c : is_digit c = true -> is_space c = false.
Proof.
  destruct c as [[] [] [] [] [] [] [] []]; (discriminate || reflexivity).
Qed.

Lemma drop_digits_split s :
  exists ds, s = ds ++ drop_digits s /\ all_chars is_digit ds = true.
Proof.
  induction s as [|c s (ds & Hs & Hds)]; [by exists EmptyString|].
  cbn [drop_digits]. destruct (is_digit c) eqn:E.
  - exists (String c ds). rewrite append_cons, <- Hs. cbn [all_chars]. by rewrite E.
  - by exists EmptyString.
Qed.

Lemma starts_numbered_strip l :
  starts_numbered l = true ->
  starts_numbered (strip l) = true /\ nonempty (strip l) = true.
Proof.
  intros H.
  assert (Hs : starts_numbered (strip l) = true).
  { unfold starts_numbered, after_number in H.
    destruct l as [|c l]; [discriminate|].
    destruct (is_digit c) eqn:Hc; [|discriminate].
    destruct (drop_digits_split l) as (ds & Hl & Hds).
    destruct (drop_digits l) as [|d r]; [discriminate|].
    destruct (Ascii.eqb d ".") eqn:Hd; [|discriminate].
    apply Ascii.eqb_eq in Hd as ->.
    unfold strip. cbn [lstrip]. rewrite (digit_not_space c Hc), Hl.
    rewrite <- append_cons, rstrip_keeps by done.
    rewrite append_cons. unfold starts_numbered, after_number. rewrite Hc.
    rewrite drop_digits_app by done. reflexivity. }
  split; [done|]. by destruct (strip l).
Qed.

Lemma stripped_numbered ls :
  forallb starts_numbered ls = true ->
  List.filter nonempty (List.map strip ls) = List.map strip ls /\
  forallb starts_numbered (List.map strip ls) = true.
Proof.
  induction ls as [|l ls IH]; [done|]. cbn [forallb List.map List.filter].
  intros [Hl Hls]%andb_true_iff. destruct (IH Hls) as [IH1 IH2].
  destruct (starts_numbered_strip l Hl) as [H1 H2].
  by rewrite H2, IH1, H1, IH2.
Qed.

(** A text all of whose lines open with a number and a dot passes the
    validator. *)
Lemma validate_numbered_lines out :
  forallb starts_numbered (lines out) = true -> validate_activity_format out = true.
Proof.
  intros H. unfold validate_activity_format, stripped_lines.
  assert (Hne : nonempty out = true) by (destruct out; [discriminate H|done]).
  destruct (stripped_numbered _ H) as [-> Hn].
  destruct (lines_spec out) as (l & r & E & _ & _). rewrite E in *.
  cbn [List.map] in *. by rewrite Hn, Hne.
Qed.

(** X13. What [format_activity] returns needs no cleanup; for a text that
    fails the validator it passes the validator, unless it is empty, and
    so does what it returns for a text that passes, when no marker of the
    loop sits right behind a digit. A second call on it therefore takes
    the already-formatted branch. *)
Theorem format_activity_accepted (py_str : json -> string) (activity : json) :
  let text := clean_activity (coerce_activity py_str activity) in
  let out := format_activity py_str activity in
  clean_activity out = out
  /\ (validate_activity_format text = false -> out <> EmptyString ->
      validate_activity_format out = true)
  /\ (validate_activity_format text = true ->
      slip_free (process_lines 0 (lines text) EmptyString) = true ->
      validate_activity_format out = true).
Proof.
  cbn zeta. split.
  { pose proof (format_text_clean (coerce_activity py_str activity)) as H.
    unfold format_activity, clean_activity.
    by rewrite normalize_newlines_text, remove_ctrl_text. }
  unfold format_activity, format_text.
  fold (clean_activity (coerce_activity py_str activity)).
  set (a := clean_activity (coerce_activity py_str activity)).
  split.
  - intros -> Hne. destruct (format_invalid_shape a) as [H|H]; [done|].
    by apply validate_numbered_lines.
  - intros Hv Hslip. rewrite Hv.
    by apply validate_numbered_lines, nsteps_lines, format_valid_numbered.
Qed.

Lemma format_activity_accepted_witness :
  validate_activity_format (format_activity no_render (JStr repair_input)) = true
  /\ validate_activity_format
       (format_activity no_render (JStr ("1. warm up 2. stretch"))) = true.
Proof.
  split.
  - apply (proj1 (proj2 (format_activity_accepted no_render (JStr repair_input))));
      [reflexivity|discriminate].
  - apply (proj2 (proj2 (format_activity_accepted no_render (JStr "1. warm up 2. stretch"))));
      reflexivity.
Defined.

(** ** The activity normaliser: what happens to the text *)

Lemma drop_digits_app_gen s t :
  drop_digits (s ++ t)
  = match drop_digits s with
    | EmptyString => drop_digits t
    | String d r => String d (r ++ t)
    end.
Proof.
  induction s as [|c s IH]; [done|]. rewrite append_cons. cbn [drop_digits].
  destruct (is_digit c); [exact IH|done].
Qed.

Lemma starts_numbered_false_app l t :
  starts_numbered l = false -> starts_numbered (l ++ String " " t) = false.
Proof.
  unfold starts_numbered, after_number. destruct l as [|c l]; [done|].
  rewrite append_cons. destruct (is_digit c); [|done].
  rewrite drop_digits_app_gen. destruct (drop_digits l) as [|d r]; [done|].
  by destruct (Ascii.eqb d ".").
Qed.

Lemma join_cons sep x y r : join sep (x :: y :: r) = x ++ sep ++ join sep (y :: r).
Proof. reflexivity. Qed.

Lemma join_glue sep x y r :
  join sep ((x ++ sep ++ y) :: r) = x ++ sep ++ join sep (y :: r).
Proof.
  destruct r as [|z r]; [done|]. by rewrite !join_cons, !append_assoc.
Qed.

Lemma merge_fold_unnumbered ls merged current :
  forallb (fun x => negb (starts_numbered x)) ls = true ->
  nonempty current = true ->
  List.fold_left merge_step ls (merged, current) = (merged, join " " (current :: ls)).
Proof.
  revert current. induction ls as [|l ls IH]; intros current Hls Hc; [done|].
  cbn [forallb] in Hls. apply andb_true_iff in Hls as [Hl Hls].
  apply negb_true_iff in Hl. cbn [List.fold_left merge_step]. rewrite Hl, Hc.
  rewrite IH; [|done|by destruct current]. by rewrite join_glue.
Qed.

Lemma stripped_lines_nonempty a : forallb nonempty (stripped_lines a) = true.
Proof.
  unfold stripped_lines. induction (List.map strip (lines a)) as [|x xs IH]; [done|].
  cbn [List.filter]. destruct (nonempty x) eqn:E; [|done]. cbn [forallb]. by rewrite E.
Qed.

Lemma starts_numbered_join l ls :
  starts_numbered l = false -> starts_numbered (join " " (l :: ls)) = false.
Proof.
  destruct ls as [|x r]; [done|]. rewrite join_cons. apply starts_numbered_false_app.
Qed.

(** X14. A text none of whose lines opens with a number becomes one step,
    numbered 1, that holds its non-blank lines, stripped and separated by
    single spaces. *)
Theorem format_activity_unnumbered (py_str : json -> string) (activity : json)
  (l : string) (ls : list string) :
  stripped_lines (clean_activity (coerce_activity py_str activity)) = l :: ls ->
  forallb (fun x => negb (starts_numbered x)) (l :: ls) = true ->
  format_activity py_str activity = "1. " ++ join " " (l :: ls).
Proof.
  intros E Hn. unfold format_activity, format_text.
  fold (clean_activity (coerce_activity py_str activity)).
  set (a := clean_activity (coerce_activity py_str activity)) in *.
  pose proof (stripped_lines_nonempty a) as Hne. rewrite E in Hne.
  cbn [forallb] in Hn, Hne.
  apply andb_true_iff in Hn as [Hl Hls]. apply andb_true_iff in Hne as [Hl' _].
  apply negb_true_iff in Hl.
  unfold validate_activity_format. rewrite E. cbn [forallb]. rewrite Hl.
  rewrite andb_false_r.
  unfold format_invalid, merge_lines. rewrite E.
  cbn [List.fold_left merge_step]. rewrite Hl. cbn [nonempty].
  rewrite merge_fold_unnumbered by done.
  assert (Hj : nonempty (join " " (l :: ls)) = true).
  { destruct ls; [done|]. rewrite join_cons. by destruct l. }
  rewrite Hj. cbn [app]. unfold number_lines. cbn [List.fold_left number_step].
  by rewrite (starts_numbered_join l ls Hl).
Qed.

Lemma format_activity_unnumbered_witness :
  format_activity no_render (JStr ("read the book" ++ NL ++ "  take notes "))
  = "1. " ++ join " " ["read the book"; "take notes"].
Proof.
  exact (format_activity_unnumbered no_render
           (JStr ("read the book" ++ NL ++ "  take notes "))
           "read the book" ["take notes"] eq_refl eq_refl).
Defined.

Lemma filter_chars_app q s t :
  filter_chars q (s ++ t) = filter_chars q s ++ filter_chars q t.
Proof.
  induction s as [|c s IH]; [done|]. rewrite append_cons. cbn [filter_chars].
  destruct (q c); by rewrite IH.
Qed.

(** A replacement by a text with the same kept characters as the
    pattern changes no kept character. *)
Lemma filter_replace_from q a o new k s :
  filter_chars q new = filter_chars q (String a o) ->
  filter_chars q (replace_from (String a o) new k s) = filter_chars q (drop k s).
Proof.
  intros Hnew. revert k. induction s as [|c s IH]; intros k; [by destruct k|].
  cbn [replace_from]. destruct k as [|k]; [|apply IH].
  destruct (String.prefix (String a o) (String c s)) eqn:E.
  - rewrite filter_chars_app, Hnew, IH.
    change (drop 0 (String c s)) with (String c s).
    transitivity (filter_chars q (String a o ++ drop (String.length (String a o)) (String c s)));
      [|by rewrite <- (prefix_true _ _ E)].
    rewrite filter_chars_app. cbn [String.length drop].
    by replace (S (String.length o) - 1)%nat with (String.length o) by lia.
  - cbn [filter_chars drop]. by rewrite (IH 0%nat).
Qed.

Lemma filter_replace q a o new s :
  filter_chars q new = filter_chars q (String a o) ->
  filter_chars q (replace (String a o) new s) = filter_chars q s.
Proof. intros H. unfold replace. by rewrite filter_replace_from. Qed.

Lemma filter_fold_pass ms acc :
  forallb nonempty ms = true ->
  filter_chars not_nl (List.fold_left pass ms acc) = filter_chars not_nl acc.
Proof.
  revert acc. induction ms as [|m ms IH]; intros acc H; [done|].
  cbn [forallb] in H. apply andb_true_iff in H as [Hm Hms].
  cbn [List.fold_left]. rewrite IH by done. unfold pass.
  destruct m as [|a o]; [discriminate|]. by apply filter_replace.
Qed.

Lemma filter_lstrip_nl s : filter_chars not_nl (lstrip_nl s) = filter_chars not_nl s.
Proof.
  induction s as [|c s IH]; [done|]. cbn [lstrip_nl].
  destruct (Ascii.eqb c nl) eqn:E; [|done].
  rewrite IH. cbn [filter_chars]. unfold not_nl at 2. by rewrite E.
Qed.

Lemma filter_process_lines ls i acc :
  forallb (all_chars not_nl) ls = true ->
  filter_chars not_nl (process_lines i ls acc)
  = filter_chars not_nl acc
    ++ join EmptyString
         (List.map (fun s => if bare_number s then s ++ " " else s)
                   (List.filter nonempty (List.map strip ls))).
Proof.
  revert i acc. induction ls as [|l r IH]; intros i acc H.
  - cbn [process_lines List.map List.filter join String.concat]. by rewrite append_nil_r.
  - cbn [forallb] in H. apply andb_true_iff in H as [Hl Hr].
    rewrite process_lines_cons, IH by done. cbn [List.map List.filter].
    pose proof (filter_chars_all _ _ (all_chars_strip _ _ Hl)) as Hs.
    destruct (nonempty (strip l)); [|done]. cbn [List.map].
    set (rest := List.map _ (List.filter nonempty (List.map strip r))).
    assert (Hj : forall x, join EmptyString (x :: rest) = x ++ join EmptyString rest).
    { intros x. destruct rest; [by rewrite append_nil_r|done]. }
    rewrite Hj.
    destruct (bare_number (strip l)), (starts_numbered (strip l) && (0 <? i)%nat);
      rewrite !filter_chars_app, ?Hs, ?append_assoc; reflexivity.
Qed.

(** X15. The already-formatted branch only moves line breaks: without its
    newlines, what it returns is the non-blank lines of the text, each
    stripped and a bare number followed by a space, one after the other. *)
Theorem format_activity_keeps_text (py_str : json -> string) (activity : json) :
  let text := clean_activity (coerce_activity py_str activity) in
  validate_activity_format text = true ->
  filter_chars not_nl (format_activity py_str activity)
  = join EmptyString
      (List.map (fun s => if bare_number s then s ++ " " else s) (stripped_lines text)).
Proof.
  cbn zeta. intros Hv. unfold format_activity, format_text.
  fold (clean_activity (coerce_activity py_str activity)).
  set (a := clean_activity (coerce_activity py_str activity)) in *.
  rewrite Hv. unfold format_valid.
  rewrite filter_lstrip_nl.
  rewrite (filter_replace not_nl nl NL NL) by reflexivity.
  rewrite split_markers_fold, filter_fold_pass by reflexivity.
  destruct (lines_spec a) as (l & r & E & _ & Hplain).
  unfold stripped_lines. rewrite E.
  by rewrite filter_process_lines.
Qed.

Lemma format_activity_keeps_text_witness :
  filter_chars not_nl (format_activity no_render (JStr "1. warm up 2. stretch"))
  = "1. warm up 2. stretch".
Proof.
  exact (format_activity_keeps_text no_render (JStr "1. warm up 2. stretch") eq_refl).
Defined.

Lemma merge_fold_current ls merged current :
  forallb nonempty ls = true ->
  nonempty current = true \/ ls <> [] ->
  nonempty (snd (List.fold_left merge_step ls (merged, current))) = true.
Proof.
  revert merged current. induction ls as [|l ls IH]; intros merged current Hls Hc.
  - by destruct Hc.
  - cbn [forallb] in Hls. apply andb_true_iff in Hls as [Hl Hls].
    cbn [List.fold_left merge_step].
    destruct (starts_numbered l); apply IH; try done; left; [done|].
    destruct (nonempty current) eqn:E; [by destruct current|done].
Qed.

Lemma merge_lines_cons l ls :
  forallb nonempty (l :: ls) = true -> merge_lines (l :: ls) <> [].
Proof.
  intros H. unfold merge_lines.
  assert (Hc : nonempty (snd (List.fold_left merge_step (l :: ls) ([], EmptyString))) = true)
    by (apply merge_fold_current; [exact H|by right]).
  destruct (List.fold_left merge_step (l :: ls) ([], EmptyString)) as [merged current].
  cbn [snd] in Hc. rewrite Hc. by destruct merged.
Qed.

Lemma number_fold_length ls numbered counter :
  List.length (fst (List.fold_left number_step ls (numbered, counter)))
  = (List.length numbered + List.length ls)%nat.
Proof.
  revert numbered counter. induction ls as [|l ls IH]; intros numbered counter.
  - cbn. lia.
  - cbn [List.fold_left number_step].
    destruct (starts_numbered l); rewrite IH, length_app; cbn [List.length]; lia.
Qed.

(** X16. [format_activity] returns the empty text for a text without a
    non-blank line, and for no other. *)
Theorem format_activity_empty (py_str : json -> string) (activity : json) :
  format_activity py_str activity = EmptyString
  <-> stripped_lines (clean_activity (coerce_activity py_str activity)) = [].
Proof.
  unfold format_activity, format_text.
  fold (clean_activity (coerce_activity py_str activity)).
  set (a := clean_activity (coerce_activity py_str activity)).
  destruct (validate_activity_format a) eqn:Hv.
  - pose proof (steps_ok_lines _ (format_valid_steps a Hv)) as H.
    unfold validate_activity_format in Hv.
    split.
    + intros E. rewrite E in H. discriminate.
    + intros E. rewrite E, andb_false_r in Hv. discriminate.
  - split.
    + intros E. destruct (stripped_lines a) as [|l ls] eqn:Es; [done|exfalso].
      pose proof (stripped_lines_nonempty a) as Hne. rewrite Es in Hne.
      pose proof (merge_lines_cons l ls Hne) as Hm.
      unfold format_invalid in E. rewrite Es in E.
      pose proof (stripped_lines_plain a) as Hplain. rewrite Es in Hplain.
      pose proof (number_fold (merge_lines (l :: ls)) [] 1
                    (merge_lines_plain _ Hplain) eq_refl) as Hn.
      pose proof (number_fold_length (merge_lines (l :: ls)) [] 1) as Hlen.
      fold (number_lines (merge_lines (l :: ls))) in Hn, Hlen.
      destruct (number_lines (merge_lines (l :: ls))) as [|x r].
      * destruct (merge_lines (l :: ls)); [done|]. cbn in Hlen. lia.
      * rewrite join_tails in E. cbn [forallb] in Hn.
        apply andb_true_iff in Hn as [[_ Hx]%andb_true_iff _].
        destruct x; discriminate.
    + intros E. unfold format_invalid. by rewrite E.
Qed.

(** ** The walker: fields that are required and fields that are read *)

Section WalkerFields.

Context {pyd : Pydantic}.
Variable py_str : json -> string.
Variable web_search : string -> string -> Z -> list json.

Lemma require_fields_agree fields items items' what :
  Forall (fun field => is_Some (assoc field items) <-> is_Some (assoc field items')) fields ->
  require_fields fields (JObj items) what = require_fields fields (JObj items') what.
Proof.
  induction 1 as [|f fs Hf Hfs IH]; [done|]. cbn [require_fields py_in bind].
  destruct (assoc f items) as [v|], (assoc f items') as [v'|]; try done.
  - destruct (proj1 Hf ltac:(eauto)) as [? [=]].
  - destruct (proj2 Hf ltac:(eauto)) as [? [=]].
Qed.

Lemma is_Some_agree (o o' : option json) : o = o' -> is_Some o <-> is_Some o'.
Proof. by intros ->. Qed.

End WalkerFields.

(** X17. A quest must have a [task_type] and a week a [theme], but neither
    is read: two quests that agree on the four other fields give the same
    task or the same failure, and two weeks that agree on [week_number]
    and [quests] give the same plan or the same failure. *)
Theorem unread_fields (pyd : Pydantic) (py_str : json -> string)
  (web_search : string -> string -> Z -> list json) (current_month : Z)
  (items items' : list (string * json)) :
  (is_Some (assoc "task_type" items) -> is_Some (assoc "task_type" items') ->
   assoc "task_name" items = assoc "task_name" items' ->
   assoc "time_slot" items = assoc "time_slot" items' ->
   assoc "time_commitment" items = assoc "time_commitment" items' ->
   assoc "activity" items = assoc "activity" items' ->
   process_quest py_str web_search (JObj items) current_month
   = process_quest py_str web_search (JObj items') current_month)
  /\ (is_Some (assoc "theme" items) -> is_Some (assoc "theme" items') ->
      assoc "week_number" items = assoc "week_number" items' ->
      assoc "quests" items = assoc "quests" items' ->
      process_week py_str web_search (JObj items) current_month
      = process_week py_str web_search (JObj items') current_month).
Proof.
  split.
  - intros Ht Ht' Hn Hs Hc Ha. unfold process_quest.
    rewrite (require_fields_agree required_task_fields items items').
    + cbn [py_getitem]. by rewrite Hn, Hs, Hc, Ha.
    + unfold required_task_fields.
      repeat (constructor; [first [by split|by apply is_Some_agree]|]). constructor.
  - intros Ht Ht' Hn Hq. unfold process_week.
    rewrite (require_fields_agree required_week_fields items items').
    + cbn [py_getitem]. by rewrite Hn, Hq.
    + unfold required_week_fields.
      repeat (constructor; [first [by split|by apply is_Some_agree]|]). constructor.
Qed.

Lemma unread_fields_witness :
  process_week (pyd := strict_pydantic) no_render no_results
    (JObj [("week_number", JInt 3); ("theme", JStr "Basics"); ("quests", JArr [sample_quest])]) 1
  = process_week (pyd := strict_pydantic) no_render no_results
      (JObj [("theme", JNull); ("week_number", JInt 3); ("quests", JArr [sample_quest])]) 1.
Proof.
  apply (proj2 (unread_fields strict_pydantic no_render no_results 1
                  [("week_number", JInt 3); ("theme", JStr "Basics");
                   ("quests", JArr [sample_quest])]
                  [("theme", JNull); ("week_number", JInt 3);
                   ("quests", JArr [sample_quest])]));
    (reflexivity || (eexists; reflexivity)).
Defined.

(** ** The generator: what a month's roadmap carries *)

Lemma persona_type_validated r : persona_type (validated r) = persona_type r.
Proof. unfold validated. destruct (weeks r); reflexivity. Qed.

Lemma user_id_validated r : user_id (validated r) = user_id r.
Proof. unfold validated. destruct (weeks r); reflexivity. Qed.

Lemma duration_months_validated r : duration_months (validated r) = duration_months r.
Proof. unfold validated. destruct (weeks r); reflexivity. Qed.

Lemma requested_month_validated r : requested_month (validated r) = requested_month r.
Proof. unfold validated. destruct (weeks r); reflexivity. Qed.

Lemma date_plus_ok d n d' : date_plus d n = Ok d' -> d' = (d + n)%Z.
Proof. unfold date_plus. destruct (_ && _); congruence. Qed.

Lemma build_roadmap_metadata (pyd : Pydantic) py_str web_search
  persona duration uid month start finish response_data roadmap :
  build_roadmap py_str web_search persona duration uid month start finish response_data
  = Ok roadmap ->
  user_id roadmap = uid /\ persona_type roadmap = persona /\
  duration_months roadmap = duration /\ requested_month roadmap = month /\
  start_date roadmap = start /\ end_date roadmap = finish /\ weeks roadmap <> [].
Proof.
  unfold build_roadmap.
  destruct (py_in "weeks" response_data) as [hw|]; [|discriminate]. cbn [bind].
  destruct (if hw then py_in "overall_goals" response_data else Ok false) as [hg|];
    [|discriminate]. cbn [bind].
  destruct (negb (hw && hg)); [discriminate|].
  destruct (py_getitem response_data "weeks") as [w|]; [|discriminate]. cbn [bind].
  destruct (py_iter w) as [ws|]; [|discriminate]. cbn [bind].
  destruct (omap _ ws) as [|p ps]; [discriminate|].
  destruct (py_get response_data "overall_goals" (JArr [])) as [g|]; [|discriminate].
  cbn [bind]. destruct (all_some _) as [goals|]; [|discriminate].
  intros [= <-].
  rewrite user_id_validated, persona_type_validated, duration_months_validated,
    requested_month_validated, start_date_validated, end_date_validated, weeks_validated.
  repeat split; done.
Qed.

Lemma generated_month_facts (pyd : Pydantic) (py_str : json -> string)
  (web_search : string -> string -> Z -> list json)
  (json_loads : string -> result json)
  (persona : string) (duration : Z) (uid : option string) (current_month today : Z)
  (response : result string) (roadmap : MonthlyRoadmap) :
  generate_weekly_roadmap py_str web_search json_loads persona duration uid
    current_month today response = Ok roadmap ->
  user_id roadmap = uid /\ persona_type roadmap = persona /\
  duration_months roadmap = duration /\ requested_month roadmap = current_month /\
  start_date roadmap = (today + (current_month - 1) * 30)%Z /\
  end_date roadmap = (today + current_month * 30)%Z /\
  weeks roadmap <> [].
Proof.
  unfold generate_weekly_roadmap.
  destruct (date_plus today ((current_month - 1) * 30)) as [start|] eqn:Hs; [|discriminate].
  cbn [bind]. destruct (date_plus start 30) as [finish|] eqn:Hf; [|discriminate].
  cbn [bind]. apply date_plus_ok in Hs, Hf.
  destruct (generate_content json_loads response) as [doc|]; [|discriminate].
  cbn [bind].
  destruct (build_roadmap _ _ _ _ _ _ _ _ _) as [r|] eqn:Hb; [|discriminate].
  intros [= <-]. apply build_roadmap_metadata in Hb.
  destruct Hb as (? & ? & ? & ? & ? & ? & ?). repeat split; try done; lia.
Qed.

(** X19. A month that is generated carries the request's persona, user and
    duration and the month asked for, whatever the reply says of them;
    it starts thirty days after the month before, ends thirty days later,
    and has at least one week. *)
Theorem generate_weekly_roadmap_metadata (pyd : Pydantic) (py_str : json -> string)
  (web_search : string -> string -> Z -> list json)
  (json_loads : string -> result json)
  (persona : string) (duration : Z) (uid : option string) (current_month today : Z)
  (response : result string) (roadmap : MonthlyRoadmap) :
  generate_weekly_roadmap py_str web_search json_loads persona duration uid
    current_month today response = Ok roadmap ->
  user_id roadmap = uid /\ persona_type roadmap = persona /\
  duration_months roadmap = duration /\ requested_month roadmap = current_month /\
  start_date roadmap = (today + (current_month - 1) * 30)%Z /\
  end_date roadmap = (today + current_month * 30)%Z /\
  weeks roadmap <> [].
Proof. apply generated_month_facts. Qed.

Lemma generate_weekly_roadmap_metadata_witness :
  exists roadmap,
    generate_weekly_roadmap (pyd := strict_pydantic) no_render no_results
      (fixed_loads (doc_of [sample_week 1] (JArr [JStr "a"])))
      "INTJ" 3 None 2 738000 (Ok "{}") = Ok roadmap /\
    start_date roadmap = 738030%Z /\ end_date roadmap = 738060%Z.
Proof.
  eexists. split; [reflexivity|].
  match goal with
  | |- start_date ?r = _ /\ _ =>
      destruct (generate_weekly_roadmap_metadata strict_pydantic no_render no_results
                  (fixed_loads (doc_of [sample_week 1] (JArr [JStr "a"])))
                  "INTJ" 3 None 2 738000 (Ok "{}") r eq_refl)
        as (_ & _ & _ & _ & Hs & He & _)
  end.
  split; [exact Hs|exact He].
Defined.

Lemma generated_month_errors (pyd : Pydantic) (py_str : json -> string)
  (web_search : string -> string -> Z -> list json)
  (json_loads : string -> result json)
  (persona : string) (duration : Z) (uid : option string) (current_month today : Z)
  (response : result string) (e : exn) :
  generate_weekly_roadmap py_str web_search json_loads persona duration uid
    current_month today response = Err e ->
  e = OverflowError
  \/ exists cause, e = Chained "Failed to generate weekly roadmap: " cause.
Proof.
  unfold generate_weekly_roadmap, date_plus.
  destruct (_ && _); cbn [bind]; [|intros [= <-]; by left].
  destruct (_ && _); cbn [bind]; [|intros [= <-]; by left].
  destruct (bind _ _); [discriminate|]. intros [= <-]. eauto.
Qed.

(** X20. A month that is not generated fails with the date overflow raised
    before the guarded block, or with one exception whose message opens
    with the words of the generator's handler. *)
Theorem generate_weekly_roadmap_failure (pyd : Pydantic) (py_str : json -> string)
  (web_search : string -> string -> Z -> list json)
  (json_loads : string -> result json)
  (persona : string) (duration : Z) (uid : option string) (current_month today : Z)
  (response : result string) (e : exn) :
  generate_weekly_roadmap py_str web_search json_loads persona duration uid
    current_month today response = Err e ->
  e = OverflowError
  \/ exists cause, e = Chained "Failed to generate weekly roadmap: " cause.
Proof. apply generated_month_errors. Qed.

Lemma generate_weekly_roadmap_failure_witness :
  exists cause,
    Chained "Failed to generate weekly roadmap: "
      (Chained "Failed to generate content: "
         (Chained "Failed to parse JSON response: "
            (ValueError "Failed to parse JSON after multiple attempts: "
               (JSONDecodeError "Expecting value"))))
    = Chained "Failed to generate weekly roadmap: " cause.
Proof.
  destruct (generate_weekly_roadmap_failure strict_pydantic no_render no_results null_loads
              "INTJ" 1 None 1 738000 (Ok "x") _ eq_refl) as [H|H];
    [discriminate H|exact H].
Defined.

(** ** The walker: quests *)






(** ** The search query: its form *)

Lemma length_truncated_practice py_str practice :
  (String.length (truncated_practice py_str practice) <= 100)%nat.
Proof.
  unfold truncated_practice.
  destruct practice; repeat (match goal with |- context [if ?b then _ else _] => destruct b end);
    try apply length_take_le; cbn; lia.
Qed.

Lemma length_difficulty_level current_month :
  (String.length (difficulty_level current_month) <= 12)%nat.
Proof.
  unfold difficulty_level.
  repeat (match goal with |- context [if ?b then _ else _] => destruct b end); cbn; lia.
Qed.

(** X21. For a task name that is a text the query is always the stripped
    text made of the first 80 characters of the name, a colon, the
    shortened practice and the level, and it has at most 195 characters:
    neither the fallback to the short form nor the cut at 390 characters
    ever applies. *)
Theorem search_query_form (py_str : json -> string) (task : string)
  (practice : json) (current_month : Z) :
  let first :=
    match practice with
    | JArr (first :: _) => first
    | JArr [] => JStr EmptyString
    | v => v
    end in
  let query :=
    strip (take 80 task ++ ": " ++ truncated_practice py_str first ++ " "
           ++ difficulty_level current_month) in
  search_query py_str (JStr task) practice current_month = Ok query
  /\ (String.length query <= 195)%nat.
Proof.
  cbn zeta. unfold search_query.
  set (first := match practice with
                | JArr (first :: _) => first
                | JArr [] => JStr EmptyString
                | v => v
                end).
  assert (Ht : truncated_task py_str (JStr task) = Ok (take 80 task)).
  { unfold truncated_task. by destruct task. }
  rewrite Ht. cbn [bind].
  pose proof (length_take_le 80 task) as H80.
  pose proof (length_truncated_practice py_str first) as H100.
  pose proof (length_difficulty_level current_month) as H12.
  pose proof (length_strip_le (take 80 task ++ " " ++ difficulty_level current_month)) as H1.
  pose proof (length_strip_le (take 80 task ++ ": " ++ truncated_practice py_str first ++ " "
                               ++ difficulty_level current_month)) as H2.
  rewrite !length_append in H1, H2. cbn [String.length] in H1, H2.
  rewrite !length_append in H2. cbn [String.length] in H2.
  replace (String.length (strip (take 80 task ++ " " ++ difficulty_level current_month))
           <? 300)%nat with true by (symmetry; apply Nat.ltb_lt; lia).
  replace (390 <? String.length
                    (strip (take 80 task ++ ": " ++ truncated_practice py_str first ++ " "
                            ++ difficulty_level current_month)))%nat
    with false by (symmetry; apply Nat.ltb_ge; lia).
  split; [done|lia].
Qed.

(** ** The search client *)

Lemma mapM_ok {A B} (f : A -> result B) l rs :
  mapM f l = Ok rs -> Forall2 (fun a b => f a = Ok b) l rs.
Proof.
  revert rs. induction l as [|a l IH]; intros rs; cbn [mapM].
  - intros [= <-]. constructor.
  - destruct (f a) as [b|] eqn:E; [|discriminate]. cbn [bind].
    destruct (mapM f l) as [bs|]; [|discriminate]. cbn [bind].
    intros [= <-]. constructor; auto.
Qed.

Lemma mapM_all {A B} (f : A -> result B) l :
  Forall (fun a => is_ok (f a) = true) l -> exists rs, mapM f l = Ok rs.
Proof.
  induction 1 as [|a l Ha _ [rs IH]]; [by exists []|]. cbn [mapM].
  destruct (f a) as [b|]; [|discriminate]. rewrite IH. cbn [bind]. eauto.
Qed.

Lemma mapM_some_fails {A B} (f : A -> result B) l :
  Exists (fun a => is_ok (f a) = false) l -> exists e, mapM f l = Err e.
Proof.
  induction 1 as [a l Ha|a l _ [e IH]]; cbn [mapM].
  - destruct (f a) as [b|e]; [discriminate|]. cbn [bind]. eauto.
  - destruct (f a) as [b|e']; cbn [bind]; [|eauto]. rewrite IH. cbn [bind]. eauto.
Qed.

Lemma make_resource_shape item resource :
  Tavily.make_resource item = Ok resource ->
  exists title url snippet,
    resource = JObj [("title", title); ("url", url); ("snippet", JStr snippet)] /\
    py_get item "url" (JStr EmptyString) = Ok url /\
    (String.length snippet <= 203)%nat /\ endswith "..." snippet = true.
Proof.
  unfold Tavily.make_resource.
  destruct (py_get item "title" _) as [title|]; [|discriminate]. cbn [bind].
  destruct (py_get item "url" _) as [url|]; [|discriminate]. cbn [bind].
  destruct (py_get item "content" _) as [content|]; [|discriminate]. cbn [bind].
  destruct content as [| | | |s| |]; try discriminate. cbn [Tavily.snippet_of bind].
  intros [= <-]. exists title, url, (take 200 s ++ "..."). repeat split.
  - rewrite length_append. pose proof (length_take_le 200 s). cbn [String.length]. lia.
  - unfold endswith. rewrite length_append. cbn [String.length].
    replace (String.length (take 200 s) + 3 - 3)%nat with (String.length (take 200 s)) by lia.
    replace (3 <=? String.length (take 200 s) + 3)%nat with true
      by (symmetry; apply Nat.leb_le; lia).
    cbn [andb]. generalize (take 200 s). intros t.
    induction t as [|c t IH]; [reflexivity|exact IH].
Qed.

Lemma extract_resource_info_cases search_results :
  Tavily.extract_resource_info search_results = []
  \/ exists results,
       mapM Tavily.make_resource results = Ok (Tavily.extract_resource_info search_results).
Proof.
  unfold Tavily.extract_resource_info.
  destruct (py_in "results" search_results) as [[|]|]; cbn [bind]; [|by left|by left].
  destruct (py_getitem search_results "results") as [v|]; cbn [bind]; [|by left].
  destruct (py_iter v) as [results|]; cbn [bind]; [|by left].
  destruct (mapM Tavily.make_resource results) as [rs|] eqn:E; [|by left].
  right. eauto.
Qed.

(** X22. Whatever it is given, [extract_resource_info] returns resources
    that each hold a title, a url and a snippet of at most 203 characters
    that ends in three dots; the projection on [url] that the generator
    applies to them never fails and gives one value for each. *)
Theorem extract_resource_info_shape (search_results : json) :
  Forall (fun resource =>
            exists title url snippet,
              resource = JObj [("title", title); ("url", url); ("snippet", JStr snippet)] /\
              (String.length snippet <= 203)%nat /\ endswith "..." snippet = true)
         (Tavily.extract_resource_info search_results)
  /\ Forall2 (fun resource url => py_getitem resource "url" = Ok url)
             (Tavily.extract_resource_info search_results)
             (Tavily.resource_urls (Tavily.extract_resource_info search_results)).
Proof.
  assert (H : Forall (fun resource =>
                        exists title url snippet,
                          resource = JObj [("title", title); ("url", url);
                                           ("snippet", JStr snippet)] /\
                          (String.length snippet <= 203)%nat /\
                          endswith "..." snippet = true)
                     (Tavily.extract_resource_info search_results)).
  { destruct (extract_resource_info_cases search_results) as [->|[results E]]; [constructor|].
    apply mapM_ok in E. induction E as [|item r items rs Hr _ IH]; constructor; [|done].
    destruct (make_resource_shape _ _ Hr) as (t & u & s & -> & _ & ? & ?). eauto 6. }
  split; [exact H|]. unfold Tavily.resource_urls.
  assert (Hall : Forall (fun r => is_ok (py_getitem r "url") = true)
                        (Tavily.extract_resource_info search_results)).
  { eapply Forall_impl; [exact H|]. by intros r (t & u & s & -> & _). }
  destruct (mapM_all _ _ Hall) as [urls E]. rewrite E. by apply mapM_ok.
Qed.

Lemma search_ok key client query depth n fields items :
  Tavily.key_set key = true ->
  client query (Tavily.valid_depth depth) n = Ok (JObj fields) ->
  assoc "results" fields = Some (JArr items) ->
  Tavily.search key client query depth n = JObj fields.
Proof.
  intros Hk Hc Hr. unfold Tavily.search. rewrite Hk, Hc. cbn [negb bind py_get].
  by rewrite Hr.
Qed.

(** X23. With a key set and a response whose [results] are a list, the
    search as the generator chains it gives the [url] of every result in
    order, the empty text standing for a missing one, when every result
    is a mapping whose [content], if it has one, is a text; one result
    that is not empties the whole list. *)
Theorem web_search_results (key : option string)
  (client : string -> string -> Z -> result json)
  (query depth : string) (n : Z) (fields : list (string * json)) (items : list json) :
  Tavily.key_set key = true ->
  client query (Tavily.valid_depth depth) n = Ok (JObj fields) ->
  assoc "results" fields = Some (JArr items) ->
  (Forall (fun item => is_ok (Tavily.make_resource item) = true) items ->
   Forall2 (fun item url => py_get item "url" (JStr EmptyString) = Ok url)
           items (Tavily.web_search key client query depth n))
  /\ (Exists (fun item => is_ok (Tavily.make_resource item) = false) items ->
      Tavily.web_search key client query depth n = []).
Proof.
  intros Hk Hc Hr. unfold Tavily.web_search.
  rewrite (search_ok _ _ _ _ _ _ _ Hk Hc Hr).
  unfold Tavily.extract_resource_info. cbn [py_in py_getitem]. rewrite Hr.
  cbn [bind py_iter]. split.
  - intros Hall. destruct (mapM_all _ _ Hall) as [rs E]. rewrite E.
    apply mapM_ok in E. unfold Tavily.resource_urls.
    assert (Hurls : mapM (fun r => py_getitem r "url") rs
                    = Ok (omap (fun r => absorbed (py_getitem r "url")) rs) /\
                    Forall2 (fun item url => py_get item "url" (JStr EmptyString) = Ok url)
                            items (omap (fun r => absorbed (py_getitem r "url")) rs)).
    { clear Hall Hr Hc.
      induction E as [|item r items' rs' Hr' _ [IH1 IH2]]; [split; [reflexivity|constructor]|].
      destruct (make_resource_shape _ _ Hr') as (t & u & s & -> & Hu & _).
      cbn [mapM omap]. rewrite IH1. cbn. split; [done|]. by constructor. }
    destruct Hurls as [-> H]. exact H.
  - intros Hex. destruct (mapM_some_fails _ _ Hex) as [e ->]. reflexivity.
Qed.

Lemma web_search_results_witness :
  Tavily.web_search (Some "k")
    (fun _ _ _ => Ok (JObj [("results", JArr [JObj [("title", JStr "t")]; JNull])]))
    "q" "basic" 3 = [].
Proof.
  apply (proj2 (web_search_results (Some "k")
                  (fun _ _ _ => Ok (JObj [("results", JArr [JObj [("title", JStr "t")]; JNull])]))
                  "q" "basic" 3 _ _ eq_refl eq_refl eq_refl)).
  apply Exists_cons_tl, Exists_cons_hd. reflexivity.
Defined.

(** X24. The search falls back to an answer without results when no key is
    set, when the provider raises, and when the response is no mapping or
    its [results] cannot be counted; what it returns is then always a
    mapping, from which the generator gets no url. The provider is only
    ever asked for one of the two depths, and the depth the generator
    asks for is passed on as it is. *)
Theorem search_fallback (key : option string)
  (client : string -> string -> Z -> result json)
  (query depth : string) (n : Z) :
  (Tavily.key_set key = false \/
   is_ok (let! response := client query (Tavily.valid_depth depth) n in
          let! results := py_get response "results" (JArr []) in
          Tavily.py_len results) = false ->
   Tavily.search key client query depth n = Tavily.empty_results /\
   Tavily.web_search key client query depth n = [])
  /\ (exists fields, Tavily.search key client query depth n = JObj fields)
  /\ (Tavily.valid_depth depth = "basic" \/ Tavily.valid_depth depth = "advanced")
  /\ (forall current_month : Z,
        Tavily.valid_depth (search_depth current_month) = search_depth current_month).
Proof.
  repeat split.
  - unfold Tavily.search. destruct H as [->|H]; [done|].
    destruct (Tavily.key_set key); [|done]. cbn [negb].
    destruct (client query (Tavily.valid_depth depth) n) as [response|]; [|done].
    cbn [bind] in *. destruct (py_get response "results" (JArr [])) as [results|]; [|done].
    cbn [bind] in *. by destruct (Tavily.py_len results).
  - unfold Tavily.web_search, Tavily.search. destruct H as [->|H]; [done|].
    destruct (Tavily.key_set key); [|done]. cbn [negb].
    destruct (client query (Tavily.valid_depth depth) n) as [response|]; [|done].
    cbn [bind] in *. destruct (py_get response "results" (JArr [])) as [results|]; [|done].
    cbn [bind] in *. by destruct (Tavily.py_len results).
  - unfold Tavily.search. destruct (Tavily.key_set key); cbn [negb]; [|by eexists].
    destruct (client query (Tavily.valid_depth depth) n) as [response|]; [|by eexists].
    cbn [bind]. destruct response; cbn [py_get bind]; try by eexists.
    destruct (Tavily.py_len _); by eexists.
  - unfold Tavily.valid_depth.
    destruct (String.eqb depth "basic") eqn:E1; [apply String.eqb_eq in E1; auto|].
    destruct (String.eqb depth "advanced") eqn:E2; [apply String.eqb_eq in E2; auto|].
    by left.
  - intros m. unfold search_depth. by destruct (m <=? 2)%Z.
Qed.

Lemma search_fallback_witness :
  Tavily.search None (fun _ _ _ => Ok JNull) "q" "deep" 3 = Tavily.empty_results /\
  Tavily.web_search None (fun _ _ _ => Ok JNull) "q" "deep" 3 = [].
Proof.
  exact (proj1 (search_fallback None (fun _ _ _ => Ok JNull) "q" "deep" 3)
           (or_introl eq_refl)).
Defined.

(** ** The request entry point: months and batches *)

Lemma map_seq_shift (a : Z) (n1 n2 s : nat) :
  List.map (fun k => (a + Z.of_nat k)%Z) (seq (s + n1) n2)
  = List.map (fun k => (a + Z.of_nat n1 + Z.of_nat k)%Z) (seq s n2).
Proof.
  revert s. induction n2 as [|n2 IH]; intros s; [done|].
  cbn [seq List.map]. f_equal; [lia|]. apply (IH (S s)).
Qed.

Lemma zrange_app a b c :
  (a <= b)%Z -> (b <= c)%Z ->
  (Endpoint.zrange a b ++ Endpoint.zrange b c)%list = Endpoint.zrange a c.
Proof.
  intros Hab Hbc. unfold Endpoint.zrange.
  replace (Z.to_nat (c - a)) with (Z.to_nat (b - a) + Z.to_nat (c - b))%nat by lia.
  rewrite seq_app, map_app. f_equal.
  rewrite (map_seq_shift a (Z.to_nat (b - a)) (Z.to_nat (c - b)) 0).
  apply map_ext. intros k. lia.
Qed.

Lemma zrange_nil a b : (b <= a)%Z -> Endpoint.zrange a b = [].
Proof.
  intros H. unfold Endpoint.zrange. by replace (Z.to_nat (b - a)) with 0%nat by lia.
Qed.

Lemma zrange_length a b : List.length (Endpoint.zrange a b) = Z.to_nat (b - a).
Proof. unfold Endpoint.zrange. by rewrite length_map, length_seq. Qed.

(** The batches after the first [n], for as long as they start inside
    the program. *)
Lemma batches_prefix (duration : Z) (n : nat) :
  (6 * Z.of_nat n <= duration + 5)%Z ->
  List.concat
    (List.map (fun k => Endpoint.zrange (1 + 6 * Z.of_nat k)
                          (Z.min (1 + 6 * Z.of_nat k + 6) (duration + 1)))
              (seq 0 n))
  = Endpoint.zrange 1 (Z.min (1 + 6 * Z.of_nat n) (duration + 1)).
Proof.
  induction n as [|n IH]; intros H.
  - cbn [seq List.map List.concat]. symmetry. apply zrange_nil. lia.
  - rewrite seq_S, map_app, concat_app, IH by lia.
    cbn [List.map List.concat]. rewrite app_nil_r. change (0 + n)%nat with n.
    replace (Z.min (1 + 6 * Z.of_nat n) (duration + 1)) with (1 + 6 * Z.of_nat n)%Z by lia.
    rewrite zrange_app by lia. f_equal. lia.
Qed.

Lemma month_batches_unfold duration :
  Endpoint.month_batches duration
  = List.map (fun k => Endpoint.zrange (1 + 6 * Z.of_nat k)
                         (Z.min (1 + 6 * Z.of_nat k + 6) (duration + 1)))
             (seq 0 (Z.to_nat ((duration + 5) / 6))).
Proof.
  unfold Endpoint.month_batches, Endpoint.range_step, Endpoint.batch_size.
  rewrite map_map.
  by replace (duration + 1 - 1 + 6 - 1)%Z with (duration + 5)%Z by lia.
Qed.

Lemma month_batches_concat duration :
  List.concat (Endpoint.month_batches duration) = Endpoint.zrange 1 (duration + 1).
Proof.
  rewrite month_batches_unfold.
  destruct (Z.le_gt_cases 0 duration) as [Hd|Hd].
  - pose proof (Z.div_mod (duration + 5) 6 ltac:(lia)) as Hdm.
    pose proof (Z.mod_pos_bound (duration + 5) 6 ltac:(lia)) as Hb.
    rewrite batches_prefix by lia. f_equal. lia.
  - assert (Hn : Z.to_nat ((duration + 5) / 6) = 0%nat).
    { assert ((duration + 5) / 6 < 1)%Z; [|lia].
      apply Z.div_lt_upper_bound; lia. }
    rewrite Hn. cbn [seq List.map List.concat]. symmetry. apply zrange_nil. lia.
Qed.

(** X25. The batches of a long program hold every month from 1 to the last
    exactly once and in order, and each batch has between one and six
    months. *)
Theorem month_batches_partition (duration : Z) :
  List.concat (Endpoint.month_batches duration) = Endpoint.zrange 1 (duration + 1)
  /\ Forall (fun batch => (1 <= List.length batch <= 6)%nat)
            (Endpoint.month_batches duration).
Proof.
  split; [apply month_batches_concat|].
  rewrite month_batches_unfold. apply Forall_forall.
  intros batch [k [<- Hk]]%list_elem_of_In%in_map_iff.
  apply in_seq in Hk. rewrite zrange_length.
  assert (Hd : (0 < (duration + 5) / 6)%Z) by lia.
  assert (6 * ((duration + 5) / 6) <= duration + 5)%Z
    by (apply Z.mul_div_le; lia).
  lia.
Qed.

Lemma mapM_app {A B} (f : A -> result B) l1 l2 :
  mapM f (l1 ++ l2)%list
  = let! a := mapM f l1 in let! b := mapM f l2 in Ok (a ++ b)%list.
Proof.
  induction l1 as [|x l1 IH]; cbn [mapM app bind].
  - by destruct (mapM f l2).
  - destruct (f x) as [y|]; [|done]. cbn [bind]. rewrite IH.
    destruct (mapM f l1) as [a|]; [|done]. cbn [bind].
    by destruct (mapM f l2).
Qed.

Lemma mapM_concat {A B} (f : A -> result B) ls :
  (let! batches := mapM (mapM f) ls in Ok (List.concat batches)) = mapM f (List.concat ls).
Proof.
  induction ls as [|l ls IH]; [done|]. cbn [mapM List.concat]. rewrite mapM_app, <- IH.
  destruct (mapM f l) as [a|]; [|done]. cbn [bind].
  by destruct (mapM (mapM f) ls).
Qed.


Section EndpointFacts.

Context {pyd : Pydantic}.
Variable py_str : json -> string.
Variable web_search : string -> string -> Z -> list json.
Variable json_loads : string -> result json.
Variable today : Z.
Variable reply : Z -> result string.

Lemma gather_months_flat persona duration uid :
  Endpoint.gather_months py_str web_search json_loads today reply persona duration uid
  = Endpoint.gather py_str web_search json_loads today reply persona duration uid
      (Endpoint.zrange 1 (duration + 1)).
Proof.
  unfold Endpoint.gather_months. destruct (12 <=? duration)%Z; [|done].
  unfold Endpoint.gather. by rewrite mapM_concat, month_batches_concat.
Qed.



End EndpointFacts.

(** X26. For a program of twelve months or more the months are generated in
    batches; the months that come back are those that generating months 1
    to the last in one go gives, in the same order. *)
Theorem gather_months_unbatched (pyd : Pydantic) (py_str : json -> string)
  (web_search : string -> string -> Z -> list json)
  (json_loads : string -> result json) (today : Z) (reply : Z -> result string)
  (persona : string) (duration : Z) (uid : option string)
  (months : list MonthlyRoadmap) :
  Endpoint.gather_months py_str web_search json_loads today reply persona duration uid
  = Ok months
  <-> mapM (Endpoint.month_roadmap py_str web_search json_loads today reply
              persona duration uid)
           (Endpoint.zrange 1 (duration + 1))
      = Ok months.
Proof. by rewrite gather_months_flat. Qed.





(** ** The request entry point: the span of a program *)

Lemma zrange_cons a b :
  (a < b)%Z -> Endpoint.zrange a b = a :: Endpoint.zrange (a + 1) b.
Proof.
  intros H. rewrite <- (zrange_app a (a + 1) b) by lia.
  unfold Endpoint.zrange at 1. replace (Z.to_nat (a + 1 - a)) with 1%nat by lia.
  cbn [seq List.map app]. f_equal. lia.
Qed.

Lemma zrange_snoc a b :
  (a < b)%Z -> Endpoint.zrange a b = (Endpoint.zrange a (b - 1) ++ [(b - 1)%Z])%list.
Proof.
  intros H. rewrite <- (zrange_app a (b - 1) b) by lia. f_equal.
  rewrite zrange_cons by lia. by rewrite zrange_nil by lia.
Qed.

Lemma Forall2_last_default {A B} (R : A -> B -> Prop) a l b k :
  R a b -> Forall2 R l k -> R (default a (last l)) (default b (last k)).
Proof.
  intros Hab H. revert a b Hab. induction H as [|x y l k Hxy _ IH]; intros a b Hab; [done|].
  rewrite !last_cons_default. cbn [default]. by apply IH.
Qed.

Lemma combine_attrs persona duration uid first rest obj :
  Endpoint.combine persona duration uid (first :: rest) = Ok obj ->
  getattr obj "user_id" = Some (Endpoint.opt_value uid) /\
  getattr obj "persona_type" = Some (VStr persona) /\
  getattr obj "total_months" = Some (VInt duration) /\
  getattr obj "monthly_roadmaps" = Some (VMonths (List.map validated (first :: rest))) /\
  getattr obj "start_date" = Some (VDate (start_date first)) /\
  getattr obj "end_date" = Some (VDate (end_date (default first (last rest)))).
Proof.
  unfold Endpoint.combine, Endpoint.multi_month_kwargs.
  change (List.map validated (first :: rest)) with (validated <$> (first :: rest)).
  rewrite fmap_last, last_cons_default. cbn [head fmap list_fmap option_fmap option_map bind].
  intros [= <-]. cbn. rewrite start_date_validated, end_date_validated. done.
Qed.

Lemma months_numbers (P : Z -> MonthlyRoadmap -> Prop) ms rs :
  Forall2 (fun m r => requested_month r = m /\ P m r) ms rs ->
  List.map requested_month (List.map validated rs) = ms.
Proof.
  induction 1 as [|m r ms rs [Hr _] _ IH]; [done|].
  cbn [List.map]. by rewrite requested_month_validated, Hr, IH.
Qed.

(** X28. A program of several months that is returned, all of its months
    generated on the day of the request, has one roadmap for each month
    from 1 to the last, in order, each starting thirty days after the one
    before; it starts on that day and ends thirty days times its number
    of months later. *)
Theorem multi_month_span (pyd : Pydantic) (py_str : json -> string)
  (web_search : string -> string -> Z -> list json)
  (json_loads : string -> result json) (today : Z) (reply : Z -> result string)
  (persona : string) (duration : Z) (uid : option string) (obj : model) :
  Endpoint.generate_weekly_roadmap py_str web_search json_loads today reply
    persona duration uid = Ok (Endpoint.Multi obj) ->
  getattr obj "total_months" = Some (VInt duration) /\
  getattr obj "start_date" = Some (VDate today) /\
  getattr obj "end_date" = Some (VDate (today + duration * 30)) /\
  exists months,
    getattr obj "monthly_roadmaps" = Some (VMonths months) /\
    List.map requested_month months = Endpoint.zrange 1 (duration + 1) /\
    Forall (fun roadmap =>
              start_date roadmap = (today + (requested_month roadmap - 1) * 30)%Z /\
              end_date roadmap = (today + requested_month roadmap * 30)%Z)
           months.
Proof.
  intros Hrun. apply to_http_ok in Hrun.
  unfold Endpoint.generate_weekly_roadmap in Hrun.
  destruct (negb (nonempty persona)); [discriminate|].
  destruct (duration <? 1)%Z eqn:Hd; [discriminate|]. apply Z.ltb_ge in Hd.
  destruct (duration =? 1)%Z eqn:H1.
  { destruct (Endpoint.month_roadmap _ _ _ _ _ _ _ _ _); discriminate. }
  apply Z.eqb_neq in H1.
  destruct (Endpoint.gather_months _ _ _ _ _ _ _ _) as [months|] eqn:Hg; [|discriminate].
  cbn [bind] in Hrun.
  destruct (Endpoint.combine persona duration uid months) as [multi|] eqn:Hc; [|discriminate].
  injection Hrun as ->.
  rewrite gather_months_flat in Hg. unfold Endpoint.gather in Hg. apply mapM_ok in Hg.
  assert (Hfacts : Forall2 (fun m r =>
                              requested_month r = m /\
                              start_date r = (today + (m - 1) * 30)%Z /\
                              end_date r = (today + m * 30)%Z)
                           (Endpoint.zrange 1 (duration + 1)) months).
  { eapply Forall2_impl; [exact Hg|]. intros m r Hm.
    apply generated_month_facts in Hm. tauto. }
  clear Hg. rewrite zrange_cons in Hfacts by lia.
  inversion Hfacts as [|m1 first ms rest (Hr1 & Hs1 & He1) Hrest]; subst.
  destruct (combine_attrs _ _ _ _ _ _ Hc) as (_ & _ & Ht & Hm & Hs & He).
  split; [done|]. split; [rewrite Hs, Hs1; do 2 f_equal; lia|]. split.
  - rewrite He. do 2 f_equal.
    assert (Hlast : default 1%Z (last (Endpoint.zrange (1 + 1)%Z (duration + 1))) = duration).
    { rewrite zrange_snoc by lia. rewrite last_snoc. cbn. lia. }
    pose proof (Forall2_last_default _ 1%Z _ first _ (conj Hr1 (conj Hs1 He1)) Hrest)
      as (_ & _ & Hend).
    by rewrite Hend, Hlast.
  - exists (List.map validated (first :: rest)). split; [done|]. split.
    + rewrite zrange_cons by lia. revert Hfacts. apply months_numbers.
    + apply Forall_forall. intros r [r0 [<- Hr0]]%list_elem_of_In%in_map_iff.
      rewrite requested_month_validated, start_date_validated, end_date_validated.
      clear -Hfacts Hr0. induction Hfacts as [|m r ms rs (Hr & Hs & He) _ IH]; [done|].
      destruct Hr0 as [<-|Hr0]; [by rewrite Hr|auto].
Qed.

Lemma multi_month_span_witness :
  exists obj,
    Endpoint.generate_weekly_roadmap (pyd := strict_pydantic) no_render no_results
      (fixed_loads (doc_of [sample_week 1] (JArr [JStr "a"; JStr "b"])))
      738000 (fun _ => Ok "{}") "INTJ" 2 None = Ok (Endpoint.Multi obj) /\
    getattr obj "end_date" = Some (VDate 738060).
Proof.
  eexists. split; [reflexivity|].
  match goal with
  | |- getattr ?o _ = _ =>
      destruct (multi_month_span strict_pydantic no_render no_results
                  (fixed_loads (doc_of [sample_week 1] (JArr [JStr "a"; JStr "b"])))
                  738000 (fun _ => Ok "{}") "INTJ" 2 None o eq_refl)
        as (_ & _ & Hend & _)
  end.
  exact Hend.
Defined.

(** ** The request entry point: the detail of a failure *)

Lemma lower_char_not_A c : Ascii.eqb "A" (lower_char c) = false.
Proof. destruct c as [[] [] [] [] [] [] [] []]; reflexivity. Qed.

Lemma lower_no_A s : all_chars (fun c => negb (Ascii.eqb "A" c)) (lower s) = true.
Proof.
  induction s as [|c s IH]; [done|]. cbn [lower all_chars].
  by rewrite lower_char_not_A, IH.
Qed.

Lemma contains_free a p s :
  all_chars (fun c => negb (Ascii.eqb a c)) s = true -> contains (String a p) s = false.
Proof.
  induction s as [|c s IH]; intros H; [done|].
  rewrite contains_cons, (prefix_free _ _ _ H).
  cbn [all_chars] in H. apply andb_true_iff in H as [_ H]. by rewrite IH.
Qed.

Lemma lower_app s t : lower (s ++ t) = lower s ++ lower t.
Proof.
  induction s as [|c s IH]; [done|]. rewrite append_cons. cbn [lower].
  by rewrite IH, append_cons.
Qed.

Lemma error_detail_parse pre post :
  Endpoint.error_detail (pre ++ "Failed to parse JSON response: " ++ post)
  = Endpoint.malformed_detail.
Proof.
  unfold Endpoint.error_detail.
  rewrite (contains_free "A" "PI key" _ (lower_no_A _)).
  rewrite !lower_app.
  change (lower "Failed to parse JSON response: ")
    with ("failed to " ++ "parse json" ++ " response: ").
  rewrite !append_assoc, <- (append_assoc (lower pre) "failed to ").
  by rewrite contains_app.
Qed.

(** X29. The test for an API key error looks for capital letters in a
    lowered message, so it never holds: no failure is answered with the
    detail about the API key. *)
Theorem api_key_detail_unreachable (msg : string) :
  contains "API key" (lower msg) = false
  /\ Endpoint.error_detail msg <> Endpoint.api_key_detail.
Proof.
  pose proof (contains_free "A" "PI key" _ (lower_no_A msg)) as H.
  split; [exact H|]. unfold Endpoint.error_detail. rewrite H.
  destruct (_ || _); [discriminate|].
  unfold Endpoint.api_key_detail. rewrite !append_cons. discriminate.
Qed.

(** X30. A reply that cannot be parsed is answered with the detail about
    malformed JSON, whatever the decoder's message: the failure of its
    month is the date overflow or carries the words that the endpoint
    looks for. *)
Theorem unparsable_reply_detail (pyd : Pydantic) (py_str : json -> string)
  (web_search : string -> string -> Z -> list json)
  (json_loads : string -> result json) (builtin : exn -> string)
  (persona : string) (duration : Z) (uid : option string) (current_month today : Z)
  (text : string) (e : exn) :
  is_ok (generate_content json_loads (Ok text)) = false ->
  generate_weekly_roadmap py_str web_search json_loads persona duration uid
    current_month today (Ok text) = Err e ->
  e = OverflowError
  \/ Endpoint.error_detail (Endpoint.str_exn builtin e) = Endpoint.malformed_detail.
Proof.
  intros Hgc. unfold generate_weekly_roadmap, date_plus.
  destruct (_ && _); cbn [bind]; [|intros [= <-]; by left].
  destruct (_ && _); cbn [bind]; [|intros [= <-]; by left].
  destruct (generate_content json_loads (Ok text)) as [doc|c] eqn:E; [discriminate|].
  cbn [bind]. intros [= <-]. right.
  unfold generate_content in E.
  destruct (safe_parse_json json_loads (strip_fences text)) as [|json_err]; [discriminate|].
  destruct (json_loads (sanitize_json_string (strip_fences text))); [discriminate|].
  injection E as <-. cbn [Endpoint.str_exn].
  rewrite <- (append_assoc "Failed to generate weekly roadmap: "
                "Failed to generate content: ").
  apply error_detail_parse.
Qed.

Lemma unparsable_reply_detail_witness :
  Endpoint.error_detail
    (Endpoint.str_exn (fun _ => "Expecting value")
       (Chained "Failed to generate weekly roadmap: "
          (Chained "Failed to generate content: "
             (Chained "Failed to parse JSON response: "
                (ValueError "Failed to parse JSON after multiple attempts: "
                   (JSONDecodeError "Expecting value"))))))
  = Endpoint.malformed_detail.
Proof.
  destruct (unparsable_reply_detail strict_pydantic no_render no_results null_loads
              (fun _ => "Expecting value") "INTJ" 1 None 1 738000 "x" _ eq_refl eq_refl)
    as [H|H]; [discriminate H|exact H].
Defined.
